(** * ebfret.py: collapsed SVI on a hidden Markov model

    A shallow embedding of [examples/contrib/funsor/ebfret.py].  The script
    is glue around a probabilistic-programming framework, so the embedding
    keeps the script's own control flow and data handling and treats every
    framework call as an oracle; the calls that run the model or the guide
    ([get_trace], [svi.step], [elbo.loss]) either return or raise:

    - the module namespace ([globals()]) and the [models] registry built
      from it;
    - the generative [model] as the sequence of [pyro.param] and
      [pyro.sample] statements it issues;
    - [main] as a computation in a small monad that threads the framework
      state, records framework calls and log lines, and can raise a Python
      exception;
    - tensors as index functions with explicit dimensions, integer
      tensors of lengths as lists of [Z]. *)

From Stdlib Require Import ZArith List String Ascii Bool Lia DecimalString.
From Stdlib Require DecimalPos DecimalZ.
From Stdlib Require Import Sorted.
Import ListNotations.
Local Open Scope string_scope.
Local Open Scope list_scope.

(* ===================================================================== *)
(** ** Python values and built-ins used by the script *)
(* ===================================================================== *)

Module Py.

(** The exceptions that can end a run: those the script's own statements
    raise, and [FrameworkError c] for an exception of class [c] that
    comes out of a framework call (for instance the [TypeError] of
    calling a function with arguments it does not take). *)
Inductive exn : Type :=
| KeyError (key : string)
| NameError (name : string)
| AttributeError (attr : string)
| IndexError
| ZeroDivisionError
| AssertionError
| NotImplementedError (msg : string)
| RuntimeError
| FrameworkError (class : string).



(** [s.startswith(p)] *)
Fixpoint startswith (s p : string) {struct p} : bool :=
  match p with
  | EmptyString => true
  | String c p' =>
      match s with
      | EmptyString => false
      | String d s' => Ascii.eqb c d && startswith s' p'
      end
  end.

(** [s[n:]] for [0 <= n] *)
Fixpoint drop (n : nat) (s : string) : string :=
  match n with
  | O => s
  | S n' => match s with EmptyString => EmptyString | String _ s' => drop n' s' end
  end.

(** ["{}".format(i)] for an [int] *)
Definition str_int (i : Z) : string := NilZero.string_of_int (Z.to_int i).

(** [range(n)]: empty when [n <= 0] *)
Definition range (n : Z) : list Z := map Z.of_nat (seq 0 (Z.to_nat n)).

(** Number of elements selected by the slice [[:t]] on an axis of
    length [n]: a negative bound counts from the end. *)
Definition slice_stop (n : nat) (t : Z) : nat :=
  if (t <? 0)%Z then Z.to_nat (Z.max 0 (Z.of_nat n + t))
  else Nat.min (Z.to_nat t) n.

(** Truth value of an optional integer ([None] and [0] are false). *)
Definition truthy (o : option Z) : bool :=
  match o with
  | None => false
  | Some t => negb (t =? 0)%Z
  end.

(** Objects bound in a module namespace.  Identity ([is]) is the
    object id; [__name__] exists on functions and modules. *)
Inductive kind : Type :=
| Function (name : string)
| Module (name : string)
| Instance.

Record obj : Type := mkObj { oid : nat; okind : kind }.

Definition get_name (o : obj) : exn + string :=
  match okind o with
  | Function n | Module n => inr n
  | Instance => inl (AttributeError "__name__")
  end.

(** A dict with string keys, in insertion order. *)
Definition dict (V : Type) : Type := list (string * V).

Fixpoint get {V} (d : dict V) (k : string) : option V :=
  match d with
  | [] => None
  | (k', v) :: d' => if String.eqb k k' then Some v else get d' k
  end.

Definition keys {V} (d : dict V) : list string := map fst d.

End Py.

(* ===================================================================== *)
(** ** The module namespace and the [models] registry *)
(* ===================================================================== *)

Definition namespace : Type := Py.dict Py.obj.

(** The function object created by [def model(data, num_states, vectorized)]. *)
Definition model_fn : Py.obj := Py.mkObj 28 (Py.Function "model").

(** [globals()] when line 115 runs: the names the interpreter provides for
    a module, then every name bound by the imports, assignments and the
    one [def] above that line, in binding order.  The names bound later
    ([models], [main] and those of lines 274-320) are none of the names
    [main] looks up here. *)
Definition script_globals : namespace :=
  [ ("__name__", Py.mkObj 0 Py.Instance);
    ("__doc__", Py.mkObj 1 Py.Instance);
    ("__package__", Py.mkObj 2 Py.Instance);
    ("__loader__", Py.mkObj 3 Py.Instance);
    ("__spec__", Py.mkObj 4 Py.Instance);
    ("__annotations__", Py.mkObj 5 Py.Instance);
    ("__builtins__", Py.mkObj 6 (Py.Module "builtins"));
    ("__file__", Py.mkObj 7 Py.Instance);
    ("__cached__", Py.mkObj 8 Py.Instance);
    ("argparse", Py.mkObj 9 (Py.Module "argparse"));
    ("functools", Py.mkObj 10 (Py.Module "functools"));
    ("logging", Py.mkObj 11 (Py.Module "logging"));
    ("sys", Py.mkObj 12 (Py.Module "sys"));
    ("torch", Py.mkObj 13 (Py.Module "torch"));
    ("nn", Py.mkObj 14 (Py.Module "torch.nn"));
    ("constraints", Py.mkObj 15 (Py.Module "torch.distributions.constraints"));
    ("poly", Py.mkObj 16 (Py.Module "pyro.contrib.examples.polyphonic_data_loader"));
    ("AutoDelta", Py.mkObj 17 Py.Instance);
    ("Vindex", Py.mkObj 18 Py.Instance);
    ("ignore_jit_warnings", Py.mkObj 19 (Py.Function "ignore_jit_warnings"));
    ("pyro", Py.mkObj 20 (Py.Module "pyro"));
    ("dist", Py.mkObj 21 Py.Instance);
    ("handlers", Py.mkObj 22 Py.Instance);
    ("infer", Py.mkObj 23 Py.Instance);
    ("optim", Py.mkObj 24 Py.Instance);
    ("pyro_backend", Py.mkObj 25 (Py.Function "pyro_backend"));
    ("log", Py.mkObj 26 Py.Instance);
    ("debug_handler", Py.mkObj 27 Py.Instance);
    ("model", model_fn) ].

(** Lines 115-119:
    [{name[len("model_"):]: model for name, model in globals().items()
      if name.startswith("model_")}] *)
Definition models (g : namespace) : Py.dict Py.obj :=
  map (fun '(name, model) => (Py.drop (String.length "model_") name, model))
      (filter (fun '(name, _) => Py.startswith name "model_") g).

(* ===================================================================== *)
(** ** Tensors and the data set *)
(* ===================================================================== *)

(** A three-dimensional integer tensor [sequences[i, j, k]]: sequence [i],
    time step [j], note [k].  Entries outside the dimensions are never
    read. *)
Record tensor3 : Type := mkT3 {
  dim0 : nat;
  dim1 : nat;
  dim2 : nat;
  entry : nat -> nat -> nat -> Z
}.

Record tensor2 : Type := mkT2 {
  rows : nat;
  cols : nat;
  entry2 : nat -> nat -> Z
}.

(** [f 0 + ... + f (n-1)] *)
Fixpoint sum_below (n : nat) (f : nat -> Z) : Z :=
  match n with
  | O => 0%Z
  | S n' => (sum_below n' f + f n')%Z
  end.

(** [t == 1], as a 0/1 tensor *)
Definition eq_one (t : tensor3) : tensor3 :=
  mkT3 (dim0 t) (dim1 t) (dim2 t)
       (fun i j k => if (entry t i j k =? 1)%Z then 1%Z else 0%Z).

(** [t.sum(0)] on three and on two dimensions *)
Definition sum0 (t : tensor3) : tensor2 :=
  mkT2 (dim1 t) (dim2 t) (fun j k => sum_below (dim0 t) (fun i => entry t i j k)).

Definition sum0_2 (t : tensor2) : list Z :=
  map (fun k => sum_below (rows t) (fun j => entry2 t j k)) (seq 0 (cols t)).

(** [v > 0] *)
Definition gt_zero (v : list Z) : list bool := map (fun x => (0 <? x)%Z) v.

(** Positions of the [True] entries of a boolean mask, counted from [k]. *)
Fixpoint true_positions (mask : list bool) (k : nat) : list nat :=
  match mask with
  | [] => []
  | b :: mask' => (if b then [k] else []) ++ true_positions mask' (S k)
  end.

(** The notes a mask keeps, in their order. *)
Definition select_notes (t : tensor3) (mask : list bool) : tensor3 :=
  let pos := true_positions mask 0 in
  mkT3 (dim0 t) (dim1 t) (List.length pos)
       (fun i j k => entry t i j (nth k pos 0%nat)).

(** [t[..., mask]]: the mask must be as long as the last axis. *)
Definition index_notes (t : tensor3) (mask : list bool) : Py.exn + tensor3 :=
  if Nat.eqb (List.length mask) (dim2 t) then inr (select_notes t mask)
  else inl Py.IndexError.

(** [t[:, :n]] *)
Definition slice_time (t : tensor3) (n : Z) : tensor3 :=
  mkT3 (dim0 t) (Py.slice_stop (dim1 t) n) (dim2 t) (entry t).

(** The lengths are an int64 tensor: a scalar handed to one of its
    operations must fit that type. *)
Definition fits_int64 (n : Z) : bool := (- 2 ^ 63 <=? n)%Z && (n <? 2 ^ 63)%Z.

(** [lengths.clamp(max=n)], for a bound that fits int64 (see
    [clamp_bound] for the others) *)
Definition clamp_max (lengths : list Z) (n : Z) : list Z := map (fun l => Z.min l n) lengths.

(** [float(lengths.sum())], lines 147 and 251: the exact sum, which is
    what the tensor and the float hold as long as it stays below 2^53 in
    absolute value. *)
Definition sum_lengths (lengths : list Z) : Z := fold_left Z.add lengths 0%Z.

(** What [poly.load_data(poly.JSB_CHORALES)] returns, as far as [main]
    reads it. *)
Record split : Type := mkSplit {
  sequences : tensor3;
  sequence_lengths : list Z
}.

Record dataset : Type := mkData {
  train : split;
  test : split
}.

(* ===================================================================== *)
(** ** The generative model (lines 85-112) *)
(* ===================================================================== *)

(** Values the Markov loop yields: an [int] from [range], or whatever
    object the vectorized loop of the framework yields (known by its
    [str]). *)
Inductive index : Type :=
| IntIdx (t : Z)
| ObjIdx (repr : string).

Definition fmt (t : index) : string :=
  match t with
  | IntIdx i => Py.str_int i
  | ObjIdx r => r
  end.

(** Tensor-valued expressions handed to the distributions. *)
Inductive expr : Type :=
| NoneVal
| ParamVal (name : string)
| SampleVal (name : string)
| Mul (a b : expr)
| GetItem (a i : expr)
| VindexLast (a i : expr)
| DataAt (t : index).

Inductive distribution : Type :=
| Dirichlet (concentration : expr)
| Gamma (concentration rate : expr)
| Normal (loc scale : expr)
| Categorical (probs : expr).

Inductive site_type : Type := param_site | sample_site.

(** A [with pyro.plate(name, size, dim=dim)] block. *)
Record plate : Type := mkPlate {
  plate_name : string;
  plate_size : Z;
  plate_dim : Z
}.

(** The message of one [pyro.param] or [pyro.sample] statement, with the
    plate blocks it is written in, outermost first. *)
Record msg : Type := mkMsg {
  type : site_type;
  name : string;
  fn : option distribution;
  infer : Py.dict string;
  obs : option expr;
  plates : list plate
}.

Definition param_stmt (pl : list plate) (n : string) : msg :=
  mkMsg param_site n None [] None pl.

Definition sample_stmt (pl : list plate) (n : string) (d : distribution)
    (inf : Py.dict string) (o : option expr) : msg :=
  mkMsg sample_site n (Some d) inf o pl.

(** [data[t]]: an [int] indexes the first axis and must be in range. *)
Definition data_at (data : tensor3) (t : index) : Py.exn + expr :=
  match t with
  | IntIdx i =>
      if ((- Z.of_nat (dim0 data) <=? i) && (i <? Z.of_nat (dim0 data)))%Z
      then inr (DataAt t) else inl Py.IndexError
  | ObjIdx _ => inr (DataAt t)
  end.

(** [isinstance(t, int) and t < 1] *)
Definition is_first (t : index) : bool :=
  match t with
  | IntIdx i => (i <? 1)%Z
  | ObjIdx _ => false
  end.

(** Lines 102-106: the latent state of step [t] *)
Definition z_site (pl : list plate) (t : index) (z_prev : expr) : msg :=
  sample_stmt pl ("z_" ++ fmt t)%string
    (Categorical (if is_first t then SampleVal "pi"
                  else GetItem (SampleVal "A") z_prev))
    [("enumerate", "parallel")] None.

(** Lines 107-111: the observation of step [t] *)
Definition x_site (pl : list plate) (t : index) (d : expr) : msg :=
  let z_curr := SampleVal ("z_" ++ fmt t)%string in
  sample_stmt pl ("x_" ++ fmt t)%string
    (Normal (VindexLast (SampleVal "mu") z_curr)
            (VindexLast (SampleVal "lamda") z_curr))
    [] (Some d).

(** The body of [for t in markov_loop], lines 101-112, run inside the
    plates [pl] over the values the loop yields; it stops at the first
    exception. *)
Fixpoint markov_steps (pl : list plate) (data : tensor3) (loop : list index)
    (z_prev : expr) : list msg * (Py.exn + unit) :=
  match loop with
  | [] => ([], inr tt)
  | t :: loop' =>
      match data_at data t with
      | inl e => ([z_site pl t z_prev], inl e)
      | inr d =>
          let '(tr, r) :=
            markov_steps pl data loop' (SampleVal ("z_" ++ fmt t)%string) in
          (z_site pl t z_prev :: x_site pl t d :: tr, r)
      end
  end.

Section Model.

(** [pyro.vectorized_markov(name, size, dim)] belongs to the framework:
    only the values it yields matter here. *)
Variable vectorized_markov : string -> nat -> Z -> list index.

Definition markov_loop (data : tensor3) (vectorized : bool) : list index :=
  if vectorized then vectorized_markov "time" (dim1 data) (-2)%Z
  else map IntIdx (Py.range (Z.of_nat (dim1 data))).

(** Line 86 and line 88 *)
Definition trace_plate (data : tensor3) : plate :=
  mkPlate "trace" (Z.of_nat (dim0 data)) (-1)%Z.

Definition state_plate (num_states : Z) : plate :=
  mkPlate "state" num_states (-2)%Z.

(** Statements issued before the loop, lines 87-93. *)
Definition model_header (data : tensor3) (num_states : Z) : list msg :=
  let outer := [trace_plate data] in
  let inner := [trace_plate data; state_plate num_states] in
  [ param_stmt outer "rho";
    sample_stmt outer "pi" (Dirichlet (ParamVal "rho")) [] None;
    param_stmt inner "alpha";
    sample_stmt inner "A" (Dirichlet (ParamVal "alpha")) [] None;
    param_stmt inner "a";
    param_stmt inner "b";
    sample_stmt inner "lamda" (Gamma (ParamVal "a") (ParamVal "b")) [] None;
    param_stmt inner "m";
    param_stmt inner "beta";
    sample_stmt inner "mu"
      (Normal (ParamVal "m") (Mul (ParamVal "beta") (SampleVal "lamda"))) [] None ].

(** Lines 85-112: the statements a run of the model issues, in order,
    and how the script's own expressions end it.  The statements are
    those of a run in which every [pyro.param], [pyro.sample] and plate
    returns; when one of them raises, what was issued is a beginning of
    this list. *)
Definition model (data : tensor3) (num_states : Z) (vectorized : bool)
  : list msg * (Py.exn + unit) :=
  let inner := [trace_plate data; state_plate num_states] in
  let '(tr, r) := markov_steps inner data (markov_loop data vectorized) NoneVal in
  (model_header data num_states ++ tr, r).

End Model.

(* ===================================================================== *)
(** ** Command-line arguments (lines 276-309) *)
(* ===================================================================== *)

Module Args.

Record t : Type := mk {
  model : string;
  num_steps : Z;
  batch_size : Z;
  hidden_dim : Z;
  nn_dim : Z;
  nn_channels : Z;
  learning_rate : string;          (* a float, kept as its literal *)
  truncate : option Z;
  print_shapes : bool;
  seed : Z;
  cuda : bool;
  jit : bool;
  time_compilation : bool;
  raftery_parameterization : bool;
  tmc : bool;
  tmc_num_samples : Z;
  funsor : bool
}.

(** The values [parse_args] produces for an empty command line. *)
Definition default : t :=
  mk "1" 50 8 16 48 2 "0.05" None false 0 false false false false false 10 false.

End Args.

(* ===================================================================== *)
(** ** Data preparation (lines 136-147 and 247-251) *)
(* ===================================================================== *)

(** Line 140: [(sequences == 1).sum(0).sum(0) > 0] *)
Definition present_notes_of (seqs : tensor3) : list bool :=
  gt_zero (sum0_2 (sum0 (eq_one seqs))).

(** The conversion of the bound by [clamp] at lines 145 and 250: a
    bound outside int64 raises [RuntimeError]. *)
Definition clamp_bound (args : Args.t) : Py.exn + unit :=
  if Py.truthy (Args.truncate args) then
    match Args.truncate args with
    | Some n => if fits_int64 n then inr tt else inl Py.RuntimeError
    | None => inr tt
    end
  else inr tt.

(** Lines 144-146, once the bound is converted *)
Definition truncate_training (args : Args.t) (lengths : list Z) (seqs : tensor3)
  : list Z * tensor3 :=
  if Py.truthy (Args.truncate args) then
    match Args.truncate args with
    | Some n => (clamp_max lengths n, slice_time seqs n)
    | None => (lengths, seqs)
    end
  else (lengths, seqs).

(** Lines 249-250, once the bound is converted *)
Definition truncate_test (args : Args.t) (lengths : list Z) : list Z :=
  if Py.truthy (Args.truncate args) then
    match Args.truncate args with
    | Some n => clamp_max lengths n
    | None => lengths
    end
  else lengths.

(** The local variables of [main] after line 147. *)
Record prepared : Type := mkPrepared {
  present_notes : list bool;
  p_sequences : tensor3;
  p_lengths : list Z;
  num_observations : Z              (* [float(lengths.sum())] *)
}.

(** Lines 136-147 *)
Definition prepare_training (args : Args.t) (data : dataset) : Py.exn + prepared :=
  let seqs := sequences (train data) in
  let lengths := sequence_lengths (train data) in
  let mask := present_notes_of seqs in
  match index_notes seqs mask with
  | inl e => inl e
  | inr seqs' =>
      match clamp_bound args with
      | inl e => inl e
      | inr _ =>
          let '(lengths', seqs'') := truncate_training args lengths seqs' in
          inr (mkPrepared mask seqs'' lengths' (sum_lengths lengths'))
      end
  end.

(** Lines 247-251, with the mask computed at line 140 *)
Definition prepare_test (args : Args.t) (data : dataset) (mask : list bool)
  : Py.exn + prepared :=
  match index_notes (sequences (test data)) mask with
  | inl e => inl e
  | inr seqs =>
      match clamp_bound args with
      | inl e => inl e
      | inr _ =>
          let lengths := truncate_test args (sequence_lengths (test data)) in
          inr (mkPrepared mask seqs lengths (sum_lengths lengths))
      end
  end.

(* ===================================================================== *)
(** ** Objects handed to the framework *)
(* ===================================================================== *)

Inductive config_value : Type :=
| IntV (i : Z)
| BoolV (b : bool).

Inductive elbo_class : Type :=
| TraceTMC_ELBO
| JitTraceTMC_ELBO
| TraceMarkovEnum_ELBO
| JitTraceMarkovEnum_ELBO
| TraceEnum_ELBO
| JitTraceEnum_ELBO.

(** An objective with the keyword arguments it was constructed with. *)
Record elbo : Type := mkElbo {
  elbo_class_of : elbo_class;
  max_plate_nesting : Z;
  strict_enumeration_warning : option bool;
  jit_options : option (Py.dict bool)
}.

Inductive optimizer : Type :=
| Adam (lr : string).

(** Line 156: [lambda msg: msg["name"].startswith("probs_")] *)
Definition expose_fn (m : msg) : bool := Py.startswith (name m) "probs_".

(** Lines 191-193: the configuration given to enumerated sites under TMC *)
Definition tmc_config (args : Args.t) (m : msg) : Py.dict config_value :=
  match Py.get (infer m) "enumerate" with
  | Some v =>
      if String.eqb v "parallel"
      then [("num_samples", IntV (Args.tmc_num_samples args)); ("expand", BoolV false)]
      else []
  | None => []
  end.

Section Script.

(** Owned by the framework: floats, recorded traces, and the state that
    framework calls read and update (parameter store, random state,
    optimizer state). *)
Variable float : Type.
Variable trace_obj : Type.
Variable FW : Type.

(** Callables built by the script. *)
Inductive callable : Type :=
| Global (o : Py.obj)
| Partial (c : callable) (args : Args.t)
| AutoDelta (c : callable)
| Block (c : callable) (expose : msg -> bool)
| Enum (c : callable) (first_available_dim : Z)
| Replay (c : callable) (guide_trace : trace_obj)
| InferConfig (c : callable) (config : msg -> Py.dict config_value).

(** [c is o]: only a name bound to the very object is identical to it;
    every wrapper is a new object. *)
Definition is_ (c : callable) (o : Py.obj) : bool :=
  match c with
  | Global o' => Nat.eqb (Py.oid o') (Py.oid o)
  | _ => false
  end.

Record svi : Type := mkSVI {
  svi_model : callable;
  svi_guide : callable;
  svi_optim : optimizer;
  svi_loss : elbo
}.

(** A parameter value: a float tensor of any rank. *)
Record tensor : Type := mkTensor {
  shape : list nat;
  storage : list float
}.

Definition numel_of_shape (s : list nat) : nat := fold_right Nat.mul 1%nat s.

(** [value.reshape(-1)]: one axis holding every element *)
Definition reshape_flat (v : tensor) : tensor :=
  mkTensor [numel_of_shape (shape v)] (storage v).

(** [value.size(0)] of a tensor with at least one axis *)
Definition size0 (v : tensor) : Z := Z.of_nat (hd 0%nat (shape v)).

(** Lines 268-270 *)
Definition capacity_of (values : list tensor) : Z :=
  fold_left Z.add (map (fun value => size0 (reshape_flat value)) values) 0%Z.

(** [loss / num_observations], not evaluated *)
Record quotient : Type := mkQuot { numerator : float; denominator : Z }.

Inductive message : Type :=
| Loading_data
| Rule (width : nat)
| Training_on (model_name : string) (n : nat)
| Shapes (s : string)
| Step_Loss
| Step (step : Z) (q : quotient)
| Time_to_compile
| Training_loss (q : quotient)
| Evaluating_on (n : nat)
| Test_loss (q : quotient)
| Capacity (model : string) (capacity : Z).

(** What a run of the script does that is visible outside it. *)
Inductive event : Type :=
| funsor_set_backend (b : string)
| pyro_backend (b : string)
| set_default_tensor_type (ty : string)
| load_data
| logging_info (m : message)
| logging_debug (m : message)
| set_rng_seed (seed : Z)
| clear_param_store
| get_trace (c : callable) (seqs : tensor3) (lengths : list Z) (args : Args.t) (batch_size : Z)
| svi_step (s : svi) (seqs : tensor3) (lengths : list Z) (batch_size : Z)
| elbo_loss (e : elbo) (model guide : callable) (seqs : tensor3) (lengths : list Z)
            (batch_size : Z) (include_prior : bool)
| get_param_store.

(** The framework calls whose results the script uses.  The three that
    run the model and the guide either return or raise: [inl c] stands
    for an exception of class [c]. *)
Record framework : Type := mkFramework {
  run_set_default_tensor_type : string -> FW -> FW;
  run_set_rng_seed : Z -> FW -> FW;
  run_clear_param_store : FW -> FW;
  run_get_trace : callable -> tensor3 -> list Z -> Args.t -> Z -> FW
                  -> string + trace_obj * FW;
  format_shapes : trace_obj -> string;
  run_svi_step : svi -> tensor3 -> list Z -> Z -> FW -> string + float * FW;
  run_elbo_loss : elbo -> callable -> callable -> tensor3 -> list Z -> Z -> bool -> FW
                  -> string + float * FW;
  param_store_values : FW -> list tensor
}.

Variable F : framework.

(** *** The script monad: framework state, event log, exceptions *)

Definition M (A : Type) : Type := FW -> list event * (Py.exn + A * FW).

Definition ret {A} (a : A) : M A := fun w => ([], inr (a, w)).

Definition raise {A} (e : Py.exn) : M A := fun _ => ([], inl e).

Definition bind {A B} (m : M A) (f : A -> M B) : M B :=
  fun w =>
    let '(tr, r) := m w in
    match r with
    | inl e => (tr, inl e)
    | inr (a, w') => let '(tr', r') := f a w' in (tr ++ tr', r')
    end.

Definition emit (ev : event) : M unit := fun w => ([ev], inr (tt, w)).

Definition lift {A} (r : Py.exn + A) : M A :=
  match r with
  | inl e => raise e
  | inr a => ret a
  end.

(** A framework call: logged, then run on the framework state; an
    exception that comes out of it ends the run. *)
Definition call {A} (ev : event) (run : FW -> string + A * FW) : M A :=
  fun w => ([ev], match run w with
                  | inl c => inl (Py.FrameworkError c)
                  | inr r => inr r
                  end).

Definition update (ev : event) (run : FW -> FW) : M unit :=
  fun w => ([ev], inr (tt, run w)).

Definition when (b : bool) (m : M unit) : M unit := if b then m else ret tt.

Local Notation "x <- c1 ;; c2" := (bind c1 (fun x => c2))
  (at level 61, c1 at next level, right associativity).
Local Notation "c1 ;; c2" := (bind c1 (fun _ => c2))
  (at level 61, right associativity).

(** [x / n] for a float [x] and [n = float(...)]: Python raises on a
    zero divisor. *)
Definition divide (x : float) (n : Z) : M quotient :=
  if (n =? 0)%Z then raise Py.ZeroDivisionError else ret (mkQuot x n).

(** *** [main], lines 122-271 *)

(** Line 130: [models[args.model]] *)
Definition lookup_model (g : namespace) (args : Args.t) : Py.exn + Py.obj :=
  match Py.get (models g) (Args.model args) with
  | Some m => inr m
  | None => inl (Py.KeyError (Args.model args))
  end.

(** Reading a global name that the function does not assign. *)
Definition global (g : namespace) (n : string) : Py.exn + Py.obj :=
  match Py.get g n with
  | Some o => inr o
  | None => inl (Py.NameError n)
  end.

(** Lines 155-157 *)
Definition make_guide (model : Py.obj) : callable :=
  AutoDelta (Block (Global model) expose_fn).

(** Lines 162-175 *)
Definition print_shapes (args : Args.t) (model : Py.obj) (guide : callable)
    (p : prepared) : M unit :=
  when (Args.print_shapes args) (
    let first_available_dim :=
      if String.eqb (Args.model args) "0" then (-2)%Z
      else if String.eqb (Args.model args) "7" then (-4)%Z
      else (-3)%Z in
    guide_trace <-
      call (get_trace guide (p_sequences p) (p_lengths p) args (Args.batch_size args))
           (run_get_trace F guide (p_sequences p) (p_lengths p) args (Args.batch_size args)) ;;
    let replayed := Replay (Enum (Global model) first_available_dim) guide_trace in
    model_trace <-
      call (get_trace replayed (p_sequences p) (p_lengths p) args (Args.batch_size args))
           (run_get_trace F replayed (p_sequences p) (p_lengths p) args (Args.batch_size args)) ;;
    emit (logging_info (Shapes (format_shapes F model_trace)))).

(** Lines 183-217: the optimizer, the objective and the [SVI] object.
    [model] and [guide] are the partial applications of lines 178-179. *)
Definition select_objective (g : namespace) (args : Args.t) (model guide : callable)
  : Py.exn + svi :=
  let optimizer := Adam (Args.learning_rate args) in
  if Args.tmc args then
    if Args.jit args && negb (Args.funsor args) then
      inl (Py.NotImplementedError "jit support not yet added for TraceTMC_ELBO")
    else
      let Elbo := if Args.jit args then JitTraceTMC_ELBO else TraceTMC_ELBO in
      match global g "model_0" with
      | inl e => inl e
      | inr model_0 =>
          let elbo := mkElbo Elbo (if is_ model model_0 then 1 else 2)%Z None None in
          let tmc_model := InferConfig model (tmc_config args) in
          inr (mkSVI tmc_model guide optimizer elbo)
      end
  else
    match
      (if String.eqb (Args.model args) "7" then
         if Args.funsor args then
           inr (if Args.jit args then JitTraceMarkovEnum_ELBO else TraceMarkovEnum_ELBO)
         else inl Py.AssertionError
       else inr (if Args.jit args then JitTraceEnum_ELBO else TraceEnum_ELBO))
    with
    | inl e => inl e
    | inr Elbo =>
        let max_plate_nesting :=
          if String.eqb (Args.model args) "0" then 1%Z
          else if String.eqb (Args.model args) "7" then 3%Z
          else 2%Z in
        let elbo :=
          mkElbo Elbo max_plate_nesting (Some true)
                 (Some [("time_compilation", Args.time_compilation args)]) in
        inr (mkSVI model guide optimizer elbo)
    end.

(** Lines 221-223, for the steps [range] yields *)
Fixpoint training_steps (s : svi) (p : prepared) (args : Args.t) (steps : list Z)
  : M unit :=
  match steps with
  | [] => ret tt
  | step :: steps' =>
      loss <- call (svi_step s (p_sequences p) (p_lengths p) (Args.batch_size args))
                   (run_svi_step F s (p_sequences p) (p_lengths p) (Args.batch_size args)) ;;
      q <- divide loss (num_observations p) ;;
      emit (logging_info (Step step q)) ;;
      training_steps s p args steps'
  end.

(** Lines 220-223 *)
Definition training_loop (s : svi) (p : prepared) (args : Args.t) : M unit :=
  emit (logging_info Step_Loss) ;;
  training_steps s p args (Py.range (Args.num_steps args)).

(** Lines 232-240 and 256-264: [elbo.loss] on a whole split. *)
Definition evaluate (s : svi) (model guide : callable) (p : prepared) : M quotient :=
  let batch_size := Z.of_nat (dim0 (p_sequences p)) in
  loss <- call (elbo_loss (svi_loss s) model guide (p_sequences p) (p_lengths p) batch_size false)
               (run_elbo_loss F (svi_loss s) model guide (p_sequences p) (p_lengths p)
                              batch_size false) ;;
  divide loss (num_observations p).

(** Lines 266-271 *)
Definition report_capacity (args : Args.t) : M unit :=
  values <- call get_param_store (fun w => inr (param_store_values F w, w)) ;;
  emit (logging_info (Capacity (Args.model args) (capacity_of values))).

(** The local variables of [main] after line 217. *)
Record locals : Type := mkLocals {
  l_prepared : prepared;
  l_model : callable;             (* rebound at line 178 *)
  l_guide : callable;             (* rebound at line 179 *)
  l_svi : svi
}.

(** Lines 131-175, with [model] the value bound at line 130. *)
Definition prologue (args : Args.t) (data : dataset) (model : Py.obj) : M prepared :=
  model_name <- lift (Py.get_name model) ;;
  emit (logging_info (Training_on model_name (dim0 (sequences (train data))))) ;;
  p <- lift (prepare_training args data) ;;
  update (set_rng_seed (Args.seed args)) (run_set_rng_seed F (Args.seed args)) ;;
  update clear_param_store (run_clear_param_store F) ;;
  print_shapes args model (make_guide model) p ;;
  ret p.

(** Lines 131-217 *)
Definition setup (g : namespace) (args : Args.t) (data : dataset)
    (model : Py.obj) : M locals :=
  p <- prologue args data model ;;
  let model' := Partial (Global model) args in
  let guide' := Partial (make_guide model) args in
  s <- lift (select_objective g args model' guide') ;;
  ret (mkLocals p model' guide' s).

(** Lines 225-271 *)
Definition evaluation (args : Args.t) (data : dataset) (l : locals) : M unit :=
  let p := l_prepared l in
  let s := l_svi l in
  when (Args.jit args && Args.time_compilation args)
       (emit (logging_debug Time_to_compile)) ;;
  train_q <- evaluate s (l_model l) (l_guide l) p ;;
  emit (logging_info (Training_loss train_q)) ;;
  emit (logging_info (Rule 40)) ;;
  emit (logging_info (Evaluating_on (dim0 (sequences (test data))))) ;;
  p_test <- lift (prepare_test args data (present_notes p)) ;;
  test_q <- evaluate s (l_model l) (l_guide l) p_test ;;
  emit (logging_info (Test_loss test_q)) ;;
  report_capacity args.

(** Lines 131-271 *)
Definition main_with_model (g : namespace) (args : Args.t) (data : dataset)
    (model : Py.obj) : M unit :=
  l <- setup g args data model ;;
  training_loop (l_svi l) (l_prepared l) args ;;
  evaluation args data l.

(** Lines 122-130, then the rest.  [data] is what [poly.load_data]
    returns; [g] is the module namespace, which holds [models] (built
    from it at lines 115-119) and is where [model_0] is looked up. *)
Definition main (g : namespace) (args : Args.t) (data : dataset) : M unit :=
  when (Args.cuda args)
       (update (set_default_tensor_type "torch.cuda.FloatTensor")
               (run_set_default_tensor_type F "torch.cuda.FloatTensor")) ;;
  emit (logging_info Loading_data) ;;
  emit load_data ;;
  emit (logging_info (Rule 40)) ;;
  model <- lift (lookup_model g args) ;;
  main_with_model g args data model.

(** Lines 274-320: the version check, the backend, then [main]. *)
Definition script (pyro_version : string) (g : namespace) (args : Args.t)
    (data : dataset) : M unit :=
  if Py.startswith pyro_version "1.6.0" then
    (if Args.funsor args
     then emit (funsor_set_backend "torch") ;; emit (pyro_backend "contrib.funsor")
     else emit (pyro_backend "pyro")) ;;
    main g args data
  else raise Py.AssertionError.

End Script.

Arguments Global {trace_obj} o.
Arguments Partial {trace_obj} c args.
Arguments AutoDelta {trace_obj} c.
Arguments Block {trace_obj} c expose.
Arguments Enum {trace_obj} c first_available_dim.
Arguments Replay {trace_obj} c guide_trace.
Arguments InferConfig {trace_obj} c config.
Arguments is_ {trace_obj} c o.
Arguments mkSVI {trace_obj} svi_model svi_guide svi_optim svi_loss.
Arguments svi_model {trace_obj} s.
Arguments svi_guide {trace_obj} s.
Arguments svi_optim {trace_obj} s.
Arguments svi_loss {trace_obj} s.
Arguments mkTensor {float} shape storage.
Arguments shape {float} t.
Arguments storage {float} t.
Arguments reshape_flat {float} v.
Arguments size0 {float} v.
Arguments capacity_of {float} values.
Arguments mkQuot {float} numerator denominator.
Arguments numerator {float} q.
Arguments denominator {float} q.
Arguments Loading_data {float}.
Arguments Rule {float} width.
Arguments Training_on {float} model_name n.
Arguments Shapes {float} s.
Arguments Step_Loss {float}.
Arguments Step {float} step q.
Arguments Time_to_compile {float}.
Arguments Training_loss {float} q.
Arguments Evaluating_on {float} n.
Arguments Test_loss {float} q.
Arguments Capacity {float} model capacity.
Arguments funsor_set_backend {float trace_obj} b.
Arguments pyro_backend {float trace_obj} b.
Arguments set_default_tensor_type {float trace_obj} ty.
Arguments load_data {float trace_obj}.
Arguments logging_info {float trace_obj} m.
Arguments logging_debug {float trace_obj} m.
Arguments set_rng_seed {float trace_obj} seed.
Arguments clear_param_store {float trace_obj}.
Arguments get_trace {float trace_obj} c seqs lengths args batch_size.
Arguments svi_step {float trace_obj} s seqs lengths batch_size.
Arguments elbo_loss {float trace_obj} e model guide seqs lengths batch_size include_prior.
Arguments get_param_store {float trace_obj}.
Arguments mkFramework {float trace_obj FW}.
Arguments run_set_default_tensor_type {float trace_obj FW} f.
Arguments run_set_rng_seed {float trace_obj FW} f.
Arguments run_clear_param_store {float trace_obj FW} f.
Arguments run_get_trace {float trace_obj FW} f.
Arguments format_shapes {float trace_obj FW} f.
Arguments run_svi_step {float trace_obj FW} f.
Arguments run_elbo_loss {float trace_obj FW} f.
Arguments param_store_values {float trace_obj FW} f.
Arguments ret {float trace_obj FW A} a.
Arguments raise {float trace_obj FW A} e.
Arguments bind {float trace_obj FW A B} m f.
Arguments emit {float trace_obj FW} ev.
Arguments lift {float trace_obj FW A} r.
Arguments call {float trace_obj FW A} ev run.
Arguments update {float trace_obj FW} ev run.
Arguments when {float trace_obj FW} b m.
Arguments divide {float trace_obj FW} x n.
Arguments make_guide {trace_obj} model.
Arguments print_shapes {float trace_obj FW} F args model guide p.
Arguments select_objective {trace_obj} g args model guide.
Arguments training_steps {float trace_obj FW} F s p args steps.
Arguments training_loop {float trace_obj FW} F s p args.
Arguments evaluate {float trace_obj FW} F s model guide p.
Arguments report_capacity {float trace_obj FW} F args.
Arguments mkLocals {trace_obj} l_prepared l_model l_guide l_svi.
Arguments l_prepared {trace_obj} l.
Arguments l_model {trace_obj} l.
Arguments l_guide {trace_obj} l.
Arguments l_svi {trace_obj} l.
Arguments prologue {float trace_obj FW} F args data model.
Arguments setup {float trace_obj FW} F g args data model.
Arguments evaluation {float trace_obj FW} F args data l.
Arguments main_with_model {float trace_obj FW} F g args data model.
Arguments main {float trace_obj FW} F g args data.
Arguments script {float trace_obj FW} F pyro_version g args data.

(* ===================================================================== *)
(** ** Calls of the model by the framework *)
(* ===================================================================== *)

(** Python's binding of a call with [npos] positional arguments and the
    keywords [kws] to a function with the parameters [params] (no
    defaults, no [*args] or [**kwargs]): a keyword that names no remaining
    parameter, or a parameter left without a value, raises [TypeError]. *)
Definition bind_call (params : list string) (npos : nat) (kws : list string)
  : string + unit :=
  if (npos <=? List.length params)%nat
     && forallb (fun k => existsb (String.eqb k) (skipn npos params)) kws
     && forallb (fun q => existsb (String.eqb q) kws) (skipn npos params)
  then inr tt else inl "TypeError".

(** Line 85: [def model(data, num_states, vectorized)] *)
Definition model_parameters : list string := ["data"; "num_states"; "vectorized"].

(** What the model is called with when the framework runs it: two
    positional arguments and the keywords [args] and [batch_size], for
    [get_trace(sequences, lengths, args=args, batch_size=...)] (lines
    169-174) and, on the partial application of line 178, for
    [svi.step(sequences, lengths, batch_size=...)] (line 222); the calls
    of [elbo.loss] (lines 232-239 and 256-263) add [include_prior]. *)
Definition model_call (extra : list string) : string + unit :=
  bind_call model_parameters 2 ("args" :: "batch_size" :: extra).

(* ===================================================================== *)
(** ** A small framework and data set to run the script on *)
(* ===================================================================== *)

Module Toy.

(** Floats are integers, a recorded trace is the number of calls made
    before it, and the framework state counts the calls. *)
Definition F : framework Z nat nat :=
  mkFramework
    (fun _ w => w)
    (fun _ w => w)
    (fun _ => 0%nat)
    (fun _ _ _ _ _ w => inr (w, S w))
    (fun _ => "shapes")
    (fun _ _ _ _ w => inr ((100 - Z.of_nat w)%Z, S w))
    (fun _ _ _ _ _ _ _ w => inr (Z.of_nat w, S w))
    (fun w => [mkTensor [2%nat; 3%nat] [1; 2; 3; 4; 5; 6]%Z; mkTensor [4%nat] [0; 0; 0; 0]%Z]).

(** The same framework when a call that runs the model binds the
    arguments as Python does before anything else. *)
Definition F_TypeError : framework Z nat nat :=
  mkFramework
    (fun _ w => w)
    (fun _ w => w)
    (fun _ => 0%nat)
    (fun _ _ _ _ _ w =>
       match model_call [] with inl c => inl c | inr _ => inr (w, S w) end)
    (fun _ => "shapes")
    (fun _ _ _ _ w =>
       match model_call [] with
       | inl c => inl c
       | inr _ => inr ((100 - Z.of_nat w)%Z, S w)
       end)
    (fun _ _ _ _ _ _ _ w =>
       match model_call ["include_prior"] with
       | inl c => inl c
       | inr _ => inr (Z.of_nat w, S w)
       end)
    (fun w => [mkTensor [2%nat; 3%nat] [1; 2; 3; 4; 5; 6]%Z; mkTensor [4%nat] [0; 0; 0; 0]%Z]).

(** Two training sequences of three steps over four notes; note 0 is
    never played and note 3 is played once. *)
Definition train_sequences : tensor3 :=
  mkT3 2 3 4 (fun i j k =>
    match k with
    | 1%nat => 1%Z
    | 2%nat => if Nat.eqb i j then 1%Z else 0%Z
    | 3%nat => if Nat.eqb i 1 && Nat.eqb j 2 then 1%Z else 0%Z
    | _ => 0%Z
    end).

Definition test_sequences : tensor3 :=
  mkT3 1 5 4 (fun _ _ k => if Nat.eqb k 0 then 1%Z else 0%Z).

Definition data : dataset :=
  mkData (mkSplit train_sequences [3; 2]%Z) (mkSplit test_sequences [5]%Z).

(** The script's namespace with the model under the name the registry
    looks for. *)
Definition with_model_1 : namespace :=
  script_globals ++ [("model_1", model_fn)].

Definition with_models_0_7 : namespace :=
  script_globals ++ [("model_0", model_fn);
                     ("model_7", Py.mkObj 29 (Py.Function "model_7"))].

Definition argv (model : string) (num_steps : Z) (truncate : option Z)
    (jit tmc funsor : bool) : Args.t :=
  Args.mk model num_steps 8 16 48 2 "0.05" truncate false 0 false jit false false
          tmc 10 funsor.

End Toy.

(* ===================================================================== *)
(** ** Reading a run: outcome and events *)
(* ===================================================================== *)

Section Observations.

Context {float trace_obj FW : Type}.

Definition events {A} (r : list (event float trace_obj) * (Py.exn + A * FW))
  : list (event float trace_obj) := fst r.

Definition outcome {A} (r : list (event float trace_obj) * (Py.exn + A * FW))
  : Py.exn + A * FW := snd r.

(** The arguments of the [svi.step] calls of a run, in order. *)
Fixpoint svi_steps_of (tr : list (event float trace_obj))
  : list (svi trace_obj * tensor3 * list Z * Z) :=
  match tr with
  | [] => []
  | svi_step s seqs lengths b :: tr' => (s, seqs, lengths, b) :: svi_steps_of tr'
  | _ :: tr' => svi_steps_of tr'
  end.

(** The sequences handed to the model through [svi.step] and
    [elbo.loss], in order. *)
Fixpoint model_inputs_of (tr : list (event float trace_obj)) : list tensor3 :=
  match tr with
  | [] => []
  | svi_step _ seqs _ _ :: tr' => seqs :: model_inputs_of tr'
  | elbo_loss _ _ _ seqs _ _ _ :: tr' => seqs :: model_inputs_of tr'
  | _ :: tr' => model_inputs_of tr'
  end.

(** The training loop as the run shows it: [None] for a call of
    [svi.step], [Some i] for the loss line of step [i]. *)
Fixpoint training_marks_of (tr : list (event float trace_obj)) : list (option Z) :=
  match tr with
  | [] => []
  | svi_step _ _ _ _ :: tr' => None :: training_marks_of tr'
  | logging_info (Step i _) :: tr' => Some i :: training_marks_of tr'
  | _ :: tr' => training_marks_of tr'
  end.

(** What a loop over the given steps shows when it runs to its end. *)
Definition full_marks (steps : list Z) : list (option Z) :=
  flat_map (fun i => [None; Some i]) steps.

(** Number of scalar elements a tensor stores. *)
Definition elements (v : tensor float) : nat := List.length (storage v).

Definition well_formed (v : tensor float) : Prop :=
  List.length (storage v) = numel_of_shape (shape v).

(** [m] raises only exceptions in [P]. *)
Definition raises_only {A} (P : Py.exn -> Prop) (m : M float trace_obj FW A) : Prop :=
  forall w e, outcome (m w) = inl e -> P e.

(** [m] emits only events in [Q]. *)
Definition emits_only {A} (Q : event float trace_obj -> Prop) (m : M float trace_obj FW A) : Prop :=
  forall w, Forall Q (events (m w)).

(** Events that hand no data to the model. *)
Definition quiet (ev : event float trace_obj) : Prop :=
  match ev with
  | svi_step _ _ _ _ | elbo_loss _ _ _ _ _ _ _ => False
  | _ => True
  end.

(** Events other than a call of [svi.step]. *)
Definition no_step (ev : event float trace_obj) : Prop :=
  match ev with
  | svi_step _ _ _ _ => False
  | _ => True
  end.

(** Events of the kinds the loop emits, on the data of [p]. *)
Definition on_training_data (s : svi trace_obj) (p : prepared) (b : Z)
    (ev : event float trace_obj) : Prop :=
  match ev with
  | svi_step s' seqs lengths b' =>
      s' = s /\ seqs = p_sequences p /\ lengths = p_lengths p /\ b' = b
  | elbo_loss _ _ _ _ _ _ _ => False
  | _ => True
  end.

(** A computation that, when it returns, has just read the parameter
    store and logged the capacity computed from it. *)
Definition ends_with_report (F : framework float trace_obj FW) (args : Args.t) (m : M float trace_obj FW unit) : Prop :=
  forall w w',
    outcome (m w) = inr (tt, w') ->
    exists tr,
      events (m w) =
      tr ++ [get_param_store;
             logging_info (Capacity (Args.model args)
                                    (capacity_of (param_store_values F w')))].

(** The arguments of the [elbo.loss] calls of a run, in order. *)
Fixpoint elbo_losses_of (tr : list (event float trace_obj))
  : list (elbo * callable trace_obj * callable trace_obj * tensor3 * list Z * Z * bool) :=
  match tr with
  | [] => []
  | elbo_loss e m g seqs lengths b ip :: tr' =>
      (e, m, g, seqs, lengths, b, ip) :: elbo_losses_of tr'
  | _ :: tr' => elbo_losses_of tr'
  end.

(** The arguments of the [get_trace] calls of a run, in order. *)
Fixpoint get_traces_of (tr : list (event float trace_obj))
  : list (callable trace_obj * tensor3 * list Z * Args.t * Z) :=
  match tr with
  | [] => []
  | get_trace c seqs lengths a b :: tr' => (c, seqs, lengths, a, b) :: get_traces_of tr'
  | _ :: tr' => get_traces_of tr'
  end.

(** The per-step loss lines of a run, in order. *)
Fixpoint step_logs_of (tr : list (event float trace_obj)) : list (Z * quotient float) :=
  match tr with
  | [] => []
  | logging_info (Step i q) :: tr' => (i, q) :: step_logs_of tr'
  | _ :: tr' => step_logs_of tr'
  end.

(** The capacity lines of a run, in order. *)
Fixpoint capacity_logs_of (tr : list (event float trace_obj)) : list (string * Z) :=
  match tr with
  | [] => []
  | logging_info (Capacity m c) :: tr' => (m, c) :: capacity_logs_of tr'
  | _ :: tr' => capacity_logs_of tr'
  end.

(** The kinds of events lines 131-217 emit. *)
Definition setup_event (ev : event float trace_obj) : Prop :=
  match ev with
  | logging_info (Training_on _ _) | logging_info (Shapes _)
  | set_rng_seed _ | clear_param_store | get_trace _ _ _ _ _ => True
  | _ => False
  end.

(** The kinds of events lines 219-271 emit. *)
Definition late_event (ev : event float trace_obj) : Prop :=
  match ev with
  | get_trace _ _ _ _ _ | set_rng_seed _ | clear_param_store
  | set_default_tensor_type _ | load_data | funsor_set_backend _ | pyro_backend _ => False
  | _ => True
  end.

(** The kinds of events the training loop of lines 219-223 emits. *)
Definition loop_event (ev : event float trace_obj) : Prop :=
  match ev with
  | svi_step _ _ _ _ | logging_info Step_Loss | logging_info (Step _ _) => True
  | _ => False
  end.

(** The kinds of events lines 225-271 emit. *)
Definition evaluation_event (ev : event float trace_obj) : Prop :=
  match ev with
  | elbo_loss _ _ _ _ _ _ _ | logging_debug Time_to_compile
  | logging_info (Training_loss _) | logging_info (Rule _)
  | logging_info (Evaluating_on _) | logging_info (Test_loss _)
  | get_param_store | logging_info (Capacity _ _) => True
  | _ => False
  end.

(** An [elbo.loss] call as lines 232-239 and 256-263 write it, for the
    model object bound at line 130. *)
Definition evaluation_call (g : namespace) (args : Args.t) (model : Py.obj)
    (ev : event float trace_obj) : Prop :=
  match ev with
  | elbo_loss e m gd seqs _ b ip =>
      m = Partial (Global model) args /\
      gd = Partial (make_guide model) args /\
      b = Z.of_nat (dim0 seqs) /\
      ip = false /\
      select_objective g args m gd = inr (mkSVI (if Args.tmc args
                                                 then InferConfig m (tmc_config args)
                                                 else m)
                                                gd (Adam (Args.learning_rate args)) e)
  | _ => True
  end.

(** [m] calls [elbo.loss] at most [k] times. *)
Definition at_most_losses {A} (k : nat) (m : M float trace_obj FW A) : Prop :=
  forall w, (List.length (elbo_losses_of (events (m w))) <= k)%nat.

(** Lines 225-228: the compile-time line, under [--jit --time-compilation] *)
Definition compile_time_line (args : Args.t) : list (event float trace_obj) :=
  if Args.jit args && Args.time_compilation args
  then [logging_debug Time_to_compile] else [].

(** Events other than a call of [elbo.loss]. *)
Definition no_loss (ev : event float trace_obj) : Prop :=
  match ev with
  | elbo_loss _ _ _ _ _ _ _ => False
  | _ => True
  end.

(** The only [debug] line of lines 131-271 is the compile time, logged
    under [--jit --time-compilation]. *)
Definition debug_line (args : Args.t) (ev : event float trace_obj) : Prop :=
  match ev with
  | logging_debug m =>
      m = Time_to_compile /\ Args.jit args && Args.time_compilation args = true
  | _ => True
  end.

End Observations.

(** The sites of a model run that a [block] with the given [expose_fn]
    lets through: the framework hides every site the function rejects. *)
Definition exposed_sites (expose : msg -> bool) (tr : list msg) : list msg :=
  filter expose tr.

Definition count_true (mask : list bool) : nat := List.length (filter (fun b => b) mask).

(** The logging set-up of lines 67-75.  A record reaches a handler's
    stream when its level is at least the handler's level and the
    handler's filter accepts it. *)
Module Logging.

Definition DEBUG : Z := 10.
Definition INFO : Z := 20.

Record handler : Type := mkHandler {
  level : Z;
  accepts : Z -> bool
}.

Definition handles (h : handler) (levelno : Z) : bool :=
  (level h <=? levelno)%Z && accepts h levelno.

(** Line 67: the handler [basicConfig] installs, without a filter *)
Definition root_handler : handler := mkHandler 0 (fun _ => true).

(** Lines 72-74: [setLevel(logging.DEBUG)] and the filter
    [record.levelno <= logging.DEBUG] *)
Definition debug_handler : handler :=
  mkHandler DEBUG (fun levelno => (levelno <=? DEBUG)%Z).

End Logging.

(** The messages a handler writes to its stream during a run: [info]
    lines are records of level [INFO], [debug] lines of level [DEBUG]. *)
Definition stream_of {float trace_obj : Type} (h : Logging.handler)
    (tr : list (event float trace_obj)) : list (message float) :=
  flat_map (fun ev =>
              match ev with
              | logging_info m => if Logging.handles h Logging.INFO then [m] else []
              | logging_debug m => if Logging.handles h Logging.DEBUG then [m] else []
              | _ => []
              end) tr.

(** The names of the statements before the Markov loop, in order. *)
Definition header_names : list string :=
  ["rho"; "pi"; "alpha"; "A"; "a"; "b"; "lamda"; "m"; "beta"; "mu"].

(** The names of the latent and observed sites of the first [n] steps of
    the sequential loop. *)
Definition step_names (t : nat) : list string :=
  [("z_" ++ Py.str_int (Z.of_nat t))%string; ("x_" ++ Py.str_int (Z.of_nat t))%string].

Definition loop_names (n : nat) : list string := flat_map step_names (seq 0 n).

(** What [z_prev] holds when step [t] of the sequential loop starts. *)
Definition prev_state (t : nat) : expr :=
  match t with
  | O => NoneVal
  | S t' => SampleVal ("z_" ++ Py.str_int (Z.of_nat t'))%string
  end.

(** The two statements of step [t] of the sequential loop. *)
Definition step_sites (pl : list plate) (t : nat) : list msg :=
  [ z_site pl (IntIdx (Z.of_nat t)) (prev_state t);
    x_site pl (IntIdx (Z.of_nat t)) (DataAt (IntIdx (Z.of_nat t))) ].

(** The distribution the source gives the latent state of step [t]:
    the initial distribution at the first step, the row of the
    transition matrix selected by the previous state afterwards. *)
Definition transition (t : nat) : distribution :=
  match t with
  | O => Categorical (SampleVal "pi")
  | S t' => Categorical (GetItem (SampleVal "A")
                                 (SampleVal ("z_" ++ Py.str_int (Z.of_nat t'))%string))
  end.

(** The emission of step [t]: location and scale selected by its state. *)
Definition emission (t : nat) : distribution :=
  let z := SampleVal ("z_" ++ Py.str_int (Z.of_nat t))%string in
  Normal (VindexLast (SampleVal "mu") z) (VindexLast (SampleVal "lamda") z).


(* ===================================================================== *)
(** ** Strings and the registry *)
(* ===================================================================== *)

Lemma startswith_append (p k : string) : Py.startswith (p ++ k) p = true.
Proof.
  induction p as [|c p IH]; simpl; [reflexivity|].
  now rewrite Ascii.eqb_refl, IH.
Qed.

Lemma startswith_split (p s : string) :
  Py.startswith s p = true -> s = (p ++ Py.drop (String.length p) s)%string.
Proof.
  revert s; induction p as [|c p IH]; intros s H; simpl in *; [reflexivity|].
  destruct s as [|d s]; [discriminate|].
  apply andb_true_iff in H as [Hc Hs].
  apply Ascii.eqb_eq in Hc; subst d.
  now rewrite <- (IH s Hs).
Qed.

Lemma eqb_append_prefix (p a b : string) :
  String.eqb (p ++ a) (p ++ b) = String.eqb a b.
Proof.
  induction p as [|c p IH]; simpl; [reflexivity|].
  now rewrite Ascii.eqb_refl.
Qed.

(** The registry maps [k] to whatever the namespace binds to
    ["model_" ++ k], and to nothing else. *)
Lemma models_get (g : namespace) (k : string) :
  Py.get (models g) k = Py.get g ("model_" ++ k)%string.
Proof.
  unfold models.
  induction g as [|[n v] g IH]; [reflexivity|].
  cbn [filter].
  destruct (Py.startswith n "model_") eqn:Hn.
  - cbn [map Py.get].
    rewrite IH.
    rewrite (startswith_split _ _ Hn) at 2.
    now rewrite eqb_append_prefix.
  - cbn [Py.get]. rewrite IH.
    destruct (String.eqb ("model_" ++ k) n) eqn:E; [|reflexivity].
    apply String.eqb_eq in E; subst n.
    now rewrite startswith_append in Hn.
Qed.

Lemma models_script_globals : models script_globals = [].
Proof. reflexivity. Qed.

(* ===================================================================== *)
(** ** Laws of the script monad *)
(* ===================================================================== *)

Section MonadFacts.

Context {float trace_obj FW : Type}.
Local Notation "'SM'" := (M float trace_obj FW).

Lemma outcome_bind {A B} (m : SM A) (f : A -> SM B) (w : FW) :
  outcome (bind m f w) =
  match outcome (m w) with
  | inl e => inl e
  | inr (a, w') => outcome (f a w')
  end.
Proof.
  unfold bind, outcome.
  destruct (m w) as [tr [e|[a w']]]; simpl; [reflexivity|].
  now destruct (f a w').
Qed.

Lemma events_bind {A B} (m : SM A) (f : A -> SM B) (w : FW) :
  events (bind m f w) =
  events (m w) ++
  match outcome (m w) with
  | inl _ => []
  | inr (a, w') => events (f a w')
  end.
Proof.
  unfold bind, outcome, events.
  destruct (m w) as [tr [e|[a w']]]; simpl; [now rewrite app_nil_r|].
  now destruct (f a w').
Qed.

Lemma raises_only_bind {A B} P (m : SM A) (f : A -> SM B) :
  raises_only P m -> (forall a, raises_only P (f a)) -> raises_only P (bind m f).
Proof.
  intros Hm Hf w e. rewrite outcome_bind.
  destruct (outcome (m w)) as [e'|[a w']] eqn:E.
  - intros [= <-]. eauto.
  - apply Hf.
Qed.

Lemma emits_only_bind {A B} Q (m : SM A) (f : A -> SM B) :
  emits_only Q m -> (forall a, emits_only Q (f a)) -> emits_only Q (bind m f).
Proof.
  intros Hm Hf w. rewrite events_bind. apply Forall_app; split; [apply Hm|].
  destruct (outcome (m w)) as [e'|[a w']]; [constructor|apply Hf].
Qed.

Lemma raises_only_ret {A} P (a : A) : raises_only P (ret a : SM A).
Proof. intros w e; discriminate. Qed.

Lemma emits_only_ret {A} Q (a : A) : emits_only Q (ret a : SM A).
Proof. intros w; constructor. Qed.

Lemma raises_only_emit P ev : raises_only P (emit ev : SM unit).
Proof. intros w e; discriminate. Qed.

Lemma emits_only_emit (Q : event float trace_obj -> Prop) ev :
  Q ev -> emits_only Q (emit ev : SM unit).
Proof. intros H w; repeat constructor; exact H. Qed.

Lemma raises_only_call {A} (P : Py.exn -> Prop) (ev : event float trace_obj)
    (run : FW -> string + A * FW) :
  (forall c, P (Py.FrameworkError c)) -> raises_only P (call ev run).
Proof.
  intros H w e. unfold call, outcome. cbn.
  destruct (run w) as [c|r]; [|discriminate]. intros [= <-]. apply H.
Qed.

Lemma emits_only_call {A} (Q : event float trace_obj -> Prop) ev
    (run : FW -> string + A * FW) :
  Q ev -> emits_only Q (call ev run).
Proof. intros H w; repeat constructor; exact H. Qed.

Lemma raises_only_update P (ev : event float trace_obj) (run : FW -> FW) :
  raises_only P (update ev run).
Proof. intros w e; discriminate. Qed.

Lemma emits_only_update (Q : event float trace_obj -> Prop) ev (run : FW -> FW) :
  Q ev -> emits_only Q (update ev run : SM unit).
Proof. intros H w; repeat constructor; exact H. Qed.

Lemma raises_only_lift {A} (P : Py.exn -> Prop) (r : Py.exn + A) :
  (forall e, r = inl e -> P e) -> raises_only P (lift r : SM A).
Proof.
  intros H w e. destruct r as [e'|a]; simpl; [|discriminate].
  intros [= <-]. now apply H.
Qed.

Lemma emits_only_lift {A} Q (r : Py.exn + A) : emits_only Q (lift r : SM A).
Proof. intros w. destruct r; constructor. Qed.

Lemma raises_only_when P b (m : SM unit) :
  raises_only P m -> raises_only P (when b m).
Proof. destruct b; [trivial|]. intros _. apply raises_only_ret. Qed.

Lemma emits_only_when Q b (m : SM unit) :
  emits_only Q m -> emits_only Q (when b m).
Proof. destruct b; [trivial|]. intros _. apply emits_only_ret. Qed.

Lemma raises_only_divide (P : Py.exn -> Prop) (x : float) n :
  P Py.ZeroDivisionError -> raises_only P (divide x n : SM _).
Proof.
  intros H w e. unfold divide. destruct (n =? 0)%Z; simpl; [|discriminate].
  now intros [= <-].
Qed.

Lemma emits_only_divide Q (x : float) n : emits_only Q (divide x n : SM _).
Proof. intros w. unfold divide. destruct (n =? 0)%Z; constructor. Qed.

End MonadFacts.

Create HintDb script.

#[local] Hint Resolve raises_only_bind emits_only_bind raises_only_ret emits_only_ret
  raises_only_emit emits_only_emit raises_only_call emits_only_call
  raises_only_update emits_only_update raises_only_lift emits_only_lift
  raises_only_when emits_only_when raises_only_divide emits_only_divide : script.

(* ===================================================================== *)
(** ** The model lookup (line 130) *)
(* ===================================================================== *)

(** C1 (the registry holds no model): the namespace of the script binds no
    name that starts with "model_", so the [models] registry is empty and
    [models[args.model]] raises [KeyError] for every value of [--model],
    the default "1" included; [main] stops there, before any framework
    call other than (on [--cuda]) the default tensor type, and the data
    loading.  In general the registry maps [k] to what the namespace
    binds to ["model_" ++ k]. *)
Theorem C1_model_lookup_raises_KeyError
    {float trace_obj FW : Type} (F : framework float trace_obj FW)
    (args : Args.t) (data : dataset) (w : FW) :
  (forall g k, Py.get (models g) k = Py.get g ("model_" ++ k)%string) /\
  Py.keys (models script_globals) = [] /\
  lookup_model script_globals args = inl (Py.KeyError (Args.model args)) /\
  outcome (main F script_globals args data w) = inl (Py.KeyError (Args.model args)) /\
  svi_steps_of (events (main F script_globals args data w)) = [].
Proof.
  split; [exact models_get|].
  split; [reflexivity|].
  split; [reflexivity|].
  unfold main, lookup_model; rewrite models_script_globals; cbn [Py.get lift].
  destruct (Args.cuda args); split; reflexivity.
Qed.

(** The default command line already fails. *)
Example main_default_args :
  main Toy.F script_globals Args.default Toy.data 0%nat =
  ([logging_info Loading_data; load_data; logging_info (Rule 40)],
   inl (Py.KeyError "1")).
Proof. reflexivity. Qed.

(** With the model bound to the name the registry looks for, the lookup
    finds it and the run goes through. *)
Example main_with_model_1_bound :
  lookup_model Toy.with_model_1 Args.default = inr model_fn /\
  outcome (main Toy.F Toy.with_model_1 (Toy.argv "1" 2 None false false false)
                Toy.data 0%nat) = inr (tt, 4%nat).
Proof. split; reflexivity. Qed.

(* ===================================================================== *)
(** ** Data preparation *)
(* ===================================================================== *)

Lemma sum_below_nonneg (n : nat) (f : nat -> Z) :
  (forall i, (i < n)%nat -> (0 <= f i)%Z) -> (0 <= sum_below n f)%Z.
Proof.
  induction n as [|n IH]; intros H; simpl; [lia|].
  assert (0 <= f n)%Z by (apply H; lia).
  assert (0 <= sum_below n f)%Z by (apply IH; intros; apply H; lia).
  lia.
Qed.

Lemma sum_below_pos (n : nat) (f : nat -> Z) :
  (forall i, (i < n)%nat -> (0 <= f i)%Z) ->
  ((0 < sum_below n f)%Z <-> exists i, (i < n)%nat /\ (0 < f i)%Z).
Proof.
  induction n as [|n IH]; intros H; simpl.
  - split; [lia|]. intros [i [Hi _]]; lia.
  - assert (Hn : (0 <= f n)%Z) by (apply H; lia).
    assert (Hlt : forall i, (i < n)%nat -> (0 <= f i)%Z) by (intros; apply H; lia).
    pose proof (sum_below_nonneg n f Hlt) as Hs.
    specialize (IH Hlt). split.
    + intros Hpos.
      destruct (Z.eq_dec (f n) 0) as [E|E].
      * rewrite E, Z.add_0_r in Hpos. apply IH in Hpos as [i [Hi Hf]].
        exists i; split; [lia|assumption].
      * exists n; split; lia.
    + intros [i [Hi Hf]].
      destruct (Nat.eq_dec i n) as [->|Hne]; [lia|].
      assert (0 < sum_below n f)%Z by (apply IH; exists i; split; [lia|assumption]).
      lia.
Qed.

Lemma nth_map_seq {A} (f : nat -> A) (n k : nat) (d : A) :
  (k < n)%nat -> nth k (map f (seq 0 n)) d = f k.
Proof.
  intros H.
  rewrite (nth_indep _ d (f 0%nat)) by now rewrite length_map, length_seq.
  now rewrite (map_nth f (seq 0 n) 0%nat k), seq_nth.
Qed.

Lemma present_notes_length (t : tensor3) :
  List.length (present_notes_of t) = dim2 t.
Proof.
  unfold present_notes_of, gt_zero, sum0_2.
  now rewrite !length_map, length_seq.
Qed.

(** A note is kept exactly when some sequence plays it at some step. *)
Lemma present_notes_spec (t : tensor3) (k : nat) :
  (k < dim2 t)%nat ->
  (nth k (present_notes_of t) false = true <->
   exists i j, (i < dim0 t)%nat /\ (j < dim1 t)%nat /\ entry t i j k = 1%Z).
Proof.
  intros Hk.
  unfold present_notes_of, gt_zero, sum0_2.
  rewrite map_map, nth_map_seq by exact Hk.
  cbn [sum0 eq_one rows cols entry2 dim0 dim1 dim2 entry].
  rewrite Z.ltb_lt.
  assert (Hin : forall j i, (0 <= (if (entry t i j k =? 1)%Z then 1 else 0))%Z)
    by (intros; destruct (_ =? _)%Z; lia).
  rewrite sum_below_pos by (intros; apply sum_below_nonneg; intros; apply Hin).
  split.
  - intros [j [Hj Hpos]].
    apply sum_below_pos in Hpos as [i [Hi Hpos]]; [|intros; apply Hin].
    exists i, j. repeat split; try assumption.
    destruct (entry t i j k =? 1)%Z eqn:E; [now apply Z.eqb_eq|lia].
  - intros [i [j [Hi [Hj E]]]].
    exists j; split; [assumption|].
    apply sum_below_pos; [intros; apply Hin|].
    exists i; split; [assumption|]. rewrite E; simpl; lia.
Qed.

Lemma true_positions_length (mask : list bool) (k : nat) :
  List.length (true_positions mask k) = count_true mask.
Proof.
  revert k; induction mask as [|b mask IH]; intros k; [reflexivity|].
  unfold count_true in *. cbn [true_positions filter].
  destruct b; cbn [app List.length]; now rewrite IH.
Qed.

(** The positions listed are exactly those the mask marks. *)
Lemma true_positions_spec (mask : list bool) :
  forall o k,
    In k (true_positions mask o) <->
    (o <= k)%nat /\ nth (k - o) mask false = true.
Proof.
  induction mask as [|b mask IH]; intros o k; cbn [true_positions].
  - split; [contradiction|]. intros [_ H]. destruct (k - o)%nat; discriminate.
  - rewrite in_app_iff, IH. split.
    + intros [Hb|[Hle Hn]].
      * destruct b; [|contradiction]. destruct Hb as [<-|[]].
        split; [lia|]. now rewrite Nat.sub_diag.
      * split; [lia|].
        replace (k - o)%nat with (S (k - S o)) by lia. exact Hn.
    + intros [Hle Hn].
      destruct (Nat.eq_dec k o) as [->|Hne].
      * left. rewrite Nat.sub_diag in Hn. cbn in Hn. subst b. now left.
      * right. split; [lia|].
        replace (k - o)%nat with (S (k - S o)) in Hn by lia. exact Hn.
Qed.

Lemma select_notes_dim2 (t : tensor3) (mask : list bool) :
  dim2 (select_notes t mask) = count_true mask.
Proof. apply true_positions_length. Qed.

Lemma index_notes_inr (t t' : tensor3) (mask : list bool) :
  index_notes t mask = inr t' ->
  List.length mask = dim2 t /\ t' = select_notes t mask.
Proof.
  unfold index_notes.
  destruct (Nat.eqb (List.length mask) (dim2 t)) eqn:E; [|discriminate].
  intros [= <-]. split; [now apply Nat.eqb_eq|reflexivity].
Qed.

Lemma index_notes_own_mask (t : tensor3) :
  index_notes t (present_notes_of t) = inr (select_notes t (present_notes_of t)).
Proof.
  unfold index_notes. now rewrite present_notes_length, Nat.eqb_refl.
Qed.

(** The bound conversion fails exactly for a non-zero [--truncate]
    outside int64. *)
Lemma clamp_bound_cases (args : Args.t) :
  (clamp_bound args = inr tt /\
   forall n, Args.truncate args = Some n -> n <> 0%Z -> fits_int64 n = true) \/
  (clamp_bound args = inl Py.RuntimeError /\
   exists n, Args.truncate args = Some n /\ n <> 0%Z /\ fits_int64 n = false).
Proof.
  unfold clamp_bound, Py.truthy.
  destruct (Args.truncate args) as [n|]; [|left; split; [reflexivity|discriminate]].
  destruct (n =? 0)%Z eqn:E0; cbn [negb].
  - left. split; [reflexivity|]. intros n' [= <-] Hn. apply Z.eqb_eq in E0. contradiction.
  - apply Z.eqb_neq in E0. destruct (fits_int64 n) eqn:Ef.
    + left. split; [reflexivity|]. now intros n' [= <-] _.
    + right. split; [reflexivity|]. now exists n.
Qed.

(** Lines 136-147 raise only at the bound conversion: the mask is as long
    as the note axis it was computed from. *)
Lemma prepare_training_eq (args : Args.t) (data : dataset) :
  clamp_bound args = inr tt ->
  let seqs := select_notes (sequences (train data))
                           (present_notes_of (sequences (train data))) in
  let r := truncate_training args (sequence_lengths (train data)) seqs in
  prepare_training args data =
  inr (mkPrepared (present_notes_of (sequences (train data)))
                  (snd r) (fst r) (sum_lengths (fst r))).
Proof.
  intros Hb. cbv zeta. unfold prepare_training. rewrite index_notes_own_mask, Hb.
  now destruct (truncate_training _ _ _).
Qed.

Lemma prepare_training_inr (args : Args.t) (data : dataset) (p : prepared) :
  prepare_training args data = inr p ->
  clamp_bound args = inr tt /\
  let seqs := select_notes (sequences (train data))
                           (present_notes_of (sequences (train data))) in
  let r := truncate_training args (sequence_lengths (train data)) seqs in
  p = mkPrepared (present_notes_of (sequences (train data)))
                 (snd r) (fst r) (sum_lengths (fst r)).
Proof.
  intros H. destruct (clamp_bound args) as [e|[]] eqn:Hb.
  - unfold prepare_training in H. rewrite index_notes_own_mask, Hb in H. discriminate.
  - split; [reflexivity|]. cbv zeta.
    rewrite (prepare_training_eq args data Hb) in H. now injection H as <-.
Qed.

Lemma prepare_training_inl (args : Args.t) (data : dataset) (e : Py.exn) :
  prepare_training args data = inl e ->
  e = Py.RuntimeError /\ clamp_bound args = inl Py.RuntimeError.
Proof.
  intros H. destruct (clamp_bound_cases args) as [[Hb _]|[Hb _]].
  - rewrite (prepare_training_eq args data Hb) in H. discriminate.
  - unfold prepare_training in H. rewrite index_notes_own_mask, Hb in H.
    injection H as <-. now split.
Qed.

(* ===================================================================== *)
(** ** The sites of the generative model *)
(* ===================================================================== *)

Section ModelFacts.

Variable vectorized_markov : string -> nat -> Z -> list index.

(** Every statement of the loop is a [z_site] or an [x_site]. *)
Lemma markov_steps_sites (pl : list plate) (data : tensor3) (loop : list index) :
  forall z_prev m,
    In m (fst (markov_steps pl data loop z_prev)) ->
    exists t, In t loop /\
              ((exists z, m = z_site pl t z) \/ (exists d, m = x_site pl t d)).
Proof.
  induction loop as [|t loop IH]; intros z_prev m; simpl; [tauto|].
  destruct (data_at data t) as [e|d].
  - simpl. intros [<-|[]]. exists t; split; [now left|left; now exists z_prev].
  - specialize (IH (SampleVal ("z_" ++ fmt t)%string) m).
    destruct (markov_steps pl data loop _) as [tr r]; simpl in *.
    intros [<-|[<-|Hin]].
    + exists t; split; [now left|left; now exists z_prev].
    + exists t; split; [now left|right; now exists d].
    + destruct (IH Hin) as [t' [Ht' H]]. exists t'; split; [now right|exact H].
Qed.

(** A step is reached when [data[t']] succeeded at every earlier step;
    its latent site is then declared, and its observed site too once
    [data[t]] succeeds. *)
Lemma markov_steps_reached (pl : list plate) (data : tensor3) (pre : list index) :
  forall t post z_prev,
    (forall t', In t' pre -> exists d, data_at data t' = inr d) ->
    exists z,
      In (z_site pl t z) (fst (markov_steps pl data (pre ++ t :: post) z_prev)) /\
      (forall d, data_at data t = inr d ->
                 In (x_site pl t d)
                    (fst (markov_steps pl data (pre ++ t :: post) z_prev))).
Proof.
  induction pre as [|t0 pre IH]; intros t post z_prev Hpre.
  - exists z_prev. cbn [app markov_steps].
    destruct (data_at data t) as [e|d].
    + split; [now left|intros; discriminate].
    + destruct (markov_steps pl data post _) as [tr r]. simpl.
      split; [now left|]. intros d' [= <-]. right; now left.
  - destruct (Hpre t0 (or_introl eq_refl)) as [d0 Hd0].
    destruct (IH t post (SampleVal ("z_" ++ fmt t0)%string)) as [z [Hz Hx]].
    { intros t' Ht'. apply Hpre. now right. }
    exists z. cbn [app markov_steps]. rewrite Hd0.
    destruct (markov_steps pl data (pre ++ t :: post) _) as [tr r]. simpl in *.
    split; [now right; right|]. intros d Hd. right; right. now apply Hx.
Qed.

Lemma markov_steps_completes (pl : list plate) (data : tensor3) (loop : list index) :
  forall z_prev,
    (forall t, In t loop -> exists d, data_at data t = inr d) ->
    snd (markov_steps pl data loop z_prev) = inr tt.
Proof.
  induction loop as [|t loop IH]; intros z_prev H; [reflexivity|].
  cbn [markov_steps].
  destruct (H t (or_introl eq_refl)) as [d ->].
  specialize (IH (SampleVal ("z_" ++ fmt t)%string) (fun t' Ht' => H t' (or_intror Ht'))).
  now destruct (markov_steps pl data loop _).
Qed.

Lemma model_fst (data : tensor3) (num_states : Z) (vectorized : bool) :
  fst (model vectorized_markov data num_states vectorized) =
  model_header data num_states ++
  fst (markov_steps [trace_plate data; state_plate num_states] data
                    (markov_loop vectorized_markov data vectorized) NoneVal).
Proof. unfold model. cbv zeta. now destruct (markov_steps _ data _ NoneVal). Qed.

Lemma model_snd (data : tensor3) (num_states : Z) (vectorized : bool) :
  snd (model vectorized_markov data num_states vectorized) =
  snd (markov_steps [trace_plate data; state_plate num_states] data
                    (markov_loop vectorized_markov data vectorized) NoneVal).
Proof. unfold model. cbv zeta. now destruct (markov_steps _ data _ NoneVal). Qed.

(** The names of the statements before the loop. *)
Lemma model_header_names (data : tensor3) (num_states : Z) (m : msg) :
  In m (model_header data num_states) ->
  In (name m) ["rho"; "pi"; "alpha"; "A"; "a"; "b"; "lamda"; "m"; "beta"; "mu"].
Proof.
  intros H. apply (in_map name) in H. exact H.
Qed.

Lemma model_sites (data : tensor3) (num_states : Z) (vectorized : bool) (m : msg) :
  In m (fst (model vectorized_markov data num_states vectorized)) ->
  In (name m) ["rho"; "pi"; "alpha"; "A"; "a"; "b"; "lamda"; "m"; "beta"; "mu"] \/
  exists pl t, In t (markov_loop vectorized_markov data vectorized) /\
               ((exists z, m = z_site pl t z) \/ (exists d, m = x_site pl t d)).
Proof.
  rewrite model_fst, in_app_iff.
  intros [Hh|Hl]; [left; now apply (model_header_names data num_states)|right].
  exists [trace_plate data; state_plate num_states].
  exact (markov_steps_sites _ data _ NoneVal m Hl).
Qed.

(** A header name starts neither with "z_", "x_" nor "probs_". *)
Lemma header_name_prefix (n p : string) :
  In n ["rho"; "pi"; "alpha"; "A"; "a"; "b"; "lamda"; "m"; "beta"; "mu"] ->
  In p ["z_"; "x_"; "probs_"] ->
  Py.startswith n p = false.
Proof.
  intros Hn Hp. simpl in Hn, Hp.
  repeat (destruct Hp as [<-|Hp]; [repeat (destruct Hn as [<-|Hn]; [reflexivity|]);
                                   contradiction|]).
  contradiction.
Qed.

(** C4 (latent states are enumerated): in every run of the model, a site
    named z_... is an unobserved sample site annotated
    [infer={"enumerate": "parallel"}] and a site named x_... is an
    observed sample site without any [infer] entry; every step [t] the
    Markov loop reaches declares z_t with that annotation, and x_t
    without it once [data[t]] is read; the sequential loop over
    [range(data.shape[1])] completes when [data] has at least as many
    rows as time steps. *)
Theorem C4_latent_sites_enumerated
    (data : tensor3) (num_states : Z) (vectorized : bool) :
  let run := model vectorized_markov data num_states vectorized in
  let loop := markov_loop vectorized_markov data vectorized in
  (forall m, In m (fst run) -> Py.startswith (name m) "z_" = true ->
     type m = sample_site /\ infer m = [("enumerate", "parallel")] /\
     obs m = None) /\
  (forall m, In m (fst run) -> Py.startswith (name m) "x_" = true ->
     type m = sample_site /\ infer m = [] /\
     Py.get (infer m) "enumerate" = None /\ obs m <> None) /\
  (forall pre t post, loop = pre ++ t :: post ->
     (forall t', In t' pre -> exists d, data_at data t' = inr d) ->
     (exists mz, In mz (fst run) /\ name mz = ("z_" ++ fmt t)%string /\
                 Py.get (infer mz) "enumerate" = Some "parallel") /\
     (forall d, data_at data t = inr d ->
        exists mx, In mx (fst run) /\ name mx = ("x_" ++ fmt t)%string /\
                   infer mx = [] /\ obs mx = Some d)) /\
  (vectorized = false -> (dim1 data <= dim0 data)%nat -> snd run = inr tt).
Proof.
  cbv zeta. split; [|split; [|split]].
  - intros m Hm Hz.
    apply model_sites in Hm as [Hh|[pl [t [_ [[z ->]|[d ->]]]]]].
    + rewrite (header_name_prefix _ "z_" Hh) in Hz by (simpl; auto). discriminate.
    + repeat split.
    + simpl in Hz. discriminate.
  - intros m Hm Hx.
    apply model_sites in Hm as [Hh|[pl [t [_ [[z ->]|[d ->]]]]]].
    + rewrite (header_name_prefix _ "x_" Hh) in Hx by (simpl; auto). discriminate.
    + simpl in Hx. discriminate.
    + split; [reflexivity|]. split; [reflexivity|]. split; [reflexivity|discriminate].
  - intros pre t post Hloop Hpre.
    destruct (markov_steps_reached [trace_plate data; state_plate num_states]
                data pre t post NoneVal Hpre) as [z [Hz Hx]].
    split.
    + exists (z_site [trace_plate data; state_plate num_states] t z).
      rewrite model_fst, Hloop. split; [|split; reflexivity].
      apply in_or_app; now right.
    + intros d Hd.
      exists (x_site [trace_plate data; state_plate num_states] t d).
      rewrite model_fst, Hloop. split; [|repeat split].
      apply in_or_app; right. now apply Hx.
  - intros -> Hdim. rewrite model_snd. apply markov_steps_completes.
    unfold markov_loop, Py.range. intros t Ht.
    rewrite map_map in Ht. apply in_map_iff in Ht as [i [<- Hi]].
    apply in_seq in Hi. exists (DataAt (IntIdx (Z.of_nat i))).
    unfold data_at.
    replace ((- Z.of_nat (dim0 data) <=? Z.of_nat i)%Z &&
             (Z.of_nat i <? Z.of_nat (dim0 data))%Z) with true; [reflexivity|].
    symmetry. apply andb_true_iff. rewrite Z.leb_le, Z.ltb_lt. lia.
Qed.

End ModelFacts.

(** A sequential run over two time steps. *)
Example model_run_names :
  map name (fst (model (fun _ _ _ => []) (mkT3 2 2 1 (fun _ _ _ => 0%Z)) 3 false)) =
  ["rho"; "pi"; "alpha"; "A"; "a"; "b"; "lamda"; "m"; "beta"; "mu";
   "z_0"; "x_0"; "z_1"; "x_1"].
Proof. reflexivity. Qed.

(** With more time steps than rows, [data[t]] fails at the first step
    beyond the rows, after that step's latent site was declared. *)
Example model_run_index_error :
  let run := model (fun _ _ _ => []) (mkT3 1 2 1 (fun _ _ _ => 0%Z)) 3 false in
  map name (skipn 10 (fst run)) = ["z_0"; "x_0"; "z_1"] /\
  snd run = inl Py.IndexError.
Proof. split; reflexivity. Qed.

(* ===================================================================== *)
(** ** The guide (lines 151-157) *)
(* ===================================================================== *)

(** C8 (the guide exposes nothing): the guide is [AutoDelta] over the
    model blocked with an [expose_fn] that accepts exactly the names
    starting with "probs_"; no param or sample site of the model has such
    a name, whatever the data and the Markov loop, so the block lets no
    site of the model through. *)
Theorem C8_guide_exposes_no_site
    (trace_obj : Type) (model_obj : Py.obj)
    (vectorized_markov : string -> nat -> Z -> list index)
    (data : tensor3) (num_states : Z) (vectorized : bool) :
  @make_guide trace_obj model_obj = AutoDelta (Block (Global model_obj) expose_fn) /\
  (forall m, expose_fn m = Py.startswith (name m) "probs_") /\
  (forall m, In m (fst (model vectorized_markov data num_states vectorized)) ->
             expose_fn m = false) /\
  exposed_sites expose_fn (fst (model vectorized_markov data num_states vectorized)) = [].
Proof.
  assert (Hsites : forall m,
            In m (fst (model vectorized_markov data num_states vectorized)) ->
            expose_fn m = false).
  { intros m Hm. unfold expose_fn.
    apply model_sites in Hm as [Hh|[pl [t [_ [[z ->]|[d ->]]]]]];
      [|reflexivity|reflexivity].
    apply header_name_prefix; [exact Hh|simpl; auto]. }
  repeat split; [exact Hsites|].
  unfold exposed_sites.
  induction (fst (model vectorized_markov data num_states vectorized)) as [|m tr IH];
    [reflexivity|].
  cbn [filter]. rewrite (Hsites m (or_introl eq_refl)).
  apply IH. intros m' Hm'. apply Hsites. now right.
Qed.


(* ===================================================================== *)
(** ** Truncation (lines 144-146 and 249-250) *)
(* ===================================================================== *)

Lemma clamp_max_bound (lengths : list Z) (n : Z) :
  Forall (fun l => (l <= n)%Z) (clamp_max lengths n).
Proof.
  unfold clamp_max. apply Forall_forall. intros l Hl.
  apply in_map_iff in Hl as [l0 [<- _]]. apply Z.le_min_r.
Qed.

Lemma slice_stop_pos (d : nat) (n : Z) :
  (0 < n)%Z -> Py.slice_stop d n = Nat.min (Z.to_nat n) d.
Proof.
  intros H. unfold Py.slice_stop.
  destruct (n <? 0)%Z eqn:E; [apply Z.ltb_lt in E; lia|reflexivity].
Qed.


Lemma truncate_training_some (args : Args.t) (n : Z) lengths seqs :
  Args.truncate args = Some n -> n <> 0%Z ->
  truncate_training args lengths seqs = (clamp_max lengths n, slice_time seqs n).
Proof.
  intros E Hn. unfold truncate_training, Py.truthy. rewrite E.
  destruct (n =? 0)%Z eqn:E0; [apply Z.eqb_eq in E0; contradiction|reflexivity].
Qed.

Lemma truncate_training_off (args : Args.t) lengths seqs :
  Args.truncate args = None \/ Args.truncate args = Some 0%Z ->
  truncate_training args lengths seqs = (lengths, seqs).
Proof. intros [E|E]; unfold truncate_training; now rewrite E. Qed.

Lemma truncate_test_some (args : Args.t) (n : Z) lengths :
  Args.truncate args = Some n -> n <> 0%Z ->
  truncate_test args lengths = clamp_max lengths n.
Proof.
  intros E Hn. unfold truncate_test, Py.truthy. rewrite E.
  destruct (n =? 0)%Z eqn:E0; [apply Z.eqb_eq in E0; contradiction|reflexivity].
Qed.

Lemma truncate_test_off (args : Args.t) lengths :
  Args.truncate args = None \/ Args.truncate args = Some 0%Z ->
  truncate_test args lengths = lengths.
Proof. intros [E|E]; unfold truncate_test; now rewrite E. Qed.


Lemma fold_left_add_from (l : list Z) (a : Z) :
  fold_left Z.add l a = (a + fold_left Z.add l 0)%Z.
Proof.
  revert a; induction l as [|x l IH]; intros a; cbn [fold_left]; [lia|].
  rewrite (IH (a + x)%Z), (IH (0 + x)%Z). lia.
Qed.

Lemma sum_lengths_cons (l : Z) (lengths : list Z) :
  sum_lengths (l :: lengths) = (l + sum_lengths lengths)%Z.
Proof. unfold sum_lengths. cbn [fold_left]. now rewrite fold_left_add_from. Qed.

(** [lengths.sum()] adds up the lengths. *)
Lemma sum_lengths_total (lengths : list Z) :
  sum_lengths lengths = fold_right Z.add 0%Z lengths.
Proof.
  induction lengths as [|l lengths IH]; [reflexivity|].
  rewrite sum_lengths_cons, IH. reflexivity.
Qed.


(** A bound one past the largest int64 stops the run at line 145. *)
Example prepare_training_bound_too_large :
  prepare_training (Toy.argv "1" 50 (Some (2 ^ 63)%Z) false false false) Toy.data
  = inl Py.RuntimeError.
Proof. reflexivity. Qed.

(** [--truncate 0]: the flag is set, and the test length 5 is not
    clamped to at most 0. *)
Lemma C10_truncate_zero_leaves_test_lengths :
  exists pt,
    prepare_test (Toy.argv "1" 50 (Some 0%Z) false false false) Toy.data
                 (present_notes_of Toy.train_sequences) = inr pt /\
    p_lengths pt = [5]%Z /\
    ~ Forall (fun l => (l <= 0)%Z) (p_lengths pt).
Proof.
  eexists. split; [reflexivity|]. split; [reflexivity|].
  intros H. inversion H as [|? ? H5 _]. simpl in H5. lia.
Qed.

(** C10 (test truncation, non-zero bound): when the test split is indexed
    successfully, its sequences are the note-filtered test sequences with
    every time step, whatever [--truncate] says.  When [--truncate n] is
    given with [n] not 0, only the test lengths change, to [min(l, n)],
    while the training data has both its lengths clamped and its time
    axis sliced [[:, :n]].  When the flag is absent or 0 the test lengths
    are used as they are. *)
Theorem C10_test_truncation
    (args : Args.t) (data : dataset) (mask : list bool) (pt : prepared) :
  prepare_test args data mask = inr pt ->
  p_sequences pt = select_notes (sequences (test data)) mask /\
  dim0 (p_sequences pt) = dim0 (sequences (test data)) /\
  dim1 (p_sequences pt) = dim1 (sequences (test data)) /\
  num_observations pt = sum_lengths (p_lengths pt) /\
  (forall n, Args.truncate args = Some n -> n <> 0%Z ->
     p_lengths pt = map (fun l => Z.min l n) (sequence_lengths (test data)) /\
     Forall (fun l => (l <= n)%Z) (p_lengths pt) /\
     forall p, prepare_training args data = inr p ->
       p_lengths p = map (fun l => Z.min l n) (sequence_lengths (train data)) /\
       dim1 (p_sequences p) = Py.slice_stop (dim1 (sequences (train data))) n) /\
  (Args.truncate args = None \/ Args.truncate args = Some 0%Z ->
     p_lengths pt = sequence_lengths (test data)).
Proof.
  unfold prepare_test. intros H.
  destruct (index_notes (sequences (test data)) mask) as [e|seqs] eqn:Ei;
    [discriminate|].
  apply index_notes_inr in Ei as [_ ->].
  destruct (clamp_bound args) as [e|[]]; [discriminate|].
  injection H as <-. cbn [p_sequences p_lengths num_observations].
  do 4 (split; [reflexivity|]). split.
  - intros n E Hn. rewrite (truncate_test_some args n _ E Hn).
    split; [reflexivity|]. split; [apply clamp_max_bound|].
    intros p Hp. apply prepare_training_inr in Hp as [_ ->].
    cbn [p_lengths p_sequences].
    rewrite (truncate_training_some args n _ _ E Hn). split; reflexivity.
  - intros E. apply truncate_test_off, E.
Qed.

(** With [--truncate 2] the five test steps stay while the test length
    and the training data are cut to 2. *)
Lemma C10_test_truncation_witness :
  let args := Toy.argv "1" 50 (Some 2%Z) false false false in
  let mask := present_notes_of Toy.train_sequences in
  let pt := mkPrepared mask (select_notes Toy.test_sequences mask) [2]%Z 2%Z in
  prepare_test args Toy.data mask = inr pt /\
  dim1 (p_sequences pt) = 5%nat /\
  p_lengths pt = [2]%Z.
Proof.
  cbv zeta.
  assert (H : prepare_test (Toy.argv "1" 50 (Some 2%Z) false false false) Toy.data
                (present_notes_of Toy.train_sequences) =
              inr (mkPrepared (present_notes_of Toy.train_sequences)
                     (select_notes Toy.test_sequences
                        (present_notes_of Toy.train_sequences)) [2]%Z 2%Z))
    by reflexivity.
  split; [exact H|].
  destruct (C10_test_truncation _ _ _ _ H) as [_ [_ [Hd [_ [Hn _]]]]].
  split; [exact Hd|].
  destruct (Hn 2%Z eq_refl ltac:(discriminate)) as [Hl _]. exact Hl.
Defined.


(* ===================================================================== *)
(** ** The objective (lines 183-217) *)
(* ===================================================================== *)

(** Under [--tmc] line 188 reads the global [model_0], which the script
    never binds. *)
Example select_objective_tmc_NameError :
  let args := Toy.argv "1" 50 None false true false in
  @select_objective nat script_globals args
     (Partial (Global model_fn) args) (Partial (make_guide model_fn) args)
  = inl (Py.NameError "model_0").
Proof. reflexivity. Qed.

(** Where [model_0] is bound and selected, line 188 compares it with the
    partial application made at line 178, which is another object. *)
Example select_objective_tmc_model_0 :
  let args := Toy.argv "0" 50 None false true false in
  lookup_model Toy.with_models_0_7 args = inr model_fn /\
  exists s,
    @select_objective nat Toy.with_models_0_7 args
       (Partial (Global model_fn) args) (Partial (make_guide model_fn) args) = inr s /\
    svi_loss s = mkElbo TraceTMC_ELBO 2 None None.
Proof. split; [reflexivity|]. eexists; split; reflexivity. Qed.

(** Model "7" without [--tmc] and [--funsor] stops at the assertion of
    line 198. *)
Example select_objective_model_7_assertion :
  let args := Toy.argv "7" 50 None false false false in
  @select_objective nat script_globals args
     (Partial (Global model_fn) args) (Partial (make_guide model_fn) args)
  = inl Py.AssertionError.
Proof. reflexivity. Qed.

(** C5 (choice of the objective): in the script's namespace no
    objective is ever constructed under [--tmc].  [--jit] without
    [--funsor] raises [NotImplementedError] at line 186; every other
    [--tmc] command line, which the incompatibility does not concern,
    reaches line 188, whose [model is model_0] reads a global the script
    never binds, and raises [NameError].  Without [--tmc] the objective is
    chosen as lines 196-211 say: model "7" requires [--funsor] (otherwise
    line 198 raises [AssertionError]) and gets [TraceMarkovEnum_ELBO] with
    [max_plate_nesting] 3, model "0" gets [TraceEnum_ELBO] with 1, every
    other model [TraceEnum_ELBO] with 2, [--jit] selecting the Jit class
    of the same name. *)
Theorem C5_tmc_objective_raises_NameError
    {trace_obj : Type} (args : Args.t) (model guide : callable trace_obj) :
  let run := select_objective script_globals args model guide in
  let enum_elbo (cls jit_cls : elbo_class) (nesting : Z) :=
    mkElbo (if Args.jit args then jit_cls else cls) nesting (Some true)
           (Some [("time_compilation", Args.time_compilation args)]) in
  let built e := run = inr (mkSVI model guide (Adam (Args.learning_rate args)) e) in
  Py.get script_globals "model_0" = None /\
  (Args.tmc args = true ->
     (Args.jit args && negb (Args.funsor args) = false ->
        run = inl (Py.NameError "model_0")) /\
     (Args.jit args && negb (Args.funsor args) = true ->
        exists msg, run = inl (Py.NotImplementedError msg)) /\
     (forall s, run <> inr s)) /\
  (Args.tmc args = false ->
     (Args.model args = "7" -> Args.funsor args = false ->
        run = inl Py.AssertionError) /\
     (Args.model args = "7" -> Args.funsor args = true ->
        built (enum_elbo TraceMarkovEnum_ELBO JitTraceMarkovEnum_ELBO 3%Z)) /\
     (Args.model args = "0" ->
        built (enum_elbo TraceEnum_ELBO JitTraceEnum_ELBO 1%Z)) /\
     (Args.model args <> "0" -> Args.model args <> "7" ->
        built (enum_elbo TraceEnum_ELBO JitTraceEnum_ELBO 2%Z))).
Proof.
  cbv zeta. split; [reflexivity|].
  unfold select_objective. split; intros Htmc; rewrite Htmc.
  - split; [|split].
    + intros ->. reflexivity.
    + intros ->. eexists; reflexivity.
    + intros s. destruct (Args.jit args && negb (Args.funsor args)); discriminate.
  - split; [|split; [|split]].
    + intros -> ->. reflexivity.
    + intros -> ->. reflexivity.
    + intros ->. reflexivity.
    + intros H0 H7.
      apply String.eqb_neq in H0, H7. now rewrite H0, H7.
Qed.

(* ===================================================================== *)
(** ** Runs of [main] *)
(* ===================================================================== *)

Ltac step_emits :=
  repeat first
    [ apply emits_only_bind; [|intros ?]
    | apply emits_only_emit
    | apply emits_only_update
    | apply emits_only_call
    | apply emits_only_lift
    | apply emits_only_when
    | apply emits_only_divide
    | apply emits_only_ret
    | exact I ].

Section MainFacts.

Context {float trace_obj FW : Type} (F : framework float trace_obj FW).

(** *** Reading the events of a run made of two parts *)

Lemma svi_steps_of_app (a b : list (event float trace_obj)) :
  svi_steps_of (a ++ b) = svi_steps_of a ++ svi_steps_of b.
Proof.
  induction a as [|ev a IH]; [reflexivity|].
  destruct ev; simpl; now rewrite ?IH.
Qed.

Lemma model_inputs_of_app (a b : list (event float trace_obj)) :
  model_inputs_of (a ++ b) = model_inputs_of a ++ model_inputs_of b.
Proof.
  induction a as [|ev a IH]; [reflexivity|].
  destruct ev; simpl; now rewrite ?IH.
Qed.

Lemma elbo_losses_of_app (a b : list (event float trace_obj)) :
  elbo_losses_of (a ++ b) = elbo_losses_of a ++ elbo_losses_of b.
Proof.
  induction a as [|ev a IH]; [reflexivity|].
  destruct ev; simpl; now rewrite ?IH.
Qed.

Lemma get_traces_of_app (a b : list (event float trace_obj)) :
  get_traces_of (a ++ b) = get_traces_of a ++ get_traces_of b.
Proof.
  induction a as [|ev a IH]; [reflexivity|].
  destruct ev; simpl; now rewrite ?IH.
Qed.

Lemma step_logs_of_app (a b : list (event float trace_obj)) :
  step_logs_of (a ++ b) = step_logs_of a ++ step_logs_of b.
Proof.
  induction a as [|ev a IH]; [reflexivity|].
  destruct ev as [| | | |m|m| | | | | |]; simpl; rewrite ?IH; try reflexivity.
  destruct m; simpl; now rewrite ?IH.
Qed.

Lemma capacity_logs_of_app (a b : list (event float trace_obj)) :
  capacity_logs_of (a ++ b) = capacity_logs_of a ++ capacity_logs_of b.
Proof.
  induction a as [|ev a IH]; [reflexivity|].
  destruct ev as [| | | |m|m| | | | | |]; simpl; rewrite ?IH; try reflexivity.
  destruct m; simpl; now rewrite ?IH.
Qed.



Lemma setup_event_extracts (tr : list (event float trace_obj)) :
  Forall setup_event tr ->
  svi_steps_of tr = [] /\ elbo_losses_of tr = [] /\
  step_logs_of tr = [] /\ capacity_logs_of tr = [] /\
  training_marks_of tr = [] /\ model_inputs_of tr = [].
Proof.
  induction 1 as [|ev tr Hev _ IH]; [repeat split|].
  destruct ev as [| | | |m|m| | | | | |]; simpl in *; try contradiction; try exact IH.
  destruct m; simpl in *; try contradiction; exact IH.
Qed.

Lemma late_event_extracts (tr : list (event float trace_obj)) :
  Forall late_event tr -> get_traces_of tr = [].
Proof.
  induction 1 as [|ev tr Hev _ IH]; [reflexivity|].
  destruct ev; simpl in *; try contradiction; exact IH.
Qed.

Lemma no_step_svi_steps (tr : list (event float trace_obj)) :
  Forall no_step tr -> svi_steps_of tr = [].
Proof.
  induction 1 as [|ev tr Hev _ IH]; [reflexivity|].
  destruct ev; simpl in *; try contradiction; exact IH.
Qed.

(** *** Lines 131-175 *)

Lemma print_shapes_off args model guide p w :
  Args.print_shapes args = false ->
  print_shapes F args model guide p w = ([], inr (tt, w)).
Proof. intros H. unfold print_shapes. now rewrite H. Qed.

Lemma print_shapes_raises args model guide p :
  raises_only (fun e => exists c, e = Py.FrameworkError c)
              (print_shapes F args model guide p).
Proof.
  unfold print_shapes. cbv zeta. apply raises_only_when.
  apply raises_only_bind; [apply raises_only_call; eauto|intros gt].
  apply raises_only_bind; [apply raises_only_call; eauto|intros mt].
  apply raises_only_emit.
Qed.

(** Lines 131-175 end as the name of the model, the preparation of the
    training data and the shapes report end, in this order. *)
Lemma prologue_outcome args data model w :
  outcome (prologue F args data model w) =
  match Py.get_name model with
  | inl e => inl e
  | inr _ =>
      match prepare_training args data with
      | inl e => inl e
      | inr p =>
          match outcome (print_shapes F args model (make_guide model) p
                           (run_clear_param_store F
                              (run_set_rng_seed F (Args.seed args) w))) with
          | inl e => inl e
          | inr (_, w1) => inr (p, w1)
          end
      end
  end.
Proof.
  unfold prologue.
  destruct (Py.get_name model) as [e|n]; [reflexivity|].
  rewrite outcome_bind. cbn [lift ret outcome snd].
  rewrite outcome_bind. cbn [emit outcome snd].
  destruct (prepare_training args data) as [e|p]; [reflexivity|].
  rewrite outcome_bind. cbn [lift ret outcome snd].
  rewrite outcome_bind. cbn [update outcome snd].
  rewrite outcome_bind. cbn [update outcome snd].
  rewrite outcome_bind.
  destruct (outcome (print_shapes F args model (make_guide model) p _)) as [e|[[] w1]];
    reflexivity.
Qed.

Lemma prologue_post args data model w p w1 :
  outcome (prologue F args data model w) = inr (p, w1) ->
  (exists n, Py.get_name model = inr n) /\ prepare_training args data = inr p.
Proof.
  rewrite prologue_outcome.
  destruct (Py.get_name model) as [e|n]; [discriminate|].
  destruct (prepare_training args data) as [e|p']; [discriminate|].
  destruct (outcome _) as [e|[[] w2]]; [discriminate|].
  intros [= <- <-]. split; [now exists n|reflexivity].
Qed.


Lemma prologue_raises args data model :
  raises_only (fun e => (exists a, e = Py.AttributeError a) \/ e = Py.RuntimeError \/
                        exists c, e = Py.FrameworkError c)
              (prologue F args data model).
Proof.
  intros w e. rewrite prologue_outcome.
  destruct (Py.get_name model) as [e'|n] eqn:Hn.
  { intros [= <-]. left. unfold Py.get_name in Hn.
    destruct (Py.okind model); try discriminate; injection Hn as <-; eauto. }
  destruct (prepare_training args data) as [e'|p] eqn:Hp.
  { intros [= <-]. right; left. exact (proj1 (prepare_training_inl _ _ _ Hp)). }
  destruct (outcome _) as [e'|[[] w1]] eqn:Hs; [|discriminate].
  intros [= <-]. right; right. exact (print_shapes_raises _ _ _ _ _ _ Hs).
Qed.

Lemma prologue_events_kind args data model :
  emits_only setup_event (prologue F args data model).
Proof. unfold prologue, print_shapes. cbv zeta. step_emits. Qed.

(** *** Lines 131-217 *)

Lemma setup_events g args data model w :
  events (setup F g args data model w) = events (prologue F args data model w).
Proof.
  unfold setup. cbv zeta. rewrite events_bind.
  destruct (outcome (prologue F args data model w)) as [e|[p w1]];
    [now rewrite app_nil_r|].
  rewrite events_bind.
  destruct (select_objective _ _ _ _) as [e|s]; cbn; now rewrite app_nil_r.
Qed.

Lemma setup_outcome g args data model w :
  outcome (setup F g args data model w) =
  match outcome (prologue F args data model w) with
  | inl e => inl e
  | inr (p, w1) =>
      match select_objective g args (Partial (Global model) args)
                             (Partial (make_guide model) args) with
      | inl e => inl e
      | inr s => inr (mkLocals p (Partial (Global model) args)
                               (Partial (make_guide model) args) s, w1)
      end
  end.
Proof.
  unfold setup. cbv zeta. rewrite outcome_bind.
  destruct (outcome (prologue F args data model w)) as [e|[p w1]]; [reflexivity|].
  rewrite outcome_bind.
  destruct (select_objective _ _ _ _) as [e|s]; reflexivity.
Qed.

Lemma setup_events_kind g args data model :
  emits_only setup_event (setup F g args data model).
Proof. intros w. rewrite setup_events. apply prologue_events_kind. Qed.

(** Lines 131-217 call neither [svi.step] nor [elbo.loss]. *)
Lemma setup_quiet g args data model :
  emits_only quiet (setup F g args data model).
Proof.
  intros w. eapply Forall_impl; [|apply setup_events_kind].
  intros ev; destruct ev as [| | | |m|m| | | | | |]; cbn; try tauto.
Qed.

(** Lines 131-217 leave in the locals what lines 136-147, 178-179 and
    183-217 computed. *)
Lemma setup_post g args data model w l w1 :
  outcome (setup F g args data model w) = inr (l, w1) ->
  outcome (prologue F args data model w) = inr (l_prepared l, w1) /\
  prepare_training args data = inr (l_prepared l) /\
  l_model l = Partial (Global model) args /\
  l_guide l = Partial (make_guide model) args /\
  select_objective g args (l_model l) (l_guide l) = inr (l_svi l).
Proof.
  rewrite setup_outcome.
  destruct (outcome (prologue F args data model w)) as [e|[p w2]] eqn:Hp; [discriminate|].
  destruct (select_objective _ _ _ _) as [e|s] eqn:Hs; [discriminate|].
  intros [= <- <-]. cbn [l_prepared l_model l_guide l_svi].
  split; [reflexivity|]. split; [exact (proj2 (prologue_post _ _ _ _ _ _ Hp))|auto].
Qed.

(** *** The training loop (lines 219-223) *)

(** One iteration: the call of [svi.step]; when it returns, the division
    by [num_observations]; when that is not zero, the log line, then the
    remaining iterations. *)
Lemma training_steps_cons s p args step steps w :
  training_steps F s p args (step :: steps) w =
  match run_svi_step F s (p_sequences p) (p_lengths p) (Args.batch_size args) w with
  | inl c =>
      ([svi_step s (p_sequences p) (p_lengths p) (Args.batch_size args)],
       inl (Py.FrameworkError c))
  | inr (loss, w1) =>
      if (num_observations p =? 0)%Z then
        ([svi_step s (p_sequences p) (p_lengths p) (Args.batch_size args)],
         inl Py.ZeroDivisionError)
      else
        (svi_step s (p_sequences p) (p_lengths p) (Args.batch_size args)
           :: logging_info (Step step (mkQuot loss (num_observations p)))
           :: events (training_steps F s p args steps w1),
         outcome (training_steps F s p args steps w1))
  end.
Proof.
  cbn [training_steps]. unfold bind at 1. unfold call at 1.
  destruct (run_svi_step F s (p_sequences p) (p_lengths p) (Args.batch_size args) w)
    as [c|[loss w1]]; [reflexivity|].
  unfold bind at 1. unfold divide.
  destruct (num_observations p =? 0)%Z; [reflexivity|].
  cbn [ret]. unfold bind at 1. cbn [emit].
  unfold events, outcome.
  now destruct (training_steps F s p args steps w1).
Qed.

Lemma training_loop_eq s p args w :
  training_loop F s p args w =
  (logging_info Step_Loss ::
     events (training_steps F s p args (Py.range (Args.num_steps args)) w),
   outcome (training_steps F s p args (Py.range (Args.num_steps args)) w)).
Proof.
  unfold training_loop, bind, emit, events, outcome.
  now destruct (training_steps F s p args _ w).
Qed.

(** What the loop shows is the beginning of what a complete loop shows,
    and all of it when the loop returns. *)
Lemma training_steps_marks s p args steps :
  forall w, exists rest,
    full_marks steps =
      training_marks_of (events (training_steps F s p args steps w)) ++ rest /\
    (forall w', outcome (training_steps F s p args steps w) = inr (tt, w') -> rest = []).
Proof.
  induction steps as [|step steps IH]; intros w.
  - exists []. split; [reflexivity|auto].
  - rewrite training_steps_cons.
    destruct (run_svi_step F s _ _ _ w) as [c|[loss w1]].
    + exists (Some step :: full_marks steps). split; [reflexivity|discriminate].
    + destruct (num_observations p =? 0)%Z.
      * exists (Some step :: full_marks steps). split; [reflexivity|discriminate].
      * destruct (IH w1) as [rest [Hm Hr]]. exists rest.
        cbn [events outcome fst snd training_marks_of full_marks flat_map app].
        fold (full_marks steps). split; [now rewrite Hm at 1|exact Hr].
Qed.

Lemma training_loop_marks s p args w :
  exists rest,
    full_marks (Py.range (Args.num_steps args)) =
      training_marks_of (events (training_loop F s p args w)) ++ rest /\
    (forall w', outcome (training_loop F s p args w) = inr (tt, w') -> rest = []).
Proof.
  rewrite training_loop_eq. cbn [events outcome fst snd training_marks_of].
  apply training_steps_marks.
Qed.

Lemma training_steps_emits s p args steps :
  emits_only (on_training_data s p (Args.batch_size args))
             (training_steps F s p args steps).
Proof.
  induction steps as [|i steps IH]; cbn [training_steps]; [apply emits_only_ret|].
  apply emits_only_bind; [apply emits_only_call; cbn; auto|intros loss].
  apply emits_only_bind; [apply emits_only_divide|intros q].
  apply emits_only_bind; [apply emits_only_emit; exact I|intros _]. exact IH.
Qed.

Lemma training_loop_emits s p args :
  emits_only (on_training_data s p (Args.batch_size args)) (training_loop F s p args).
Proof.
  unfold training_loop.
  apply emits_only_bind; [apply emits_only_emit; exact I|intros _].
  apply training_steps_emits.
Qed.



Lemma training_steps_raises s p args steps :
  raises_only (fun e => e = Py.ZeroDivisionError \/ exists c, e = Py.FrameworkError c)
              (training_steps F s p args steps).
Proof.
  induction steps as [|i steps IH]; cbn [training_steps]; [apply raises_only_ret|].
  apply raises_only_bind; [apply raises_only_call; eauto|intros loss].
  apply raises_only_bind; [apply raises_only_divide; now left|intros q].
  apply raises_only_bind; [apply raises_only_emit|intros _]. exact IH.
Qed.

Lemma training_loop_raises s p args :
  raises_only (fun e => e = Py.ZeroDivisionError \/ exists c, e = Py.FrameworkError c)
              (training_loop F s p args).
Proof.
  unfold training_loop.
  apply raises_only_bind; [apply raises_only_emit|intros _].
  apply training_steps_raises.
Qed.

Lemma training_loop_late s p args :
  emits_only late_event (training_loop F s p args).
Proof.
  unfold training_loop.
  apply emits_only_bind; [apply emits_only_emit; exact I|intros _].
  induction (Py.range (Args.num_steps args)) as [|i steps IH];
    cbn [training_steps]; [apply emits_only_ret|].
  apply emits_only_bind; [apply emits_only_call; exact I|intros loss].
  apply emits_only_bind; [apply emits_only_divide|intros q].
  apply emits_only_bind; [apply emits_only_emit; exact I|intros _]. exact IH.
Qed.

Lemma training_loop_no_steps s p args w :
  (Args.num_steps args <= 0)%Z ->
  training_loop F s p args w = ([logging_info Step_Loss], inr (tt, w)).
Proof.
  intros Hn. unfold training_loop, Py.range.
  replace (Z.to_nat (Args.num_steps args)) with 0%nat by lia. reflexivity.
Qed.


(** *** Evaluation and the capacity report (lines 225-271) *)

Lemma prepare_test_error args data mask e :
  prepare_test args data mask = inl e -> e = Py.IndexError \/ e = Py.RuntimeError.
Proof.
  unfold prepare_test, index_notes.
  destruct (Nat.eqb _ _); [|intros [= <-]; now left].
  destruct (clamp_bound_cases args) as [[-> _]|[-> _]]; [discriminate|].
  intros [= <-]. now right.
Qed.

Lemma evaluation_no_step args data l :
  emits_only no_step (evaluation F args data l).
Proof. unfold evaluation, evaluate, report_capacity. cbv zeta. step_emits. Qed.

Lemma evaluation_late args data l :
  emits_only late_event (evaluation F args data l).
Proof. unfold evaluation, evaluate, report_capacity. cbv zeta. step_emits. Qed.


Lemma evaluation_raises args data l :
  raises_only (fun e => e = Py.ZeroDivisionError \/ e = Py.IndexError \/
                        e = Py.RuntimeError \/ exists c, e = Py.FrameworkError c)
              (evaluation F args data l).
Proof.
  unfold evaluation, evaluate, report_capacity. cbv zeta.
  repeat first
    [ apply raises_only_bind; [|intros ?]
    | apply raises_only_emit
    | apply raises_only_call; eauto
    | apply raises_only_when
    | apply raises_only_divide; now left
    | apply raises_only_lift; intros e He;
      destruct (prepare_test_error _ _ _ _ He) as [-> | ->]; auto ].
Qed.

(** *** Lines 131-271 as a whole *)

Lemma main_with_model_events g args data model w :
  events (main_with_model F g args data model w) =
  events (setup F g args data model w) ++
  match outcome (setup F g args data model w) with
  | inl _ => []
  | inr (l, w1) =>
      events (training_loop F (l_svi l) (l_prepared l) args w1) ++
      match outcome (training_loop F (l_svi l) (l_prepared l) args w1) with
      | inl _ => []
      | inr (_, w2) => events (evaluation F args data l w2)
      end
  end.
Proof.
  unfold main_with_model. rewrite events_bind.
  destruct (outcome (setup F g args data model w)) as [e|[l w1]]; [reflexivity|].
  now rewrite events_bind.
Qed.

Lemma main_with_model_outcome g args data model w :
  outcome (main_with_model F g args data model w) =
  match outcome (setup F g args data model w) with
  | inl e => inl e
  | inr (l, w1) =>
      match outcome (training_loop F (l_svi l) (l_prepared l) args w1) with
      | inl e => inl e
      | inr (_, w2) => outcome (evaluation F args data l w2)
      end
  end.
Proof.
  unfold main_with_model. rewrite outcome_bind.
  destruct (outcome (setup F g args data model w)) as [e|[l w1]]; [reflexivity|].
  now rewrite outcome_bind.
Qed.



End MainFacts.

(* ===================================================================== *)
(** ** The training loop (lines 219-223) *)
(* ===================================================================== *)

Lemma full_marks_steps (steps : list Z) :
  List.length (filter (fun m => match m with None => true | Some _ => false end)
                      (full_marks steps)) = List.length steps.
Proof.
  unfold full_marks. induction steps as [|i steps IH]; [reflexivity|].
  cbn. now rewrite IH.
Qed.


Lemma length_range (n : Z) : List.length (Py.range n) = Z.to_nat n.
Proof. unfold Py.range. now rewrite length_map, length_seq. Qed.

Section TrainingFacts.

Context {float trace_obj FW : Type} (F : framework float trace_obj FW).

Lemma svi_steps_marks (tr : list (event float trace_obj)) :
  List.length (svi_steps_of tr) =
  List.length (filter (fun m => match m with None => true | Some _ => false end)
                      (training_marks_of tr)).
Proof.
  induction tr as [|ev tr IH]; [reflexivity|].
  destruct ev as [| | | |m|m| | | | | |]; cbn; rewrite ?IH; try reflexivity.
  destruct m; cbn; now rewrite ?IH.
Qed.



End TrainingFacts.




(** The events of that run. *)
Example main_with_model_two_steps :
  let args := Toy.argv "1" 2 None false false false in
  let run := main_with_model Toy.F script_globals args Toy.data model_fn 0%nat in
  map (fun ev => match ev with
                 | svi_step _ seqs lengths b => Some (inl (dim1 seqs, lengths, b))
                 | logging_info (Step i q) => Some (inr (i, numerator q, denominator q))
                 | _ => None
                 end) (events run) =
  [ None; None; None; None;
    Some (inl (3%nat, [3; 2]%Z, 8%Z)); Some (inr (0%Z, 100%Z, 5%Z));
    Some (inl (3%nat, [3; 2]%Z, 8%Z)); Some (inr (1%Z, 99%Z, 5%Z));
    None; None; None; None; None; None; None; None ] /\
  outcome run = inr (tt, 4%nat).
Proof. split; reflexivity. Qed.
(* ===================================================================== *)
(** ** Exceptions raised by the script's own statements *)
(* ===================================================================== *)





Section WayIn.

Context {float trace_obj FW : Type} (F : framework float trace_obj FW).




End WayIn.




(* ===================================================================== *)
(** ** The capacity report (lines 266-271) *)
(* ===================================================================== *)

Lemma capacity_of_elements {float : Type} (values : list (tensor float)) :
  Forall well_formed values ->
  capacity_of values = Z.of_nat (list_sum (map elements values)).
Proof.
  unfold capacity_of.
  induction 1 as [|v values Hv _ IH]; [reflexivity|].
  cbn [map fold_left list_sum]. rewrite fold_left_add_from, IH.
  unfold well_formed in Hv.
  unfold size0, reshape_flat, elements. cbn [shape hd storage].
  rewrite <- Hv. unfold list_sum. cbn [fold_right]. lia.
Qed.

Section ReportFacts.

Context {float trace_obj FW : Type} (F : framework float trace_obj FW).

Lemma ends_with_report_bind {A} args (m : M float trace_obj FW A) f :
  (forall a, ends_with_report F args (f a)) -> ends_with_report F args (bind m f).
Proof.
  intros H w w'. rewrite outcome_bind, events_bind.
  destruct (outcome (m w)) as [e|[a w1]]; [discriminate|].
  intros Ho. destruct (H a w1 w' Ho) as [tr ->].
  exists (events (m w) ++ tr). now rewrite app_assoc.
Qed.

Lemma report_capacity_ends args : ends_with_report F args (report_capacity F args).
Proof.
  intros w w'. unfold report_capacity, bind, call, emit. cbn.
  intros [= <-]. now exists [].
Qed.

Lemma main_with_model_ends g args data model :
  ends_with_report F args (main_with_model F g args data model).
Proof.
  unfold main_with_model, evaluation. cbv zeta.
  do 10 (apply ends_with_report_bind; intros ?).
  apply report_capacity_ends.
Qed.

End ReportFacts.

(** C7 (capacity): a run of lines 131-271 that returns ends by reading
    the parameter store and logging, as the capacity of the model named
    by [--model], the number of scalar elements stored by the values the
    store then holds, summed over the values. *)
Theorem C7_capacity_counts_parameters
    {float trace_obj FW : Type} (F : framework float trace_obj FW)
    (g : namespace) (args : Args.t) (data : dataset) (model : Py.obj) (w w' : FW) :
  outcome (main_with_model F g args data model w) = inr (tt, w') ->
  Forall well_formed (param_store_values F w') ->
  exists tr,
    events (main_with_model F g args data model w) =
    tr ++ [get_param_store;
           logging_info
             (Capacity (Args.model args)
                (Z.of_nat (list_sum (map elements (param_store_values F w')))))].
Proof.
  intros Ho Hwf.
  destruct (main_with_model_ends F g args data model w w' Ho) as [tr ->].
  exists tr. now rewrite capacity_of_elements.
Qed.

(** The toy store holds a 2x3 and a 4-element value: ten parameters. *)
Lemma C7_capacity_witness :
  exists tr,
    events (main_with_model Toy.F script_globals
              (Toy.argv "1" 2 None false false false) Toy.data model_fn 0%nat) =
    tr ++ [get_param_store; logging_info (Capacity "1" 10%Z)].
Proof.
  apply (C7_capacity_counts_parameters Toy.F script_globals
           (Toy.argv "1" 2 None false false false) Toy.data model_fn 0%nat 4%nat).
  - reflexivity.
  - repeat constructor.
Defined.


(* ===================================================================== *)
(** ** The evaluation, step by step (lines 225-271) *)
(* ===================================================================== *)

Section EvaluationFacts.

Context {float trace_obj FW : Type} (F : framework float trace_obj FW).

(** A call of [elbo.loss] on a whole split, then the division. *)
Lemma evaluate_eq s model guide p w :
  evaluate F s model guide p w =
  ([elbo_loss (svi_loss s) model guide (p_sequences p) (p_lengths p)
              (Z.of_nat (dim0 (p_sequences p))) false],
   match run_elbo_loss F (svi_loss s) model guide (p_sequences p) (p_lengths p)
                       (Z.of_nat (dim0 (p_sequences p))) false w with
   | inl c => inl (Py.FrameworkError c)
   | inr (loss, w1) =>
       if (num_observations p =? 0)%Z then inl Py.ZeroDivisionError
       else inr (mkQuot loss (num_observations p), w1)
   end).
Proof.
  unfold evaluate. cbv zeta. unfold bind, call, divide.
  destruct (run_elbo_loss F _ _ _ _ _ _ _ w) as [c|[loss w1]]; [reflexivity|].
  destruct (num_observations p =? 0)%Z; reflexivity.
Qed.

Lemma evaluate_events s model guide p w :
  events (evaluate F s model guide p w) =
  [elbo_loss (svi_loss s) model guide (p_sequences p) (p_lengths p)
             (Z.of_nat (dim0 (p_sequences p))) false].
Proof. now rewrite evaluate_eq. Qed.

(** Lines 225-271: the compile-time line, the loss on the training
    split, the indexing of the test split with the training mask, the
    loss on the test split, the capacity. *)
Lemma evaluation_eq args data l w :
  let p := l_prepared l in
  let train := evaluate F (l_svi l) (l_model l) (l_guide l) p w in
  evaluation F args data l w =
  match outcome train with
  | inl e => (compile_time_line args ++ events train, inl e)
  | inr (q, w1) =>
      let head :=
        compile_time_line args ++ events train ++
        [ logging_info (Training_loss q);
          logging_info (Rule 40);
          logging_info (Evaluating_on (dim0 (sequences (test data)))) ] in
      match prepare_test args data (present_notes p) with
      | inl e => (head, inl e)
      | inr pt =>
          let test := evaluate F (l_svi l) (l_model l) (l_guide l) pt w1 in
          match outcome test with
          | inl e => (head ++ events test, inl e)
          | inr (q2, w2) =>
              (head ++ events test ++
               [ logging_info (Test_loss q2);
                 get_param_store;
                 logging_info (Capacity (Args.model args)
                                        (capacity_of (param_store_values F w2))) ],
               inr (tt, w2))
          end
      end
  end.
Proof.
  cbv zeta. unfold evaluation, report_capacity, compile_time_line, when. cbv zeta.
  unfold events, outcome.
  destruct (Args.jit args && Args.time_compilation args);
    unfold bind at 1; cbn [emit ret];
    unfold bind at 1;
    destruct (evaluate F (l_svi l) (l_model l) (l_guide l) (l_prepared l) w)
      as [tr1 [e|[q w1]]]; cbn [fst snd app]; try reflexivity;
    unfold bind at 1; cbn [emit];
    unfold bind at 1; cbn [emit];
    unfold bind at 1; cbn [emit];
    unfold bind at 1;
    (destruct (prepare_test args data (present_notes (l_prepared l))) as [e|pt];
     cbn [lift raise ret];
     [now rewrite ?app_nil_r, <- ?app_assoc|]);
    unfold bind at 1;
    (destruct (evaluate F (l_svi l) (l_model l) (l_guide l) pt w1)
       as [tr2 [e|[q2 w2]]]; cbn [fst snd app];
     [now rewrite ?app_nil_r, <- ?app_assoc|]);
    unfold bind, call, emit; cbn;
    now rewrite ?app_nil_r, <- ?app_assoc.
Qed.

End EvaluationFacts.

(* ===================================================================== *)
(** ** The note mask (lines 139-142 and 247) *)
(* ===================================================================== *)

Lemma truncate_training_dim2 args lengths seqs :
  dim2 (snd (truncate_training args lengths seqs)) = dim2 seqs.
Proof.
  unfold truncate_training.
  destruct (Py.truthy (Args.truncate args)); [|reflexivity].
  destruct (Args.truncate args); reflexivity.
Qed.

Lemma prepare_test_inr args data mask pt :
  prepare_test args data mask = inr pt ->
  List.length mask = dim2 (sequences (test data)) /\
  clamp_bound args = inr tt /\
  pt = mkPrepared mask (select_notes (sequences (test data)) mask)
                  (truncate_test args (sequence_lengths (test data)))
                  (sum_lengths (truncate_test args (sequence_lengths (test data)))).
Proof.
  unfold prepare_test.
  destruct (index_notes (sequences (test data)) mask) as [e|t'] eqn:Ei; [discriminate|].
  apply index_notes_inr in Ei as [Hl ->].
  destruct (clamp_bound args) as [e|[]]; [discriminate|].
  intros [= <-]. auto.
Qed.

Section MaskFacts.

Context {float trace_obj FW : Type} (F : framework float trace_obj FW).

Lemma emits_only_bind_post {A B} (Q : event float trace_obj -> Prop) (R : A -> Prop)
    (m : M float trace_obj FW A) (f : A -> M float trace_obj FW B) :
  emits_only Q m ->
  (forall w a w', outcome (m w) = inr (a, w') -> R a) ->
  (forall a, R a -> emits_only Q (f a)) ->
  emits_only Q (bind m f).
Proof.
  intros Hm HR Hf w. rewrite events_bind. apply Forall_app; split; [apply Hm|].
  destruct (outcome (m w)) as [e|[a w']] eqn:E; [constructor|].
  apply Hf. exact (HR w a w' E).
Qed.

(** The training loop hands the training sequences to [svi.step], once
    per iteration it starts. *)
Lemma training_steps_inputs s p args steps :
  forall w, exists k,
    (k <= List.length steps)%nat /\
    model_inputs_of (events (training_steps F s p args steps w)) =
      repeat (p_sequences p) k /\
    (forall w', outcome (training_steps F s p args steps w) = inr (tt, w') ->
                k = List.length steps).
Proof.
  induction steps as [|step steps IH]; intros w.
  - exists 0%nat. repeat split; auto.
  - rewrite training_steps_cons.
    destruct (run_svi_step F s _ _ _ w) as [c|[loss w1]].
    + exists 1%nat. cbn. repeat split; [lia|discriminate].
    + destruct (num_observations p =? 0)%Z.
      * exists 1%nat. cbn. repeat split; [lia|discriminate].
      * destruct (IH w1) as [k [Hk [Hi Hc]]]. exists (S k).
        cbn [events outcome fst snd model_inputs_of List.length repeat].
        split; [lia|]. split; [now rewrite Hi|].
        intros w' Hw'. now rewrite (Hc w' Hw').
Qed.

(** The evaluation hands the training sequences, then the test
    sequences indexed with the training mask, to [elbo.loss]. *)
Lemma evaluation_inputs args data l w :
  exists j,
    (j <= 2)%nat /\
    model_inputs_of (events (evaluation F args data l w)) =
      firstn j [p_sequences (l_prepared l);
                select_notes (sequences (test data)) (present_notes (l_prepared l))] /\
    (forall w', outcome (evaluation F args data l w) = inr (tt, w') -> j = 2%nat).
Proof.
  assert (Hc : model_inputs_of (@compile_time_line float trace_obj args) = []).
  { unfold compile_time_line. now destruct (Args.jit args && Args.time_compilation args). }
  rewrite evaluation_eq. cbv zeta. rewrite evaluate_eq. unfold events, outcome.
  cbn [fst snd].
  destruct (run_elbo_loss F _ _ _ _ _ _ _ w) as [c|[loss w1]].
  { exists 1%nat. cbn [fst snd]. rewrite model_inputs_of_app, Hc. cbn.
    repeat split; [lia|discriminate]. }
  destruct (num_observations (l_prepared l) =? 0)%Z.
  { exists 1%nat. cbn [fst snd]. rewrite model_inputs_of_app, Hc. cbn.
    repeat split; [lia|discriminate]. }
  destruct (prepare_test args data (present_notes (l_prepared l))) as [e|pt] eqn:Ht.
  { exists 1%nat. cbn [fst snd]. rewrite model_inputs_of_app, Hc. cbn.
    repeat split; [lia|discriminate]. }
  apply prepare_test_inr in Ht as [_ [_ Ht]].
  rewrite evaluate_eq. cbn [fst snd].
  assert (Hpt : p_sequences pt =
                select_notes (sequences (test data)) (present_notes (l_prepared l))).
  { now rewrite Ht. }
  exists 2%nat. split; [lia|].
  destruct (run_elbo_loss F _ _ _ _ _ _ _ w1) as [c|[loss2 w2]];
    [|destruct (num_observations pt =? 0)%Z];
    cbn [fst snd]; rewrite !model_inputs_of_app, Hc; cbn; rewrite Hpt; auto.
Qed.

(** The sequences a run of lines 131-271 hands to the model. *)
Lemma main_with_model_inputs g args data model w :
  let run := main_with_model F g args data model w in
  let mask := present_notes_of (sequences (train data)) in
  let train_seqs :=
    snd (truncate_training args (sequence_lengths (train data))
                           (select_notes (sequences (train data)) mask)) in
  let test_seqs := select_notes (sequences (test data)) mask in
  exists k j,
    (k <= Z.to_nat (Args.num_steps args))%nat /\ (j <= 2)%nat /\
    model_inputs_of (events run) =
      repeat train_seqs k ++ firstn j [train_seqs; test_seqs] /\
    (forall w', outcome run = inr (tt, w') ->
                k = Z.to_nat (Args.num_steps args) /\ j = 2%nat).
Proof.
  cbv zeta. rewrite main_with_model_events, main_with_model_outcome.
  destruct (setup_event_extracts _ (setup_events_kind F g args data model w))
    as [_ [_ [_ [_ [_ Hs]]]]].
  rewrite model_inputs_of_app, Hs. cbn [app].
  destruct (outcome (setup F g args data model w)) as [e|[l w1]] eqn:Hsetup.
  { exists 0%nat, 0%nat. repeat split; try lia; discriminate. }
  apply setup_post in Hsetup as [_ [Hp _]].
  apply prepare_training_inr in Hp as [_ Hp]. cbv zeta in Hp.
  rewrite model_inputs_of_app.
  rewrite training_loop_eq. cbn [events outcome fst snd model_inputs_of].
  destruct (training_steps_inputs (l_svi l) (l_prepared l) args
              (Py.range (Args.num_steps args)) w1) as [k [Hk [Hi Hc]]].
  rewrite length_range in Hk, Hc. rewrite Hi.
  assert (Hseqs : p_sequences (l_prepared l) =
                  snd (truncate_training args (sequence_lengths (train data))
                         (select_notes (sequences (train data))
                            (present_notes_of (sequences (train data)))))).
  { now rewrite Hp. }
  assert (Hmask : present_notes (l_prepared l) = present_notes_of (sequences (train data))).
  { now rewrite Hp. }
  destruct (outcome (training_steps F (l_svi l) (l_prepared l) args _ w1))
    as [e|[[] w2]] eqn:Hloop.
  { exists k, 0%nat. rewrite Hseqs. repeat split; try lia; discriminate. }
  destruct (evaluation_inputs args data l w2) as [j [Hj [Hev Hret]]].
  exists k, j. rewrite Hev, Hseqs, Hmask.
  split; [exact Hk|]. split; [exact Hj|]. split; [reflexivity|].
  intros w' Hw'. split; [exact (Hc w2 eq_refl)|exact (Hret w' Hw')].
Qed.

End MaskFacts.

(** C9 (one mask for both splits): the mask is computed from the training
    sequences alone and marks note [k] exactly when some training
    sequence has a 1 for it at some time step, so the notes kept are
    exactly the notes played in training.  The prepared training data
    keeps the notes the mask marks, and line 247 indexes the test split
    with the same mask.  A run of lines 131-271 hands to the model
    nothing but the training sequences so filtered (and truncated), to
    [svi.step] in the loop and then to the first [elbo.loss], and last
    the test sequences filtered with the training mask, to the second
    [elbo.loss]; a run that returns has handed over all of these.  All of
    them have as many notes as the mask marks. *)
Theorem C9_one_mask_for_both_splits
    {float trace_obj FW : Type} (F : framework float trace_obj FW)
    (g : namespace) (args : Args.t) (data : dataset) (model : Py.obj) (w : FW) :
  let run := main_with_model F g args data model w in
  let mask := present_notes_of (sequences (train data)) in
  let train_seqs :=
    snd (truncate_training args (sequence_lengths (train data))
                           (select_notes (sequences (train data)) mask)) in
  let test_seqs := select_notes (sequences (test data)) mask in
  List.length mask = dim2 (sequences (train data)) /\
  (forall k, (k < dim2 (sequences (train data)))%nat ->
     (nth k mask false = true <->
      exists i j, (i < dim0 (sequences (train data)))%nat /\
                  (j < dim1 (sequences (train data)))%nat /\
                  entry (sequences (train data)) i j k = 1%Z)) /\
  (forall k, In k (true_positions mask 0) <->
     (k < dim2 (sequences (train data)))%nat /\
     exists i j, (i < dim0 (sequences (train data)))%nat /\
                 (j < dim1 (sequences (train data)))%nat /\
                 entry (sequences (train data)) i j k = 1%Z) /\
  (forall p, prepare_training args data = inr p ->
     present_notes p = mask /\
     p_sequences p = train_seqs /\
     dim2 (p_sequences p) = count_true mask /\
     forall i j k, entry (p_sequences p) i j k =
                   entry (sequences (train data)) i j
                         (nth k (true_positions mask 0) 0%nat)) /\
  (forall pt, prepare_test args data mask = inr pt ->
     present_notes pt = mask /\
     p_sequences pt = test_seqs /\
     dim2 (p_sequences pt) = count_true mask /\
     forall i j k, entry (p_sequences pt) i j k =
                   entry (sequences (test data)) i j
                         (nth k (true_positions mask 0) 0%nat)) /\
  (exists k j,
     (k <= Z.to_nat (Args.num_steps args))%nat /\ (j <= 2)%nat /\
     model_inputs_of (events run) =
       repeat train_seqs k ++ firstn j [train_seqs; test_seqs]) /\
  (forall w', outcome run = inr (tt, w') ->
     model_inputs_of (events run) =
       repeat train_seqs (Z.to_nat (Args.num_steps args)) ++ [train_seqs; test_seqs]) /\
  Forall (fun seqs => dim2 seqs = count_true mask) (model_inputs_of (events run)).
Proof.
  cbv zeta.
  assert (Htrain : dim2 (snd (truncate_training args (sequence_lengths (train data))
                                (select_notes (sequences (train data))
                                   (present_notes_of (sequences (train data))))))
                   = count_true (present_notes_of (sequences (train data)))).
  { rewrite truncate_training_dim2. apply select_notes_dim2. }
  split; [apply present_notes_length|].
  split; [intros k Hk; now apply present_notes_spec|].
  split; [|split; [|split; [|split; [|split]]]].
  - intros k. rewrite true_positions_spec, Nat.sub_0_r. split.
    + intros [_ Hk].
      assert (Hlt : (k < dim2 (sequences (train data)))%nat).
      { rewrite <- present_notes_length.
        destruct (Nat.lt_ge_cases k (List.length (present_notes_of (sequences (train data)))))
          as [Hlt|Hge]; [exact Hlt|].
        rewrite nth_overflow in Hk by exact Hge. discriminate. }
      split; [exact Hlt|]. now apply present_notes_spec.
    + intros [Hlt Hex]. split; [lia|]. now apply present_notes_spec.
  - intros p Hp. apply prepare_training_inr in Hp as [_ Hp]. cbv zeta in Hp.
    rewrite Hp. cbn [present_notes p_sequences]. split; [reflexivity|].
    split; [reflexivity|]. split; [exact Htrain|].
    intros i j k. unfold truncate_training.
    destruct (Py.truthy (Args.truncate args)); [|reflexivity].
    destruct (Args.truncate args); reflexivity.
  - intros pt Ht. apply prepare_test_inr in Ht as [_ [_ ->]].
    cbn [present_notes p_sequences].
    split; [reflexivity|]. split; [reflexivity|]. split; [apply select_notes_dim2|].
    reflexivity.
  - destruct (main_with_model_inputs F g args data model w) as [k [j [Hk [Hj [Hi _]]]]].
    exists k, j. auto.
  - intros w' Hw'.
    destruct (main_with_model_inputs F g args data model w) as [k [j [_ [_ [Hi Hc]]]]].
    destruct (Hc w' Hw') as [-> ->]. exact Hi.
  - destruct (main_with_model_inputs F g args data model w) as [k [j [_ [_ [Hi _]]]]].
    cbv zeta in Hi. rewrite Hi. apply Forall_app. split.
    + apply Forall_forall. intros x Hx. apply repeat_spec in Hx. subst x. exact Htrain.
    + apply Forall_forall. intros x Hx.
      destruct j as [|[|j]]; cbn [firstn] in Hx; rewrite ?firstn_nil in Hx.
      * destruct Hx.
      * destruct Hx as [<-|[]]. exact Htrain.
      * destruct Hx as [<-|[<-|[]]]; [exact Htrain|apply select_notes_dim2].
Qed.

(** A run on the toy framework that returns: two steps, then the two
    evaluations. *)
Lemma C9_one_mask_witness :
  let args := Toy.argv "1" 2 (Some 2%Z) false false false in
  let mask := present_notes_of Toy.train_sequences in
  let train_seqs :=
    snd (truncate_training args [3; 2]%Z (select_notes Toy.train_sequences mask)) in
  model_inputs_of (events (main_with_model Toy.F script_globals args Toy.data model_fn 0%nat))
  = [train_seqs; train_seqs; train_seqs; select_notes Toy.test_sequences mask].
Proof.
  cbv zeta.
  apply (proj1 (proj2 (proj2 (proj2 (proj2 (proj2 (proj2
           (C9_one_mask_for_both_splits Toy.F script_globals
              (Toy.argv "1" 2 (Some 2%Z) false false false)
              Toy.data model_fn 0%nat)))))))
           4%nat).
  reflexivity.
Defined.

(** On the toy data note 0 is never played in training: three notes are
    kept in both splits. *)
Example toy_model_inputs :
  present_notes_of Toy.train_sequences = [false; true; true; true] /\
  map (fun t => (dim0 t, dim1 t, dim2 t))
      (model_inputs_of
         (events (main_with_model Toy.F script_globals
                    (Toy.argv "1" 2 (Some 2%Z) false false false)
                    Toy.data model_fn 0%nat))) =
  [(2, 2, 3); (2, 2, 3); (2, 2, 3); (1, 5, 3)]%nat.
Proof. split; reflexivity. Qed.

(* ===================================================================== *)
(** ** The sequential Markov loop (lines 95-112) *)
(* ===================================================================== *)

Lemma str_int_inj (a b : nat) :
  Py.str_int (Z.of_nat a) = Py.str_int (Z.of_nat b) -> a = b.
Proof.
  unfold Py.str_int. intros H.
  assert (Hnn : forall z, Z.to_int z <> Decimal.Pos Decimal.Nil /\
                          Z.to_int z <> Decimal.Neg Decimal.Nil).
  { intros [|q|q]; cbn; split; try discriminate; intros [= E];
      exact (DecimalPos.Unsigned.to_uint_nonnil q E). }
  apply (f_equal NilZero.int_of_string) in H.
  rewrite !NilZero.isi in H by apply Hnn.
  injection H as H. apply (f_equal Z.of_int) in H.
  rewrite !DecimalZ.of_to in H. lia.
Qed.

Section SequentialLoop.

Variable vectorized_markov : string -> nat -> Z -> list index.

(** The steps whose index is a row of [data] run in order, each seeing
    the state of the step before it. *)
Lemma markov_steps_range (pl : list plate) (data : tensor3) (rest : list index) :
  forall n k,
    (k + n <= dim0 data)%nat ->
    markov_steps pl data
      (map (fun i => IntIdx (Z.of_nat i)) (seq k n) ++ rest) (prev_state k) =
    (flat_map (step_sites pl) (seq k n) ++
       fst (markov_steps pl data rest (prev_state (k + n))),
     snd (markov_steps pl data rest (prev_state (k + n)))).
Proof.
  induction n as [|n IH]; intros k Hk.
  - cbn. rewrite Nat.add_0_r. now destruct (markov_steps pl data rest _).
  - cbn [seq map app markov_steps flat_map].
    assert (Hd : data_at data (IntIdx (Z.of_nat k)) = inr (DataAt (IntIdx (Z.of_nat k)))).
    { unfold data_at.
      replace ((- Z.of_nat (dim0 data) <=? Z.of_nat k)%Z &&
               (Z.of_nat k <? Z.of_nat (dim0 data))%Z) with true; [reflexivity|].
      symmetry. apply andb_true_iff. rewrite Z.leb_le, Z.ltb_lt. lia. }
    rewrite Hd.
    change (SampleVal ("z_" ++ fmt (IntIdx (Z.of_nat k)))%string) with (prev_state (S k)).
    rewrite (IH (S k)) by lia.
    rewrite Nat.add_succ_r. reflexivity.
Qed.

Lemma markov_loop_sequential (data : tensor3) :
  markov_loop vectorized_markov data false =
  map (fun i => IntIdx (Z.of_nat i)) (seq 0 (dim1 data)).
Proof. unfold markov_loop, Py.range. now rewrite Nat2Z.id, map_map. Qed.

Lemma step_sites_names (pl : list plate) (l : list nat) :
  map name (flat_map (step_sites pl) l) = flat_map step_names l.
Proof. induction l as [|t l IH]; [reflexivity|]. cbn. now rewrite IH. Qed.

Lemma model_header_map_name (data : tensor3) (num_states : Z) :
  map name (model_header data num_states) = header_names.
Proof. reflexivity. Qed.

(** The sequential run on data with at least as many rows as time steps,
    in closed form. *)
Lemma model_sequential_run (data : tensor3) (num_states : Z) :
  (dim1 data <= dim0 data)%nat ->
  model vectorized_markov data num_states false =
  (model_header data num_states ++
     flat_map (step_sites [trace_plate data; state_plate num_states])
              (seq 0 (dim1 data)),
   inr tt).
Proof.
  intros Hd. unfold model. cbv zeta. rewrite markov_loop_sequential.
  rewrite <- (app_nil_r (map _ (seq 0 (dim1 data)))).
  change NoneVal with (prev_state 0).
  rewrite markov_steps_range by lia. cbn [markov_steps fst snd].
  now rewrite app_nil_r.
Qed.

(** The sequential run on data with fewer rows than time steps. *)
Lemma model_sequential_short_data (data : tensor3) (num_states : Z) :
  (dim0 data < dim1 data)%nat ->
  model vectorized_markov data num_states false =
  (model_header data num_states ++
     flat_map (step_sites [trace_plate data; state_plate num_states])
              (seq 0 (dim0 data)) ++
     [z_site [trace_plate data; state_plate num_states]
             (IntIdx (Z.of_nat (dim0 data))) (prev_state (dim0 data))],
   inl Py.IndexError).
Proof.
  intros Hd. unfold model. cbv zeta. rewrite markov_loop_sequential.
  replace (dim1 data) with (dim0 data + S (dim1 data - S (dim0 data)))%nat at 1 by lia.
  rewrite seq_app, map_app.
  change NoneVal with (prev_state 0).
  rewrite markov_steps_range by lia.
  cbn [seq map Nat.add markov_steps].
  assert (Hfail : data_at data (IntIdx (Z.of_nat (dim0 data))) = inl Py.IndexError).
  { unfold data_at.
    replace ((Z.of_nat (dim0 data) <? Z.of_nat (dim0 data))%Z) with false
      by (symmetry; apply Z.ltb_ge; lia).
    now rewrite andb_false_r. }
  rewrite Hfail. reflexivity.
Qed.

Lemma in_loop_names (n : nat) (s : string) :
  In s (loop_names n) ->
  exists t, (t < n)%nat /\
            (s = ("z_" ++ Py.str_int (Z.of_nat t))%string \/
             s = ("x_" ++ Py.str_int (Z.of_nat t))%string).
Proof.
  unfold loop_names. rewrite in_flat_map. intros [t [Ht Hs]].
  apply in_seq in Ht. exists t. split; [lia|].
  destruct Hs as [<-|[<-|[]]]; auto.
Qed.

Lemma loop_names_NoDup (n : nat) : NoDup (loop_names n).
Proof.
  induction n as [|n IH]; [constructor|].
  unfold loop_names in *. rewrite seq_S, flat_map_app. cbn [flat_map Nat.add app].
  apply NoDup_app; [exact IH| |].
  - unfold step_names. constructor; [|constructor; [intros []|constructor]].
    intros [H|[]]. discriminate.
  - intros s Hs Hin.
    apply in_loop_names in Hs as [t [Ht Hs]].
    cbn in Hin.
    destruct Hin as [<-|[<-|[]]], Hs as [Hs|Hs];
      try discriminate; injection Hs as Hs; apply str_int_inj in Hs; lia.
Qed.

Lemma header_loop_names_NoDup (n : nat) : NoDup (header_names ++ loop_names n).
Proof.
  apply NoDup_app; [|apply loop_names_NoDup|].
  - unfold header_names. repeat constructor; simpl; intuition discriminate.
  - intros s Hh Hl. apply in_loop_names in Hl as [t [_ [-> | ->]]];
      [pose proof (header_name_prefix _ "z_" Hh) as H
      |pose proof (header_name_prefix _ "x_" Hh) as H];
      cbn in H; specialize (H ltac:(auto)); discriminate.
Qed.

(** The statements of a sequential run: the header, the complete steps,
    and, on data with fewer rows than time steps, the latent state of the
    step whose [data[t]] raises. *)
Lemma model_sequential_sites (data : tensor3) (num_states : Z) :
  let pl := [trace_plate data; state_plate num_states] in
  exists n tail,
    fst (model vectorized_markov data num_states false) =
      model_header data num_states ++ flat_map (step_sites pl) (seq 0 n) ++ tail /\
    (n <= dim0 data)%nat /\ (n <= dim1 data)%nat /\
    (tail = [] /\ n = dim1 data \/
     tail = [z_site pl (IntIdx (Z.of_nat n)) (prev_state n)] /\ (n < dim1 data)%nat).
Proof.
  cbv zeta. destruct (le_lt_dec (dim1 data) (dim0 data)) as [Hd|Hd].
  - exists (dim1 data), []. rewrite (model_sequential_run data num_states Hd).
    cbn [fst]. rewrite app_nil_r. repeat split; auto.
  - exists (dim0 data), [z_site [trace_plate data; state_plate num_states]
                                (IntIdx (Z.of_nat (dim0 data))) (prev_state (dim0 data))].
    rewrite (model_sequential_short_data data num_states Hd).
    cbn [fst]. repeat split; auto; lia.
Qed.

Lemma z_site_transition (pl : list plate) (t : nat) :
  fn (z_site pl (IntIdx (Z.of_nat t)) (prev_state t)) = Some (transition t).
Proof.
  destruct t as [|t]; [reflexivity|].
  unfold z_site, sample_stmt, is_first. cbn [fn].
  replace (Z.of_nat (S t) <? 1)%Z with false by (symmetry; apply Z.ltb_ge; lia).
  reflexivity.
Qed.

(** A statement of a sequential run named z_t or x_t is the one step
    [t] issues. *)
Lemma model_sequential_named (data : tensor3) (num_states : Z) (m : msg) (t : nat) :
  let pl := [trace_plate data; state_plate num_states] in
  In m (fst (model vectorized_markov data num_states false)) ->
  (name m = ("z_" ++ Py.str_int (Z.of_nat t))%string ->
   m = z_site pl (IntIdx (Z.of_nat t)) (prev_state t) /\
   (t <= dim0 data)%nat /\ (t < dim1 data)%nat) /\
  (name m = ("x_" ++ Py.str_int (Z.of_nat t))%string ->
   m = x_site pl (IntIdx (Z.of_nat t)) (DataAt (IntIdx (Z.of_nat t))) /\
   (t < dim0 data)%nat /\ (t < dim1 data)%nat).
Proof.
  cbv zeta. intros Hin.
  destruct (model_sequential_sites data num_states) as [n [tail [Hf [Hn0 [Hn1 Ht]]]]].
  cbv zeta in Hf. rewrite Hf in Hin.
  apply in_app_or in Hin as [Hin|Hin].
  { apply model_header_names in Hin.
    split; intros E; rewrite E in Hin;
      [pose proof (header_name_prefix _ "z_" Hin) as H
      |pose proof (header_name_prefix _ "x_" Hin) as H];
      cbn in H; specialize (H ltac:(auto)); discriminate. }
  apply in_app_or in Hin as [Hin|Hin].
  { apply in_flat_map in Hin as [t' [Ht' Hm]]. apply in_seq in Ht'.
    destruct Hm as [<-|[<-|[]]]; split; intros E; cbn in E;
      try discriminate; injection E as E; apply str_int_inj in E; subst t';
      (split; [reflexivity|lia]). }
  destruct Ht as [[-> _]|[-> Hlt]]; [destruct Hin|].
  destruct Hin as [<-|[]]. split; intros E; cbn in E; try discriminate.
  injection E as E. apply str_int_inj in E. subst n.
  split; [reflexivity|lia].
Qed.

(** X1 (first-order chain): in a sequential run of the model the
    statements come in the order rho, pi, ..., mu, z_0, x_0, z_1, x_1, ...
    up to the last time step or to the statement where the run stops; a
    latent state z_t is drawn from [Categorical(pi)] at step 0 and from
    [Categorical(A[z_{t-1}])] afterwards, and is not observed; x_t is
    observed at [data[t]] under [Normal(mu[..., z_t], lamda[..., z_t])]. *)
Theorem X1_model_first_order_chain (data : tensor3) (num_states : Z) :
  let run := model vectorized_markov data num_states false in
  (exists rest,
     header_names ++ loop_names (dim1 data) = map name (fst run) ++ rest) /\
  Forall (fun m =>
            forall t : nat,
              (name m = ("z_" ++ Py.str_int (Z.of_nat t))%string ->
               fn m = Some (transition t) /\ obs m = None) /\
              (name m = ("x_" ++ Py.str_int (Z.of_nat t))%string ->
               fn m = Some (emission t) /\
               obs m = Some (DataAt (IntIdx (Z.of_nat t)))))
         (fst run).
Proof.
  cbv zeta. split.
  - destruct (model_sequential_sites data num_states) as [n [tail [Hf [Hn0 [Hn1 Ht]]]]].
    cbv zeta in Hf. rewrite Hf, !map_app, step_sites_names.
    change (map name (model_header data num_states)) with header_names.
    fold (loop_names n).
    destruct Ht as [[-> ->]|[-> Hlt]].
    + exists []. now rewrite !app_nil_r.
    + exists (("x_" ++ Py.str_int (Z.of_nat n))%string ::
              flat_map step_names (seq (S n) (dim1 data - S n))).
      unfold loop_names.
      replace (dim1 data) with (n + S (dim1 data - S n))%nat at 1 by lia.
      rewrite seq_app, flat_map_app. cbn [seq flat_map Nat.add step_names map app].
      now rewrite <- !app_assoc.
  - apply Forall_forall. intros m Hin t.
    destruct (model_sequential_named data num_states m t Hin) as [Hz Hx].
    split; intros E.
    + destruct (Hz E) as [-> _]. split; [apply z_site_transition|reflexivity].
    + destruct (Hx E) as [-> _]. split; reflexivity.
Qed.

(** X2 (rows of the data): a sequential run observes x_t only at a row
    of [data]: it issues no x_t for [t] at or beyond the number of rows,
    and no z_t beyond it, the last one being the z_t of the step whose
    [data[t]] is out of range; so it issues at most ten statements and
    two per row, plus one. *)
Theorem X2_model_observes_only_rows (data : tensor3) (num_states : Z) :
  let run := model vectorized_markov data num_states false in
  Forall (fun m =>
            forall t : nat,
              (name m = ("x_" ++ Py.str_int (Z.of_nat t))%string ->
               (t < dim0 data)%nat /\ (t < dim1 data)%nat) /\
              (name m = ("z_" ++ Py.str_int (Z.of_nat t))%string ->
               (t <= dim0 data)%nat /\ (t < dim1 data)%nat))
         (fst run) /\
  (List.length (fst run) <= 10 + 2 * dim0 data + 1)%nat.
Proof.
  cbv zeta. split.
  - apply Forall_forall. intros m Hin t.
    destruct (model_sequential_named data num_states m t Hin) as [Hz Hx].
    split; intros E; [exact (proj2 (Hx E))|exact (proj2 (Hz E))].
  - destruct (model_sequential_sites data num_states) as [n [tail [Hf [Hn0 [Hn1 Ht]]]]].
    cbv zeta in Hf. rewrite Hf, !length_app.
    assert (Hl : forall pl n k,
               List.length (flat_map (step_sites pl) (seq k n)) = (2 * n)%nat).
    { intros pl n0. induction n0 as [|n0 IH]; intros k; [reflexivity|].
      cbn [seq flat_map]. rewrite length_app, IH. cbn. lia. }
    rewrite Hl. cbn [model_header List.length].
    destruct Ht as [[-> _]|[-> _]]; cbn [List.length]; lia.
Qed.

(** X3 (distinct site names): the statements of a sequential run have
    pairwise distinct names, whether the run returns or stops on short
    data. *)
Theorem X3_model_site_names_distinct (data : tensor3) (num_states : Z) :
  NoDup (map name (fst (model vectorized_markov data num_states false))).
Proof.
  destruct (le_lt_dec (dim1 data) (dim0 data)) as [Hd|Hd].
  - rewrite (model_sequential_run data num_states Hd). cbn [fst].
    rewrite map_app, step_sites_names. apply header_loop_names_NoDup.
  - rewrite (model_sequential_short_data data num_states Hd). cbn [fst].
    rewrite !map_app, step_sites_names.
    pose proof (header_loop_names_NoDup (S (dim0 data))) as H.
    unfold loop_names in H. rewrite seq_S, flat_map_app in H.
    cbn [flat_map Nat.add app step_names] in H.
    change (?a :: ?b :: nil) with ([a] ++ [b]) in H.
    rewrite !app_assoc in H. apply NoDup_app_remove_r in H.
    rewrite <- !app_assoc in H. exact H.
Qed.

(** X4 (TMC configuration): the configuration function of lines 191-193
    gives [num_samples=args.tmc_num_samples, expand=False] to exactly the
    z_ sites of a model run and the empty configuration to every other
    statement, whatever the Markov loop yields. *)
Theorem X4_tmc_config_on_model_sites
    (args : Args.t) (data : tensor3) (num_states : Z) (vectorized : bool) :
  Forall (fun m =>
            tmc_config args m =
            if Py.startswith (name m) "z_"
            then [("num_samples", IntV (Args.tmc_num_samples args));
                  ("expand", BoolV false)]
            else [])
         (fst (model vectorized_markov data num_states vectorized)).
Proof.
  rewrite model_fst. apply Forall_app. split.
  - unfold model_header. cbv zeta. repeat constructor.
  - apply Forall_forall. intros m Hm.
    apply markov_steps_sites in Hm as [t [_ [[z ->]|[d ->]]]]; reflexivity.
Qed.

End SequentialLoop.


(* ===================================================================== *)
(** ** Notes kept by the mask *)
(* ===================================================================== *)

Lemma true_positions_bound (mask : list bool) (o k : nat) :
  In k (true_positions mask o) -> (o <= k < o + List.length mask)%nat.
Proof.
  intros H. apply true_positions_spec in H as [Hle Hn]. split; [exact Hle|].
  destruct (Nat.lt_ge_cases (k - o) (List.length mask)) as [Hlt|Hge]; [lia|].
  rewrite nth_overflow in Hn by exact Hge. discriminate.
Qed.

Lemma true_positions_sorted (mask : list bool) :
  forall o, StronglySorted lt (true_positions mask o).
Proof.
  induction mask as [|b mask IH]; intros o; cbn [true_positions]; [constructor|].
  destruct b; cbn [app]; [|apply IH].
  constructor; [apply IH|].
  apply Forall_forall. intros k Hk. apply true_positions_bound in Hk. lia.
Qed.

(** X5 (order of the kept notes): indexing with a mask keeps the marked
    notes in their original order, each once: the note behind column k of
    the result has a smaller index than the note behind any later
    column, and each is a note of the mask. *)
Theorem X5_kept_notes_in_order (t : tensor3) (mask : list bool) :
  let pos := true_positions mask 0 in
  StronglySorted lt pos /\
  Forall (fun k => (k < List.length mask)%nat /\ nth k mask false = true) pos /\
  dim2 (select_notes t mask) = List.length pos /\
  forall a b, (a < b < dim2 (select_notes t mask))%nat ->
              (nth a pos 0 < nth b pos 0)%nat.
Proof.
  cbv zeta. split; [apply true_positions_sorted|]. split; [|split; [reflexivity|]].
  - apply Forall_forall. intros k Hk.
    split; [apply true_positions_bound in Hk; lia|].
    apply true_positions_spec in Hk as [_ Hk]. now rewrite Nat.sub_0_r in Hk.
  - cbn [select_notes dim2].
    pose proof (true_positions_sorted mask 0) as Hs.
    induction Hs as [|x l Hs IH Hx]; intros a b Hab; [cbn in Hab; lia|].
    cbn [List.length] in Hab.
    destruct b as [|b]; [lia|]. destruct a as [|a]; cbn [nth].
    + rewrite Forall_forall in Hx. apply Hx. apply nth_In. lia.
    + apply IH. lia.
Qed.

(** X6 (played notes survive): filtering the training sequences with
    their own mask loses no played note and keeps no silent one: every
    entry equal to 1 is found again in the column of its note, and every
    column of the result holds a 1 somewhere. *)
Theorem X6_mask_keeps_exactly_the_played_notes (t : tensor3) :
  let mask := present_notes_of t in
  let kept := select_notes t mask in
  (forall i j k,
     (i < dim0 t)%nat -> (j < dim1 t)%nat -> (k < dim2 t)%nat ->
     entry t i j k = 1%Z ->
     exists k', (k' < dim2 kept)%nat /\
                nth k' (true_positions mask 0) 0%nat = k /\
                entry kept i j k' = 1%Z) /\
  (forall k', (k' < dim2 kept)%nat ->
     exists i j, (i < dim0 kept)%nat /\ (j < dim1 kept)%nat /\
                 entry kept i j k' = 1%Z).
Proof.
  cbv zeta. split.
  - intros i j k Hi Hj Hk E.
    assert (Hin : In k (true_positions (present_notes_of t) 0)).
    { apply true_positions_spec. split; [lia|]. rewrite Nat.sub_0_r.
      apply present_notes_spec; [exact Hk|]. now exists i, j. }
    destruct (In_nth _ _ 0%nat Hin) as [k' [Hk' Hn]].
    exists k'. cbn [select_notes dim2 entry]. rewrite Hn. auto.
  - intros k' Hk'. cbn [select_notes dim0 dim1 dim2 entry] in *.
    pose proof (nth_In _ 0%nat Hk') as Hin.
    pose proof (true_positions_bound _ _ _ Hin) as Hb.
    apply true_positions_spec in Hin as [_ Hn]. rewrite Nat.sub_0_r in Hn.
    rewrite present_notes_length in Hb.
    apply present_notes_spec in Hn; [|lia].
    exact Hn.
Qed.

(* ===================================================================== *)
(** ** Truncation of the training data *)
(* ===================================================================== *)

Lemma sum_lengths_clamp (lengths : list Z) (n : Z) :
  (sum_lengths (clamp_max lengths n) <= sum_lengths lengths)%Z /\
  (sum_lengths (clamp_max lengths n) <= n * Z.of_nat (List.length lengths))%Z.
Proof.
  induction lengths as [|l lengths [IH1 IH2]]; [cbn; lia|].
  cbn [clamp_max map List.length]. fold (clamp_max lengths n).
  rewrite !sum_lengths_cons. lia.
Qed.

(** X7 (truncation keeps the data consistent): with a positive
    [--truncate n], if every training length lies between 0 and the
    number of time steps, this still holds after lines 144-146; the time
    axis does not grow, and [num_observations] is at most the sum before
    and at most [n] per sequence. *)
Theorem X7_truncation_keeps_lengths_within_time_axis
    (args : Args.t) (n : Z) (lengths : list Z) (seqs : tensor3) :
  Args.truncate args = Some n -> (0 < n)%Z ->
  Forall (fun l => (0 <= l <= Z.of_nat (dim1 seqs))%Z) lengths ->
  let r := truncate_training args lengths seqs in
  Forall (fun l => (0 <= l <= Z.of_nat (dim1 (snd r)))%Z) (fst r) /\
  (dim1 (snd r) <= dim1 seqs)%nat /\
  List.length (fst r) = List.length lengths /\
  (sum_lengths (fst r) <= sum_lengths lengths)%Z /\
  (sum_lengths (fst r) <= n * Z.of_nat (List.length lengths))%Z.
Proof.
  intros E Hn Hl. cbv zeta.
  rewrite (truncate_training_some args n lengths seqs E) by lia.
  cbn [fst snd slice_time dim1]. rewrite slice_stop_pos by exact Hn.
  split; [|split; [lia|split; [apply length_map|apply sum_lengths_clamp]]].
  unfold clamp_max. rewrite Forall_forall in *. intros l Hin.
  apply in_map_iff in Hin as [l0 [<- Hin]]. specialize (Hl l0 Hin). lia.
Qed.

Lemma X7_truncation_witness :
  let args := Toy.argv "1" 50 (Some 2%Z) false false false in
  (sum_lengths (fst (truncate_training args [3; 2] Toy.train_sequences)) <= 2 * 2)%Z.
Proof.
  cbv zeta.
  refine (proj2 (proj2 (proj2 (proj2
           (X7_truncation_keeps_lengths_within_time_axis
              (Toy.argv "1" 50 (Some 2%Z) false false false) 2 [3; 2]%Z
              Toy.train_sequences eq_refl _ _))))).
  - lia.
  - repeat constructor; cbn; lia.
Defined.

Lemma truncate_training_generous
    (args : Args.t) (n : Z) (lengths : list Z) (seqs : tensor3) :
  Args.truncate args = Some n ->
  (Z.of_nat (dim1 seqs) <= n)%Z ->
  Forall (fun l => (l <= n)%Z) lengths ->
  truncate_training args lengths seqs = (lengths, seqs).
Proof.
  intros E Hd Hl.
  destruct (Z.eq_dec n 0) as [->|Hn]; [apply truncate_training_off; now right|].
  rewrite (truncate_training_some args n lengths seqs E Hn). f_equal.
  - unfold clamp_max. induction Hl as [|l lengths Hle _ IH]; [reflexivity|].
    cbn [map]. rewrite IH. f_equal. lia.
  - destruct seqs as [d0 d1 d2 e]. unfold slice_time. cbn [dim0 dim1 dim2 entry] in *.
    f_equal. rewrite slice_stop_pos by lia. lia.
Qed.

(** X8 (a generous bound changes nothing): when [--truncate n] fits
    int64, is at least the number of time steps and at least every
    length, lines 136-147 prepare the training data as they do without
    the flag: the lengths as loaded, the sequences filtered by the mask
    with all their time steps, and the sum of the lengths. *)
Theorem X8_generous_truncate_changes_nothing
    (args : Args.t) (data : dataset) (n : Z) :
  Args.truncate args = Some n ->
  fits_int64 n = true ->
  (Z.of_nat (dim1 (sequences (train data))) <= n)%Z ->
  Forall (fun l => (l <= n)%Z) (sequence_lengths (train data)) ->
  prepare_training args data =
  inr (mkPrepared (present_notes_of (sequences (train data)))
                  (select_notes (sequences (train data))
                                (present_notes_of (sequences (train data))))
                  (sequence_lengths (train data))
                  (fold_right Z.add 0%Z (sequence_lengths (train data)))).
Proof.
  intros E Hf Hd Hl.
  assert (Hb : clamp_bound args = inr tt).
  { unfold clamp_bound. rewrite E, Hf. now destruct (Py.truthy (Some n)). }
  rewrite (prepare_training_eq args data Hb).
  rewrite (truncate_training_generous args n _ _ E); [|exact Hd|exact Hl].
  cbn [fst snd]. now rewrite sum_lengths_total.
Qed.

Lemma X8_generous_truncate_witness :
  exists p,
    prepare_training (Toy.argv "1" 50 (Some 3%Z) false false false) Toy.data = inr p /\
    p_lengths p = [3; 2]%Z /\ num_observations p = 5%Z.
Proof.
  eexists. split.
  - apply (X8_generous_truncate_changes_nothing _ Toy.data 3%Z).
    + reflexivity.
    + reflexivity.
    + cbn. lia.
    + repeat constructor; lia.
  - split; reflexivity.
Defined.

(* ===================================================================== *)
(** ** What a run calls, and how it ends *)
(* ===================================================================== *)

Section RunFacts.

Context {float trace_obj FW : Type} (F : framework float trace_obj FW).

Lemma training_loop_events_kind s p args :
  emits_only loop_event (training_loop F s p args).
Proof.
  unfold training_loop.
  apply emits_only_bind; [apply emits_only_emit; exact I|intros _].
  induction (Py.range (Args.num_steps args)) as [|i steps IH];
    cbn [training_steps]; [apply emits_only_ret|].
  apply emits_only_bind; [apply emits_only_call; exact I|intros loss].
  apply emits_only_bind; [apply emits_only_divide|intros q].
  apply emits_only_bind; [apply emits_only_emit; exact I|intros _]. exact IH.
Qed.

Lemma evaluation_events_kind args data l :
  emits_only evaluation_event (evaluation F args data l).
Proof. unfold evaluation, evaluate, report_capacity. cbv zeta. step_emits. Qed.

Lemma evaluation_event_extracts (tr : list (event float trace_obj)) :
  Forall evaluation_event tr ->
  svi_steps_of tr = [] /\ step_logs_of tr = [] /\ get_traces_of tr = [].
Proof.
  induction 1 as [|ev tr Hev _ IH]; [repeat split|].
  destruct ev as [| | | |m|m| | | | | |]; simpl in *; try contradiction; try exact IH;
    destruct m; simpl in *; try contradiction; exact IH.
Qed.

Lemma loop_event_extracts (tr : list (event float trace_obj)) :
  Forall loop_event tr ->
  elbo_losses_of tr = [] /\ capacity_logs_of tr = [] /\ get_traces_of tr = [].
Proof.
  induction 1 as [|ev tr Hev _ IH]; [repeat split|].
  destruct ev as [| | | |m|m| | | | | |]; simpl in *; try contradiction; try exact IH.
  destruct m; simpl in *; try contradiction; exact IH.
Qed.

(** *** Zero observations *)

Lemma training_loop_zero_observations s p args w :
  num_observations p = 0%Z ->
  (forall w', outcome (training_loop F s p args w) = inr (tt, w') ->
              (Args.num_steps args <= 0)%Z) /\
  step_logs_of (events (training_loop F s p args w)) = [] /\
  (List.length (svi_steps_of (events (training_loop F s p args w))) <= 1)%nat.
Proof.
  intros H0. rewrite training_loop_eq. cbn [events outcome fst snd step_logs_of svi_steps_of].
  unfold Py.range.
  destruct (Z.to_nat (Args.num_steps args)) as [|m] eqn:E.
  - cbn. repeat split; [intros; lia|lia].
  - cbn [seq map]. rewrite training_steps_cons, H0. cbn [Z.eqb].
    destruct (run_svi_step F s _ _ _ w) as [c|[loss w1]]; cbn;
      repeat split; try discriminate; lia.
Qed.

Lemma evaluation_zero_observations args data l w :
  num_observations (l_prepared l) = 0%Z ->
  (forall w', outcome (evaluation F args data l w) <> inr (tt, w')) /\
  capacity_logs_of (events (evaluation F args data l w)) = [] /\
  List.length (elbo_losses_of (events (evaluation F args data l w))) = 1%nat.
Proof.
  intros H0. rewrite evaluation_eq. cbv zeta. rewrite evaluate_eq, H0.
  unfold events, outcome. cbn [fst snd Z.eqb].
  assert (Hc : capacity_logs_of (@compile_time_line float trace_obj args) = [] /\
               elbo_losses_of (@compile_time_line float trace_obj args) = []).
  { unfold compile_time_line. now destruct (Args.jit args && Args.time_compilation args). }
  destruct Hc as [Hc1 Hc2].
  destruct (run_elbo_loss F _ _ _ _ _ _ _ w) as [c|[loss w1]]; cbn [fst snd];
    rewrite capacity_logs_of_app, elbo_losses_of_app, Hc1, Hc2; cbn;
    repeat split; discriminate.
Qed.

(** *** The test split *)

Lemma prepare_test_unmatched args data p :
  prepare_training args data = inr p ->
  dim2 (sequences (test data)) <> dim2 (sequences (train data)) ->
  prepare_test args data (present_notes p) = inl Py.IndexError.
Proof.
  intros Hp Hd. apply prepare_training_inr in Hp as [_ ->].
  cbn [present_notes]. unfold prepare_test, index_notes.
  rewrite present_notes_length.
  destruct (Nat.eqb _ _) eqn:E; [|reflexivity].
  apply Nat.eqb_eq in E. congruence.
Qed.

Lemma prepare_test_matched args data p :
  prepare_training args data = inr p ->
  dim2 (sequences (test data)) = dim2 (sequences (train data)) ->
  prepare_test args data (present_notes p) =
  inr (mkPrepared (present_notes p)
                  (select_notes (sequences (test data)) (present_notes p))
                  (truncate_test args (sequence_lengths (test data)))
                  (sum_lengths (truncate_test args (sequence_lengths (test data))))).
Proof.
  intros Hp Hd. apply prepare_training_inr in Hp as [Hb ->].
  cbn [present_notes]. unfold prepare_test, index_notes.
  now rewrite present_notes_length, Hd, Nat.eqb_refl, Hb.
Qed.

(** Lines 225-271 with a test split the mask does not fit: the loss on
    the training split, then [IndexError] at line 247. *)
Lemma evaluation_unmatched args data l w :
  prepare_test args data (present_notes (l_prepared l)) = inl Py.IndexError ->
  (forall w', outcome (evaluation F args data l w) <> inr (tt, w')) /\
  List.length (elbo_losses_of (events (evaluation F args data l w))) = 1%nat /\
  capacity_logs_of (events (evaluation F args data l w)) = [] /\
  (forall q, In (logging_info (Training_loss q)) (events (evaluation F args data l w)) ->
             outcome (evaluation F args data l w) = inl Py.IndexError).
Proof.
  intros Ht. rewrite evaluation_eq. cbv zeta. rewrite evaluate_eq, Ht.
  unfold events, outcome. cbn [fst snd].
  assert (Hc : capacity_logs_of (@compile_time_line float trace_obj args) = [] /\
               elbo_losses_of (@compile_time_line float trace_obj args) = [] /\
               forall q, ~ In (logging_info (Training_loss q))
                              (@compile_time_line float trace_obj args)).
  { unfold compile_time_line.
    destruct (Args.jit args && Args.time_compilation args);
      (split; [reflexivity|]); (split; [reflexivity|]);
      intros q Hin; cbn in Hin; intuition discriminate. }
  destruct Hc as [Hc1 [Hc2 Hc3]].
  destruct (run_elbo_loss F _ _ _ _ _ _ _ w) as [c|[loss w1]];
    [|destruct (num_observations (l_prepared l) =? 0)%Z]; cbn [fst snd];
    rewrite capacity_logs_of_app, elbo_losses_of_app, Hc1, Hc2; cbn;
    (split; [discriminate|]); (split; [reflexivity|]); (split; [reflexivity|]);
    intros q Hin; try reflexivity;
    apply in_app_or in Hin as [Hin|Hin]; try (now elim (Hc3 q));
    cbn in Hin; destruct Hin as [Hin|[]]; discriminate.
Qed.

End RunFacts.

(** X9 (no observations): when the (truncated) training lengths sum to
    zero, no run of lines 131-271 returns, and none logs a step or
    capacity line: the division of line 223, or of line 240 when no step
    is asked for, raises [ZeroDivisionError] as soon as the call before
    it returns.  Such a run calls [svi.step] at most once and
    [elbo.loss] at most once, and not both. *)
Theorem X9_zero_observations_raise_ZeroDivisionError
    {float trace_obj FW : Type} (F : framework float trace_obj FW)
    (g : namespace) (args : Args.t) (data : dataset) (model : Py.obj)
    (p : prepared) (w : FW) :
  prepare_training args data = inr p ->
  num_observations p = 0%Z ->
  let run := main_with_model F g args data model w in
  (forall w', outcome run <> inr (tt, w')) /\
  step_logs_of (events run) = [] /\
  capacity_logs_of (events run) = [] /\
  (List.length (svi_steps_of (events run)) +
   List.length (elbo_losses_of (events run)) <= 1)%nat /\
  (forall s loss w0 w1 steps,
     run_svi_step F s (p_sequences p) (p_lengths p) (Args.batch_size args) w0
     = inr (loss, w1) ->
     outcome (training_steps F s p args (0%Z :: steps) w0) = inl Py.ZeroDivisionError).
Proof.
  intros Hp H0. cbv zeta.
  rewrite main_with_model_events, main_with_model_outcome.
  destruct (setup_event_extracts _ (setup_events_kind F g args data model w))
    as [Hs1 [Hs2 [Hs3 [Hs4 _]]]].
  rewrite !step_logs_of_app, !capacity_logs_of_app, !svi_steps_of_app,
          !elbo_losses_of_app, Hs1, Hs2, Hs3, Hs4. cbn [app].
  assert (Hlast : forall s loss w0 w1 steps,
             run_svi_step F s (p_sequences p) (p_lengths p) (Args.batch_size args) w0
             = inr (loss, w1) ->
             outcome (training_steps F s p args (0%Z :: steps) w0)
             = inl Py.ZeroDivisionError).
  { intros s loss w0 w1 steps Hr. now rewrite training_steps_cons, Hr, H0. }
  destruct (outcome (setup F g args data model w)) as [e|[l w1]] eqn:Hsetup.
  { cbn [svi_steps_of elbo_losses_of step_logs_of capacity_logs_of app List.length].
    split; [discriminate|]. split; [reflexivity|]. split; [reflexivity|].
    split; [lia|exact Hlast]. }
  apply setup_post in Hsetup as [_ [Hp' _]].
  rewrite Hp in Hp'. injection Hp' as Hp'.
  assert (H0' : num_observations (l_prepared l) = 0%Z) by now rewrite <- Hp'.
  destruct (training_loop_zero_observations F (l_svi l) (l_prepared l) args w1 H0')
    as [Hret [Hlog Hstep]].
  destruct (loop_event_extracts _ (training_loop_events_kind F (l_svi l) (l_prepared l) args w1))
    as [Hl1 [Hl2 _]].
  rewrite !step_logs_of_app, !capacity_logs_of_app, !svi_steps_of_app,
          !elbo_losses_of_app, Hlog, Hl1, Hl2. cbn [app].
  destruct (outcome (training_loop F (l_svi l) (l_prepared l) args w1))
    as [e|[[] w2]] eqn:Hloop.
  { cbn [svi_steps_of elbo_losses_of step_logs_of capacity_logs_of app List.length].
    rewrite ?app_nil_r.
    split; [discriminate|]. split; [reflexivity|]. split; [reflexivity|].
    split; [lia|exact Hlast]. }
  destruct (evaluation_zero_observations F args data l w2 H0') as [He1 [He2 He3]].
  destruct (evaluation_event_extracts _ (evaluation_events_kind F args data l w2))
    as [He4 [He5 _]].
  rewrite He2, He3, He4, He5, app_nil_r.
  assert (Hnone : svi_steps_of (events (training_loop F (l_svi l) (l_prepared l) args w1)) = []).
  { rewrite (training_loop_no_steps F _ _ args w1 (Hret w2 eq_refl)). reflexivity. }
  rewrite Hnone. cbn [app List.length].
  split; [exact He1|]. split; [reflexivity|]. split; [reflexivity|].
  split; [lia|exact Hlast].
Qed.

(** Two sequences of length zero, two steps asked for. *)
Lemma X9_zero_observations_witness :
  let data := mkData (mkSplit Toy.train_sequences [0; 0]%Z)
                     (mkSplit Toy.test_sequences [5]%Z) in
  step_logs_of (events (main_with_model Toy.F script_globals
                          (Toy.argv "1" 2 None false false false) data model_fn 0%nat))
  = [].
Proof.
  cbv zeta.
  edestruct (X9_zero_observations_raise_ZeroDivisionError Toy.F script_globals
               (Toy.argv "1" 2 None false false false)
               (mkData (mkSplit Toy.train_sequences [0; 0]%Z)
                       (mkSplit Toy.test_sequences [5]%Z)) model_fn)
    as [_ [H _]].
  - reflexivity.
  - reflexivity.
  - exact H.
Defined.

(** X10 (no steps asked for): with [--num-steps] zero or negative, no run
    of lines 131-271 calls [svi.step], whatever else happens in it. *)
Theorem X10_nonpositive_num_steps_trains_nothing
    {float trace_obj FW : Type} (F : framework float trace_obj FW)
    (g : namespace) (args : Args.t) (data : dataset) (model : Py.obj) (w : FW) :
  (Args.num_steps args <= 0)%Z ->
  svi_steps_of (events (main_with_model F g args data model w)) = [].
Proof.
  intros Hn. apply no_step_svi_steps.
  unfold main_with_model. apply emits_only_bind.
  - intros w0. eapply Forall_impl; [|apply setup_quiet].
    intros ev; destruct ev; cbn; tauto.
  - intros l. apply emits_only_bind.
    + intros w0. rewrite (training_loop_no_steps F _ _ args w0 Hn).
      repeat constructor.
    + intros _. apply evaluation_no_step.
Qed.

Lemma X10_nonpositive_num_steps_witness :
  svi_steps_of (events (main_with_model Toy.F script_globals
                          (Toy.argv "1" (-3) None false false false)
                          Toy.data model_fn 0%nat)) = [].
Proof.
  apply X10_nonpositive_num_steps_trains_nothing. cbn. lia.
Defined.


Section EndOfRun.

Context {float trace_obj FW : Type} (F : framework float trace_obj FW).

Lemma setup_no_training_loss g args data model w q :
  ~ In (logging_info (Training_loss q)) (events (setup F g args data model w)).
Proof.
  intros Hin.
  pose proof (setup_events_kind F g args data model w) as H.
  rewrite Forall_forall in H. exact (H _ Hin).
Qed.

Lemma training_loop_no_training_loss s p args w q :
  ~ In (logging_info (Training_loss q)) (events (training_loop F s p args w)).
Proof.
  intros Hin.
  pose proof (training_loop_events_kind F s p args w) as H.
  rewrite Forall_forall in H. exact (H _ Hin).
Qed.

(** A run of lines 131-271 that returns went through every line. *)
Lemma main_with_model_returns g args data model w w' :
  outcome (main_with_model F g args data model w) = inr (tt, w') ->
  exists l w1 w2,
    outcome (setup F g args data model w) = inr (l, w1) /\
    outcome (training_loop F (l_svi l) (l_prepared l) args w1) = inr (tt, w2) /\
    outcome (evaluation F args data l w2) = inr (tt, w').
Proof.
  rewrite main_with_model_outcome.
  destruct (outcome (setup F g args data model w)) as [e|[l w1]]; [discriminate|].
  destruct (outcome (training_loop F (l_svi l) (l_prepared l) args w1))
    as [e|[[] w2]] eqn:Hl; [discriminate|].
  intros He. now exists l, w1, w2.
Qed.

(** Lines 225-271 return only with observations in both splits and a
    test split the mask fits. *)
Lemma evaluation_returns args data l w w' :
  outcome (evaluation F args data l w) = inr (tt, w') ->
  num_observations (l_prepared l) <> 0%Z /\
  exists pt, prepare_test args data (present_notes (l_prepared l)) = inr pt /\
             num_observations pt <> 0%Z.
Proof.
  rewrite evaluation_eq. cbv zeta. rewrite evaluate_eq.
  unfold events, outcome. cbn [fst snd].
  destruct (run_elbo_loss F _ _ _ _ _ _ _ w) as [c|[loss w1]]; [discriminate|].
  destruct (num_observations (l_prepared l) =? 0)%Z eqn:E0; [discriminate|].
  destruct (prepare_test args data (present_notes (l_prepared l))) as [e|pt];
    [discriminate|].
  rewrite evaluate_eq. cbn [fst snd].
  destruct (run_elbo_loss F _ _ _ _ _ _ _ w1) as [c|[loss2 w2]]; [discriminate|].
  destruct (num_observations pt =? 0)%Z eqn:E1; [discriminate|].
  intros _. apply Z.eqb_neq in E0, E1. split; [exact E0|]. now exists pt.
Qed.

End EndOfRun.

(** X11 (test notes do not match): when the test sequences have another
    number of notes than the training sequences, no run of lines 131-271
    returns or logs a capacity, and [elbo.loss] is called at most once:
    a run that logs the training loss raises [IndexError] at line 247. *)
Theorem X11_unmatched_test_notes_raise_IndexError
    {float trace_obj FW : Type} (F : framework float trace_obj FW)
    (g : namespace) (args : Args.t) (data : dataset) (model : Py.obj) (w : FW) :
  dim2 (sequences (test data)) <> dim2 (sequences (train data)) ->
  let run := main_with_model F g args data model w in
  (forall w', outcome run <> inr (tt, w')) /\
  (List.length (elbo_losses_of (events run)) <= 1)%nat /\
  capacity_logs_of (events run) = [] /\
  (forall q, In (logging_info (Training_loss q)) (events run) ->
             outcome run = inl Py.IndexError).
Proof.
  intros Hd. cbv zeta.
  rewrite main_with_model_events, main_with_model_outcome.
  destruct (setup_event_extracts _ (setup_events_kind F g args data model w))
    as [_ [Hs2 [_ [Hs4 _]]]].
  rewrite !capacity_logs_of_app, !elbo_losses_of_app, Hs2, Hs4. cbn [app].
  destruct (outcome (setup F g args data model w)) as [e|[l w1]] eqn:Hsetup.
  { cbn [elbo_losses_of capacity_logs_of List.length].
    split; [discriminate|]. split; [lia|]. split; [reflexivity|].
    intros q Hin. rewrite app_nil_r in Hin.
    now elim (setup_no_training_loss F g args data model w q). }
  apply setup_post in Hsetup as [_ [Hp _]].
  destruct (loop_event_extracts _ (training_loop_events_kind F (l_svi l) (l_prepared l) args w1))
    as [Hl1 [Hl2 _]].
  rewrite !capacity_logs_of_app, !elbo_losses_of_app, Hl1, Hl2. cbn [app].
  destruct (outcome (training_loop F (l_svi l) (l_prepared l) args w1))
    as [e|[[] w2]] eqn:Hloop.
  { cbn [elbo_losses_of capacity_logs_of List.length].
    split; [discriminate|]. split; [lia|]. split; [reflexivity|].
    intros q Hin. rewrite app_nil_r in Hin.
    apply in_app_or in Hin as [Hin|Hin].
    - now elim (setup_no_training_loss F g args data model w q).
    - now elim (training_loop_no_training_loss F _ _ _ _ _ Hin). }
  destruct (evaluation_unmatched F args data l w2
              (prepare_test_unmatched args data _ Hp Hd)) as [He1 [He2 [He3 He4]]].
  split; [exact He1|]. split; [rewrite He2; lia|]. split; [exact He3|].
  intros q Hin.
  apply in_app_or in Hin as [Hin|Hin];
    [now elim (setup_no_training_loss F g args data model w q)|].
  apply in_app_or in Hin as [Hin|Hin];
    [now elim (training_loop_no_training_loss F _ _ _ _ _ Hin)|].
  exact (He4 q Hin).
Qed.

(** Training notes 0..3, test sequences with five notes. *)
Lemma X11_unmatched_test_notes_witness :
  let data := mkData (mkSplit Toy.train_sequences [3; 2]%Z)
                     (mkSplit (mkT3 1 5 5 (fun _ _ _ => 1%Z)) [5]%Z) in
  outcome (main_with_model Toy.F script_globals
             (Toy.argv "1" 2 None false false false) data model_fn 0%nat)
  = inl Py.IndexError.
Proof.
  cbv zeta.
  edestruct (X11_unmatched_test_notes_raise_IndexError Toy.F script_globals
               (Toy.argv "1" 2 None false false false)
               (mkData (mkSplit Toy.train_sequences [3; 2]%Z)
                       (mkSplit (mkT3 1 5 5 (fun _ _ _ => 1%Z)) [5]%Z)) model_fn 0%nat)
    as [_ [_ [_ H]]].
  - cbn. discriminate.
  - apply (H (mkQuot 2%Z 5%Z)). do 9 right. left. reflexivity.
Defined.

(** X12 (how a run ends): an exception that ends lines 131-271 is the
    [AttributeError] of an object without [__name__], the [RuntimeError]
    of a [--truncate] bound outside int64, an exception out of a
    framework call, the exception of lines 183-217 when the objective is
    not built, [ZeroDivisionError] or [IndexError].  A run returns only
    if the object has a name, the bound is accepted, the objective is
    built, the training lengths do not sum to zero, the test sequences
    have as many notes as the training sequences, and the test lengths do
    not sum to zero.  An object without a name ends the run before
    anything is logged, and a bound that is not accepted ends it at line
    145. *)
Theorem X12_how_a_run_ends
    {float trace_obj FW : Type} (F : framework float trace_obj FW)
    (g : namespace) (args : Args.t) (data : dataset) (model : Py.obj) (w : FW) :
  let run := main_with_model F g args data model w in
  let objective :=
    @select_objective trace_obj g args (Partial (Global model) args)
                      (Partial (make_guide model) args) in
  (forall e, outcome run = inl e ->
     (exists a, e = Py.AttributeError a) \/ e = Py.RuntimeError \/
     (exists c, e = Py.FrameworkError c) \/ objective = inl e \/
     e = Py.ZeroDivisionError \/ e = Py.IndexError) /\
  (forall w', outcome run = inr (tt, w') ->
     (exists n, Py.get_name model = inr n) /\
     clamp_bound args = inr tt /\
     (exists s, objective = inr s) /\
     (exists p, prepare_training args data = inr p /\ num_observations p <> 0%Z) /\
     dim2 (sequences (test data)) = dim2 (sequences (train data)) /\
     sum_lengths (truncate_test args (sequence_lengths (test data))) <> 0%Z) /\
  (forall e, Py.get_name model = inl e -> run = ([], inl e)) /\
  (forall n, Py.get_name model = inr n -> clamp_bound args = inl Py.RuntimeError ->
     run = ([logging_info (Training_on n (dim0 (sequences (train data))))],
            inl Py.RuntimeError)).
Proof.
  cbv zeta. split; [|split; [|split]].
  - intros e. rewrite main_with_model_outcome, setup_outcome.
    destruct (outcome (prologue F args data model w)) as [e'|[p w1]] eqn:Hp.
    { intros [= <-].
      destruct (prologue_raises F _ _ _ _ _ Hp) as [Ha|[Hr|Hf]]; auto. }
    destruct (select_objective _ _ _ _) as [e'|s] eqn:Hs.
    { intros [= <-]. auto. }
    cbn [l_svi l_prepared].
    destruct (outcome (training_loop F s p args w1)) as [e'|[[] w2]] eqn:Hl.
    { intros [= <-].
      destruct (training_loop_raises F _ _ _ _ _ Hl) as [->|Hf]; auto 6. }
    intros He.
    destruct (evaluation_raises F _ _ _ _ _ He) as [->|[->|[->|Hf]]]; auto 6.
  - intros w' Hret.
    apply main_with_model_returns in Hret as [l [w1 [w2 [Hsetup [_ Heval]]]]].
    apply setup_post in Hsetup as [Hpro [Hp [Hm [Hg Hs]]]].
    rewrite Hm, Hg in Hs.
    apply prologue_post in Hpro as [Hn _].
    apply evaluation_returns in Heval as [H0 [pt [Ht Hpt]]].
    split; [exact Hn|].
    split; [exact (proj1 (prepare_training_inr _ _ _ Hp))|].
    split; [now exists (l_svi l)|].
    split; [now exists (l_prepared l)|].
    destruct (Nat.eq_dec (dim2 (sequences (test data))) (dim2 (sequences (train data))))
      as [Hd|Hd].
    + split; [exact Hd|].
      rewrite (prepare_test_matched args data _ Hp Hd) in Ht.
      injection Ht as <-. exact Hpt.
    + rewrite (prepare_test_unmatched args data _ Hp Hd) in Ht. discriminate.
  - intros e He. unfold main_with_model, setup, prologue. rewrite He. reflexivity.
  - intros n Hn Hb.
    assert (Hp : prepare_training args data = inl Py.RuntimeError).
    { unfold prepare_training. now rewrite index_notes_own_mask, Hb. }
    unfold main_with_model, setup, prologue. rewrite Hn, Hp. reflexivity.
Qed.

(* ===================================================================== *)
(** ** The calls of [elbo.loss] (lines 232-239 and 256-263) *)
(* ===================================================================== *)

Lemma select_objective_inr {trace_obj : Type} g args
    (model guide : callable trace_obj) (s : svi trace_obj) :
  select_objective g args model guide = inr s ->
  s = mkSVI (if Args.tmc args then InferConfig model (tmc_config args) else model)
            guide (Adam (Args.learning_rate args)) (svi_loss s).
Proof.
  unfold select_objective. destruct (Args.tmc args).
  - destruct (Args.jit args && negb (Args.funsor args)); [discriminate|].
    destruct (global g "model_0"); [discriminate|]. now intros [= <-].
  - destruct (String.eqb (Args.model args) "7").
    + destruct (Args.funsor args); [|discriminate]. now intros [= <-].
    + now intros [= <-].
Qed.

Section LossCalls.

Context {float trace_obj FW : Type} (F : framework float trace_obj FW).

Lemma no_loss_extracts (tr : list (event float trace_obj)) :
  Forall no_loss tr -> elbo_losses_of tr = [].
Proof.
  induction 1 as [|ev tr Hev _ IH]; [reflexivity|].
  destruct ev; simpl in *; try contradiction; exact IH.
Qed.

Lemma at_most_losses_none {A} (m : M float trace_obj FW A) :
  emits_only no_loss m -> at_most_losses 0 m.
Proof. intros H w. now rewrite (no_loss_extracts _ (H w)). Qed.

Lemma at_most_losses_bind {A B} a b (m : M float trace_obj FW A)
    (f : A -> M float trace_obj FW B) :
  at_most_losses a m -> (forall x, at_most_losses b (f x)) ->
  at_most_losses (a + b) (bind m f).
Proof.
  intros Hm Hf w. rewrite events_bind, elbo_losses_of_app, length_app.
  specialize (Hm w).
  destruct (outcome (m w)) as [e|[x w']]; [cbn; lia|].
  specialize (Hf x w'). lia.
Qed.

Lemma evaluate_once s model guide p :
  at_most_losses 1 (evaluate F s model guide p).
Proof.
  intros w. rewrite evaluate_events. cbn. lia.
Qed.

Lemma evaluation_twice args data l :
  at_most_losses 2 (evaluation F args data l).
Proof.
  unfold evaluation. cbv zeta.
  apply (at_most_losses_bind 0 2);
    [apply at_most_losses_none, emits_only_when, emits_only_emit; exact I|intros _].
  apply (at_most_losses_bind 1 1); [apply evaluate_once|intros q].
  do 3 (apply (at_most_losses_bind 0 1);
        [apply at_most_losses_none, emits_only_emit; exact I|intros _]).
  apply (at_most_losses_bind 0 1);
    [apply at_most_losses_none, emits_only_lift|intros pt].
  apply (at_most_losses_bind 1 0); [apply evaluate_once|intros q_test].
  apply at_most_losses_none. unfold report_capacity. step_emits.
Qed.

Lemma main_with_model_at_most_two_losses g args data model :
  at_most_losses 2 (main_with_model F g args data model).
Proof.
  unfold main_with_model.
  apply (at_most_losses_bind 0 2).
  - apply at_most_losses_none. intros w.
    eapply Forall_impl; [|apply setup_quiet]. intros ev; destruct ev; cbn; tauto.
  - intros l. apply (at_most_losses_bind 0 2); [|intros _; apply evaluation_twice].
    apply at_most_losses_none. intros w.
    eapply Forall_impl; [|apply training_loop_emits].
    intros ev; destruct ev; cbn; tauto.
Qed.

Lemma evaluate_call g args model s p :
  select_objective g args (Partial (Global model) args)
                   (Partial (make_guide model) args) = inr s ->
  emits_only (evaluation_call g args model)
             (evaluate F s (Partial (Global model) args)
                       (Partial (make_guide model) args) p).
Proof.
  intros Hs. unfold evaluate. cbv zeta.
  apply emits_only_bind; [|intros loss; apply emits_only_divide].
  apply emits_only_call. cbn.
  repeat split. rewrite Hs at 1. f_equal. apply select_objective_inr in Hs.
  rewrite Hs at 1. reflexivity.
Qed.

Lemma main_with_model_evaluation_calls g args data model :
  emits_only (evaluation_call g args model) (main_with_model F g args data model).
Proof.
  unfold main_with_model.
  apply emits_only_bind_post with
    (R := fun l => l_model l = Partial (Global model) args /\
                   l_guide l = Partial (make_guide model) args /\
                   select_objective g args (Partial (Global model) args)
                                    (Partial (make_guide model) args) = inr (l_svi l)).
  - intros w. eapply Forall_impl; [|apply setup_quiet].
    intros ev; destruct ev; cbn; tauto.
  - intros w l w1 Ho. apply setup_post in Ho as [_ [_ [Hm [Hg Hs]]]].
    rewrite Hm, Hg in Hs. auto.
  - intros l [Hm [Hg Hs]]. apply emits_only_bind.
    + intros w. eapply Forall_impl; [|apply training_loop_emits].
      intros ev; destruct ev; cbn; tauto.
    + intros _. unfold evaluation. cbv zeta. rewrite Hm, Hg.
      apply emits_only_bind; [apply emits_only_when, emits_only_emit; exact I|intros _].
      apply emits_only_bind; [now apply evaluate_call|intros q].
      do 3 (apply emits_only_bind; [apply emits_only_emit; exact I|intros _]).
      apply emits_only_bind; [apply emits_only_lift|intros pt].
      apply emits_only_bind; [now apply evaluate_call|intros q_test].
      apply emits_only_bind; [apply emits_only_emit; exact I|intros _].
      unfold report_capacity. step_emits.
Qed.

End LossCalls.

(** X13 (evaluation calls): a run of lines 131-271 calls [elbo.loss] at
    most twice, and every such call has [include_prior=False], a batch
    size equal to the number of sequences it is given, the objective
    built at lines 183-217, and the partially applied model and guide of
    lines 178-179: under [--tmc] this is not the TMC-configured model
    that [svi.step] trains. *)
Theorem X13_evaluation_calls
    {float trace_obj FW : Type} (F : framework float trace_obj FW)
    (g : namespace) (args : Args.t) (data : dataset) (model : Py.obj) (w : FW) :
  let run := main_with_model F g args data model w in
  (List.length (elbo_losses_of (events run)) <= 2)%nat /\
  Forall (fun '(e, m, gd, seqs, _, b, ip) =>
            m = Partial (Global model) args /\
            gd = Partial (make_guide model) args /\
            b = Z.of_nat (dim0 seqs) /\
            ip = false /\
            exists s, select_objective g args m gd = inr s /\
                      svi_loss s = e /\ svi_guide s = gd /\
                      svi_model s = (if Args.tmc args
                                     then InferConfig m (tmc_config args) else m))
         (elbo_losses_of (events run)).
Proof.
  cbv zeta. split; [apply main_with_model_at_most_two_losses|].
  pose proof (main_with_model_evaluation_calls F g args data model w) as H.
  induction H as [|ev tr Hev _ IH]; [constructor|].
  destruct ev; cbn [elbo_losses_of]; try exact IH.
  constructor; [|exact IH].
  cbn in Hev. destruct Hev as [Hm [Hg [Hb [Hip Hs]]]].
  repeat split; try assumption.
  eexists. split; [exact Hs|]. repeat split.
Qed.

(* ===================================================================== *)
(** ** The objective under [--tmc] (lines 184-195) *)
(* ===================================================================== *)

(** X14 (TMC plate nesting): under [--tmc], apart from the
    [--jit]-without-[--funsor] case, line 188 needs the global [model_0]:
    without it the construction raises [NameError].  With it, the model
    compared is the partial application of line 178, a new object, so
    the objective is built with [max_plate_nesting] 2 whichever model was
    selected, on the model configured for TMC. *)
Theorem X14_tmc_plate_nesting_is_two
    {trace_obj : Type} (g : namespace) (args : Args.t)
    (model guide : callable trace_obj) :
  Args.tmc args = true ->
  Args.jit args && negb (Args.funsor args) = false ->
  let run := select_objective g args (Partial model args) guide in
  (Py.get g "model_0" = None -> run = inl (Py.NameError "model_0")) /\
  (forall model_0, Py.get g "model_0" = Some model_0 ->
     run = inr (mkSVI (InferConfig (Partial model args) (tmc_config args)) guide
                      (Adam (Args.learning_rate args))
                      (mkElbo (if Args.jit args then JitTraceTMC_ELBO else TraceTMC_ELBO)
                              2 None None))).
Proof.
  intros Htmc Hjit. cbv zeta. unfold select_objective, global.
  rewrite Htmc, Hjit. split.
  - now intros ->.
  - intros model_0 ->. reflexivity.
Qed.

(** Model "0" selected, [model_0] bound to it. *)
Lemma X14_tmc_plate_nesting_witness :
  let args := Toy.argv "0" 50 None false true false in
  exists s,
    @select_objective nat Toy.with_models_0_7 args
       (Partial (Global model_fn) args) (Partial (make_guide model_fn) args) = inr s /\
    max_plate_nesting (svi_loss s) = 2%Z.
Proof.
  cbv zeta. eexists. split.
  - apply (proj2 (X14_tmc_plate_nesting_is_two Toy.with_models_0_7
                    (Toy.argv "0" 50 None false true false)
                    (Global model_fn) (Partial (make_guide model_fn)
                       (Toy.argv "0" 50 None false true false))
                    eq_refl eq_refl) model_fn).
    reflexivity.
  - reflexivity.
Defined.


(* ===================================================================== *)
(** ** The shapes report (lines 159-175) *)
(* ===================================================================== *)

Section ShapesFacts.

Context {float trace_obj FW : Type} (F : framework float trace_obj FW).

(** Lines 162-175, call by call. *)
Lemma print_shapes_eq args model p w :
  let guide := make_guide model in
  let dim :=
    if String.eqb (Args.model args) "0" then (-2)%Z
    else if String.eqb (Args.model args) "7" then (-4)%Z else (-3)%Z in
  let trace_of c :=
    get_trace c (p_sequences p) (p_lengths p) args (Args.batch_size args) in
  let run_of c :=
    run_get_trace F c (p_sequences p) (p_lengths p) args (Args.batch_size args) in
  print_shapes F args model guide p w =
  if Args.print_shapes args then
    match run_of guide w with
    | inl c => ([trace_of guide], inl (Py.FrameworkError c))
    | inr (guide_trace, w1) =>
        let replayed := Replay (Enum (Global model) dim) guide_trace in
        match run_of replayed w1 with
        | inl c => ([trace_of guide; trace_of replayed], inl (Py.FrameworkError c))
        | inr (model_trace, w2) =>
            ([trace_of guide; trace_of replayed;
              logging_info (Shapes (format_shapes F model_trace))],
             inr (tt, w2))
        end
    end
  else ([], inr (tt, w)).
Proof.
  cbv zeta. unfold print_shapes, when.
  destruct (Args.print_shapes args); [|reflexivity].
  unfold bind at 1. unfold call at 1.
  destruct (run_get_trace F (make_guide model) _ _ _ _ w) as [c|[gt w1]]; [reflexivity|].
  unfold bind at 1. unfold call at 1.
  destruct (run_get_trace F _ _ _ _ _ w1) as [c|[mt w2]]; reflexivity.
Qed.

(** Lines 131-271 record traces in lines 162-175 only. *)
Lemma main_with_model_traces g args data model w :
  get_traces_of (events (main_with_model F g args data model w)) =
  get_traces_of (events (prologue F args data model w)).
Proof.
  rewrite main_with_model_events, setup_events, get_traces_of_app.
  destruct (outcome (setup F g args data model w)) as [e|[l w1]];
    [apply app_nil_r|].
  rewrite get_traces_of_app.
  destruct (loop_event_extracts _ (training_loop_events_kind F (l_svi l) (l_prepared l) args w1))
    as [_ [_ Hl]].
  rewrite Hl. cbn [app].
  destruct (outcome (training_loop F (l_svi l) (l_prepared l) args w1)) as [e|[[] w2]];
    [apply app_nil_r|].
  destruct (evaluation_event_extracts _ (evaluation_events_kind F args data l w2))
    as [_ [_ He]].
  rewrite He. apply app_nil_r.
Qed.

(** Lines 131-175 once the model has a name and the training data is
    prepared. *)
Lemma prologue_eq args data model n p w :
  Py.get_name model = inr n ->
  prepare_training args data = inr p ->
  let shapes :=
    print_shapes F args model (make_guide model) p
                 (run_clear_param_store F (run_set_rng_seed F (Args.seed args) w)) in
  events (prologue F args data model w) =
    [logging_info (Training_on n (dim0 (sequences (train data))));
     set_rng_seed (Args.seed args); clear_param_store] ++ events shapes.
Proof.
  intros Hn Hp. cbv zeta. unfold prologue. rewrite Hn, Hp.
  unfold events, bind, lift, ret, emit, update. cbn.
  destruct (print_shapes F args model (make_guide model) p _) as [tr [e|[[] w1]]];
    cbn; now rewrite ?app_nil_r.
Qed.

End ShapesFacts.

(** X15 (shape traces): a run records traces only under
    [--print-shapes], in lines 162-175, after the seed was set and the
    parameter store cleared: first of the guide, on the prepared training
    data with [batch_size=args.batch_size]; when that call raises, the
    run ends there; when it returns, next of the model enumerated from
    dimension -2 for model "0", -4 for model "7" and -3 otherwise,
    replayed against the trace of the guide, on the same data; when this
    second call raises, the run ends there.  No trace is recorded when
    the selected object has no name or line 145 rejects the bound. *)
Theorem X15_shape_traces
    {float trace_obj FW : Type} (F : framework float trace_obj FW)
    (g : namespace) (args : Args.t) (data : dataset) (model : Py.obj) (w : FW) :
  let run := main_with_model F g args data model w in
  let w0 := run_clear_param_store F (run_set_rng_seed F (Args.seed args) w) in
  let guide := make_guide model in
  let first_available_dim :=
    if String.eqb (Args.model args) "0" then (-2)%Z
    else if String.eqb (Args.model args) "7" then (-4)%Z else (-3)%Z in
  (Args.print_shapes args = false -> get_traces_of (events run) = []) /\
  (forall e, Py.get_name model = inl e -> get_traces_of (events run) = []) /\
  (forall e, prepare_training args data = inl e -> get_traces_of (events run) = []) /\
  (forall n p,
     Py.get_name model = inr n -> prepare_training args data = inr p ->
     Args.print_shapes args = true ->
     let call_on c := (c, p_sequences p, p_lengths p, args, Args.batch_size args) in
     let run_of c :=
       run_get_trace F c (p_sequences p) (p_lengths p) args (Args.batch_size args) in
     match run_of guide w0 with
     | inl c =>
         get_traces_of (events run) = [call_on guide] /\
         outcome run = inl (Py.FrameworkError c)
     | inr (guide_trace, w1) =>
         let replayed := Replay (Enum (Global model) first_available_dim) guide_trace in
         get_traces_of (events run) = [call_on guide; call_on replayed] /\
         (forall c, run_of replayed w1 = inl c ->
                    outcome run = inl (Py.FrameworkError c))
     end).
Proof.
  cbv zeta. rewrite main_with_model_traces.
  split; [|split; [|split]].
  - intros Hs. unfold prologue.
    destruct (Py.get_name model) as [e|n]; [reflexivity|].
    destruct (prepare_training args data) as [e|p]; [reflexivity|].
    unfold events, bind, lift, ret, emit, update. cbn.
    now rewrite (print_shapes_off F args model _ p _ Hs).
  - intros e He. unfold prologue. now rewrite He.
  - intros e He. unfold prologue.
    destruct (Py.get_name model) as [e'|n]; [reflexivity|]. now rewrite He.
  - intros n p Hn Hp Hs.
    rewrite (prologue_eq F args data model n p w Hn Hp). cbv zeta.
    rewrite main_with_model_outcome, setup_outcome, prologue_outcome, Hn, Hp.
    rewrite print_shapes_eq. cbv zeta. rewrite Hs.
    destruct (run_get_trace F (make_guide model) _ _ _ _ _) as [c|[gt w1]].
    + split; reflexivity.
    + destruct (run_get_trace F _ _ _ _ _ w1) as [c|[mt w2]].
      * split; [reflexivity|]. now intros c' [= <-].
      * split; [reflexivity|]. discriminate.
Qed.

(** Under [--print-shapes], on a framework that binds the arguments of
    the model as Python does, the run ends at the first trace. *)
Lemma X15_shape_traces_witness :
  let args := Args.mk "7" 2 8 16 48 2 "0.05" None true 0 false false false false
                      false 10 true in
  outcome (main_with_model Toy.F_TypeError script_globals args Toy.data model_fn 0%nat)
  = inl (Py.FrameworkError "TypeError").
Proof.
  cbv zeta.
  pose proof (proj2 (proj2 (proj2
    (X15_shape_traces Toy.F_TypeError script_globals
       (Args.mk "7" 2 8 16 48 2 "0.05" None true 0 false false false false
                false 10 true) Toy.data model_fn 0%nat)))
    "model" _ eq_refl eq_refl eq_refl) as H.
  exact (proj2 H).
Defined.

(* ===================================================================== *)
(** ** The debug stream (lines 67-75) *)
(* ===================================================================== *)

Section DebugStream.

Context {float trace_obj FW : Type} (F : framework float trace_obj FW).

Lemma main_with_model_debug_lines g args data model :
  emits_only (debug_line args) (main_with_model F g args data model).
Proof.
  unfold main_with_model. apply emits_only_bind.
  - intros w. eapply Forall_impl; [|apply setup_events_kind].
    intros ev; destruct ev; cbn; tauto.
  - intros l. apply emits_only_bind.
    + unfold training_loop.
      apply emits_only_bind; [apply emits_only_emit; exact I|intros _].
      induction (Py.range (Args.num_steps args)) as [|i steps IH];
        cbn [training_steps]; [apply emits_only_ret|].
      apply emits_only_bind; [apply emits_only_call; exact I|intros loss].
      apply emits_only_bind; [apply emits_only_divide|intros q].
      apply emits_only_bind; [apply emits_only_emit; exact I|intros _]. exact IH.
    + intros _. unfold evaluation, evaluate, report_capacity, when. cbv zeta.
      destruct (Args.jit args && Args.time_compilation args) eqn:E.
      * apply emits_only_bind; [apply emits_only_emit; cbn; auto|intros _].
        step_emits.
      * step_emits.
Qed.

Lemma debug_stream_lines args (tr : list (event float trace_obj)) :
  Forall (debug_line args) tr ->
  Forall (fun m => m = Time_to_compile)
         (stream_of Logging.debug_handler tr) /\
  (Args.jit args && Args.time_compilation args = false ->
   stream_of Logging.debug_handler tr = []).
Proof.
  induction 1 as [|ev tr Hev _ [IH1 IH2]]; [split; [constructor|reflexivity]|].
  destruct ev; cbn; try (split; assumption).
  destruct Hev as [-> Hb]. split.
  - constructor; [reflexivity|exact IH1].
  - intros Hf. rewrite Hf in Hb. discriminate.
Qed.

End DebugStream.

(** X16 (debug stream): the handler added at lines 72-75 writes a record
    exactly when its level is [DEBUG].  In a run of lines 131-271 it
    therefore writes none of the [info] lines, in particular no loss: its
    stream holds nothing but the compile-time line, and nothing at all
    without [--jit --time-compilation]. *)
Theorem X16_debug_stream
    {float trace_obj FW : Type} (F : framework float trace_obj FW)
    (g : namespace) (args : Args.t) (data : dataset) (model : Py.obj) (w : FW) :
  let run := main_with_model F g args data model w in
  (forall levelno,
     Logging.handles Logging.debug_handler levelno = true <->
     levelno = Logging.DEBUG) /\
  Forall (fun m => m = Time_to_compile)
         (stream_of Logging.debug_handler (events run)) /\
  (Args.jit args && Args.time_compilation args = false ->
   stream_of Logging.debug_handler (events run) = []).
Proof.
  cbv zeta. split.
  - intros levelno. unfold Logging.handles, Logging.debug_handler, Logging.DEBUG.
    cbn [Logging.level Logging.accepts].
    rewrite andb_true_iff, !Z.leb_le. lia.
  - apply debug_stream_lines, main_with_model_debug_lines.
Qed.


(* ===================================================================== *)
(** ** A returning run, and the way into it *)
(* ===================================================================== *)

Section ReturningRun.

Context {float trace_obj FW : Type} (F : framework float trace_obj FW).

(** A training loop that returns has called [svi.step] once per step. *)
Lemma training_loop_complete s p args w w' :
  outcome (training_loop F s p args w) = inr (tt, w') ->
  List.length (svi_steps_of (events (training_loop F s p args w))) =
  Z.to_nat (Args.num_steps args).
Proof.
  intros Hret.
  destruct (training_loop_marks F s p args w) as [rest [Hr Hc]].
  rewrite (Hc w' Hret), app_nil_r in Hr.
  rewrite svi_steps_marks, <- Hr, full_marks_steps. apply length_range.
Qed.

(** What lines 225-271 show when they return. *)
Lemma evaluation_report args data l w w' :
  outcome (evaluation F args data l w) = inr (tt, w') ->
  let p := l_prepared l in
  exists pt train_loss test_loss,
    prepare_test args data (present_notes p) = inr pt /\
    events (evaluation F args data l w) =
    compile_time_line args ++
    [ elbo_loss (svi_loss (l_svi l)) (l_model l) (l_guide l) (p_sequences p)
                (p_lengths p) (Z.of_nat (dim0 (p_sequences p))) false;
      logging_info (Training_loss (mkQuot train_loss (num_observations p)));
      logging_info (Rule 40);
      logging_info (Evaluating_on (dim0 (sequences (test data))));
      elbo_loss (svi_loss (l_svi l)) (l_model l) (l_guide l) (p_sequences pt)
                (p_lengths pt) (Z.of_nat (dim0 (p_sequences pt))) false;
      logging_info (Test_loss (mkQuot test_loss (num_observations pt)));
      get_param_store;
      logging_info (Capacity (Args.model args)
                             (capacity_of (param_store_values F w'))) ].
Proof.
  cbv zeta. rewrite evaluation_eq. cbv zeta. rewrite evaluate_eq.
  unfold events, outcome. cbn [fst snd].
  destruct (run_elbo_loss F _ _ _ _ _ _ _ w) as [c|[loss w1]]; [discriminate|].
  destruct (num_observations (l_prepared l) =? 0)%Z; [discriminate|].
  destruct (prepare_test args data (present_notes (l_prepared l))) as [e|pt];
    [discriminate|].
  rewrite evaluate_eq. cbn [fst snd].
  destruct (run_elbo_loss F _ _ _ _ _ _ _ w1) as [c|[loss2 w2]]; [discriminate|].
  destruct (num_observations pt =? 0)%Z; [discriminate|].
  cbn [fst snd]. intros [= <-].
  exists pt, loss, loss2. split; [reflexivity|].
  cbn [app]. now rewrite <- !app_assoc.
Qed.

End ReturningRun.

(** X17 (evaluation report): a run of lines 131-271 that returns has
    prepared the training data and built the objective, called
    [svi.step] once per step, and after the training loop it did exactly
    this: the compile-time line if asked for; [elbo.loss] on the training
    split and its loss over the training [num_observations]; the rule and
    the test banner; [elbo.loss] on the test sequences filtered by the
    training mask, with the (possibly clamped) test lengths and all test
    sequences in one batch, and its loss over the sum of those lengths;
    the capacity read from the parameter store. *)
Theorem X17_evaluation_report
    {float trace_obj FW : Type} (F : framework float trace_obj FW)
    (g : namespace) (args : Args.t) (data : dataset) (model : Py.obj) (w w' : FW) :
  let run := main_with_model F g args data model w in
  outcome run = inr (tt, w') ->
  let test_lengths := truncate_test args (sequence_lengths (test data)) in
  let test_sequences := select_notes (sequences (test data))
                                     (present_notes_of (sequences (train data))) in
  let m := Partial (Global model) args in
  let gd := Partial (make_guide model) args in
  exists p s before train_loss test_loss,
    prepare_training args data = inr p /\
    select_objective g args m gd = inr s /\
    elbo_losses_of before = [] /\ capacity_logs_of before = [] /\
    List.length (svi_steps_of before) = Z.to_nat (Args.num_steps args) /\
    events run =
    before ++
    (if Args.jit args && Args.time_compilation args
     then [logging_debug Time_to_compile] else []) ++
    [ elbo_loss (svi_loss s) m gd (p_sequences p) (p_lengths p)
                (Z.of_nat (dim0 (p_sequences p))) false;
      logging_info (Training_loss (mkQuot train_loss (num_observations p)));
      logging_info (Rule 40);
      logging_info (Evaluating_on (dim0 (sequences (test data))));
      elbo_loss (svi_loss s) m gd test_sequences test_lengths
                (Z.of_nat (dim0 (sequences (test data)))) false;
      logging_info (Test_loss (mkQuot test_loss (sum_lengths test_lengths)));
      get_param_store;
      logging_info (Capacity (Args.model args)
                             (capacity_of (param_store_values F w'))) ].
Proof.
  cbv zeta. intros Hret.
  pose proof (main_with_model_events F g args data model w) as Hev.
  apply main_with_model_returns in Hret as [l [w1 [w2 [Hsetup [Hloop Heval]]]]].
  rewrite Hsetup, Hloop in Hev.
  apply setup_post in Hsetup as [_ [Hp [Hm [Hg Hs]]]].
  destruct (evaluation_report F args data l w2 w' Heval)
    as [pt [train_loss [test_loss [Ht He]]]].
  cbv zeta in He.
  apply prepare_test_inr in Ht as [_ [_ Ht]].
  assert (Hmask : present_notes (l_prepared l) = present_notes_of (sequences (train data))).
  { apply prepare_training_inr in Hp as [_ Hp']. now rewrite Hp'. }
  rewrite Hmask in Ht. rewrite Ht in He.
  cbn [p_sequences p_lengths num_observations select_notes dim0] in He.
  rewrite Hm, Hg in He, Hs.
  exists (l_prepared l), (l_svi l),
         (events (setup F g args data model w) ++
          events (training_loop F (l_svi l) (l_prepared l) args w1)),
         train_loss, test_loss.
  destruct (setup_event_extracts _ (setup_events_kind F g args data model w))
    as [Hs1 [Hs2 [_ [Hs4 _]]]].
  destruct (loop_event_extracts _ (training_loop_events_kind F (l_svi l) (l_prepared l) args w1))
    as [Hl1 [Hl2 _]].
  split; [exact Hp|]. split; [exact Hs|].
  rewrite elbo_losses_of_app, capacity_logs_of_app, svi_steps_of_app, Hs1, Hs2, Hs4,
          Hl1, Hl2.
  split; [reflexivity|]. split; [reflexivity|].
  split; [exact (training_loop_complete F _ _ _ _ _ Hloop)|].
  rewrite Hev, He. unfold compile_time_line. now rewrite <- !app_assoc.
Qed.

Lemma X17_evaluation_report_witness :
  let args := Toy.argv "1" 2 (Some 2%Z) false false false in
  exists tr,
    events (main_with_model Toy.F script_globals args Toy.data model_fn 0%nat) =
    tr ++ [get_param_store;
           logging_info (Capacity "1" (capacity_of (param_store_values Toy.F 4%nat)))].
Proof.
  cbv zeta.
  destruct (X17_evaluation_report Toy.F script_globals
              (Toy.argv "1" 2 (Some 2%Z) false false false) Toy.data model_fn
              0%nat 4%nat eq_refl)
    as [p [s [before [l1 [l2 [_ [_ [_ [_ [_ H]]]]]]]]]].
  rewrite H. cbn [Args.jit Args.time_compilation Toy.argv andb app].
  eexists (before ++ [_; _; _; _; _; _]). rewrite <- app_assoc. reflexivity.
Defined.

(** X18 (the way into a run): the script first checks the framework
    version and selects the backend, the funsor one exactly under
    [--funsor]; [main] then sets the default tensor type exactly under
    [--cuda], announces and loads the data, and only then looks the model
    up.  When the lookup fails the run ends there with its [KeyError];
    otherwise it continues as lines 131-271 on the object found. *)
Theorem X18_way_into_a_run
    {float trace_obj FW : Type} (F : framework float trace_obj FW)
    (pyro_version : string) (g : namespace) (args : Args.t) (data : dataset) (w : FW) :
  Py.startswith pyro_version "1.6.0" = true ->
  let backend :=
    if Args.funsor args
    then [funsor_set_backend "torch"; pyro_backend "contrib.funsor"]
    else [pyro_backend "pyro"] in
  let opening :=
    (if Args.cuda args then [set_default_tensor_type "torch.cuda.FloatTensor"] else []) ++
    [logging_info Loading_data; load_data; logging_info (Rule 40)] in
  let w0 :=
    if Args.cuda args
    then run_set_default_tensor_type F "torch.cuda.FloatTensor" w else w in
  events (script F pyro_version g args data w) =
    backend ++ events (main F g args data w) /\
  outcome (script F pyro_version g args data w) = outcome (main F g args data w) /\
  match Py.get g ("model_" ++ Args.model args)%string with
  | None =>
      main F g args data w = (opening, inl (Py.KeyError (Args.model args)))
  | Some model =>
      events (main F g args data w) =
        opening ++ events (main_with_model F g args data model w0) /\
      outcome (main F g args data w) =
        outcome (main_with_model F g args data model w0)
  end.
Proof.
  intros Hv. cbv zeta. split; [|split].
  - unfold script. rewrite Hv.
    destruct (Args.funsor args); unfold events, bind, emit; cbn;
      now destruct (main F g args data w) as [tr [e|[[] w']]].
  - unfold script. rewrite Hv.
    destruct (Args.funsor args); unfold outcome, bind, emit; cbn;
      now destruct (main F g args data w) as [tr [e|[[] w']]].
  - unfold main, lookup_model. rewrite models_get.
    destruct (Py.get g ("model_" ++ Args.model args)) as [model|].
    + destruct (Args.cuda args); unfold events, outcome, bind, emit, update, when, lift, ret;
        cbn; destruct (main_with_model F g args data model _) as [tr r];
        split; reflexivity.
    + destruct (Args.cuda args); reflexivity.
Qed.

Lemma X18_way_into_a_run_witness :
  outcome (script Toy.F "1.6.0" Toy.with_model_1
                  (Toy.argv "1" 2 None false false false) Toy.data 0%nat)
  = outcome (main Toy.F Toy.with_model_1
                  (Toy.argv "1" 2 None false false false) Toy.data 0%nat).
Proof.
  apply (X18_way_into_a_run Toy.F "1.6.0" Toy.with_model_1
           (Toy.argv "1" 2 None false false false) Toy.data 0%nat eq_refl).
Defined.
